(** * Course record normalizer: a model of [scraping/utils/data_cleaner.py]

    The development embeds the class [CourseDataCleaner] and the
    constants of [scraping/config.py] it reads, and states the
    properties of the specification over that embedding.

    - Python [str] is a list of code points ([N]).  The classes the
      regular expressions and [str.strip] use are written out for
      ASCII and for whitespace; for the rest of Unicode, and for the
      text of a finite float, the model asks the tables of the
      interpreter, collected in the class [PyRuntime].
    - A scraped or JSON-decoded value is a tagged union ([value]); a
      float is kept by what the code observes of it, its mantissa and
      exponent or that it is infinite or a NaN.  A course is a
      dictionary from field names to values ([gmap string value]).
    - An exception is a constructor of [exn]; a method that can raise
      returns a [result]; a method that reads or writes
      [self.validation_stats] lives in the monad [M], where what was
      written before an exception stays written.
    - The regular expressions are run by a backtracking matcher for
      sequences of greedy repetitions, the shape of every pattern of the
      file.
    - Calls of [logger] are kept by what can raise in their message and
      left out otherwise: the division in [log_validation_stats]
      ([percent]) and the f-strings that format the value of a field
      ([py_format]).  [save_processed_data] and [main] do input and
      output only and are not modelled.
    - The interpreter converts no integer of more than 4300 digits from
      or to text ([int_max_str_digits]): [int] of a string and the
      f-strings raise [ValueError] beyond it.  [str(text)] in the two
      text cleaners is embedded on the values it returns on: [py_str]
      is total and gives the digits of any integer.
    - Around the cleaner, the development also embeds what feeds it and
      what reads its output: the pure functions of
      [scraping/utils/helpers.py] the scrapers build their records with,
      the categorizing loop of [scraping/generate_csv_files.py] (the same
      loop is in [scraping/run_full_scrape.py]), and the paper table of
      [fix_questions.py]. *)

From Stdlib Require Import ZArith NArith Ascii String DecimalString.
From stdpp Require Import gmap strings list sorting.

Local Open Scope N_scope.

(** ** Strings as lists of code points *)

Abbreviation str := (list N).

(** An ASCII literal of the source, as code points. *)
Definition lit (s : string) : str :=
  (λ a : ascii, N_of_ascii a) <$> list_ascii_of_string s.

(** *** Character classes *)

Definition in_range (lo hi c : N) : bool := (lo <=? c) && (c <=? hi).

Definition is_ascii (c : N) : bool := c <? 128.

(** [str.isspace] on one code point; it is also what [\s] matches and what
    [str.strip()] removes. *)
Definition is_space (c : N) : bool :=
  in_range 0x09 0x0D c || in_range 0x1C 0x20 c || (c =? 0x85) || (c =? 0xA0)
  || (c =? 0x1680) || in_range 0x2000 0x200A c || (c =? 0x2028)
  || (c =? 0x2029) || (c =? 0x202F) || (c =? 0x205F) || (c =? 0x3000).

Definition is_upper_AZ (c : N) : bool := in_range 65 90 c.
Definition is_lower_az (c : N) : bool := in_range 97 122 c.
Definition is_digit_09 (c : N) : bool := in_range 48 57 c.

(** The interpreter's tables: what CPython's Unicode database and float
    printer answer outside ASCII.  Nothing is assumed about them. *)
Class PyRuntime := {
  (** [str.isalnum] of a code point above 127 *)
  uni_alnum : N → bool;
  (** the digit value of a decimal digit above 127 *)
  uni_decimal : N → option N;
  (** [str.lower], [str.upper], [str.title] of a string that is not ASCII *)
  uni_lower : str → str;
  uni_upper : str → str;
  uni_title : str → str;
  (** [repr] of the finite float [m * 2^e] *)
  float_repr_finite : Z → Z → str;
}.

(** The tables of a runtime that knows no character above 127.  The model
    consults them only on non-ASCII text. *)
Definition ascii_runtime : PyRuntime := {|
  uni_alnum := λ _, false;
  uni_decimal := λ _, None;
  uni_lower := λ s, s;
  uni_upper := λ s, s;
  uni_title := λ s, s;
  float_repr_finite := λ m e, [];
|}.

Section Strings.
Context {R : PyRuntime}.

(** [\w] *)
Definition is_word (c : N) : bool :=
  if is_ascii c
  then is_digit_09 c || is_upper_AZ c || is_lower_az c || (c =? 95)
  else uni_alnum c.

(** [\d] *)
Definition is_digit (c : N) : bool :=
  if is_ascii c then is_digit_09 c else bool_decide (is_Some (uni_decimal c)).

Definition digit_value (c : N) : option N :=
  if is_ascii c then (if is_digit_09 c then Some (c - 48) else None)
  else uni_decimal c.

(** *** [str] methods *)

Fixpoint lstrip (s : str) : str :=
  match s with
  | c :: s' => if is_space c then lstrip s' else s
  | [] => []
  end.

Definition rstrip (s : str) : str := reverse (lstrip (reverse s)).

Definition strip (s : str) : str := rstrip (lstrip s).

Definition lower_char (c : N) : N := if is_upper_AZ c then c + 32 else c.
Definition upper_char (c : N) : N := if is_lower_az c then c - 32 else c.

Definition lower (s : str) : str :=
  if forallb is_ascii s then lower_char <$> s else uni_lower s.

Definition upper (s : str) : str :=
  if forallb is_ascii s then upper_char <$> s else uni_upper s.

(** [str.title] on ASCII: a letter that follows a letter is lowered, any
    other letter is raised. *)
Fixpoint title_ascii (prev_cased : bool) (s : str) : str :=
  match s with
  | [] => []
  | c :: s' =>
      (if prev_cased then lower_char c else upper_char c)
        :: title_ascii (is_upper_AZ c || is_lower_az c) s'
  end.

Definition title (s : str) : str :=
  if forallb is_ascii s then title_ascii false s else uni_title s.

(** [s.replace(old, new)] for a one-character [old]. *)
Definition replace (old : N) (new : str) (s : str) : str :=
  s ≫= (λ c, if c =? old then new else [c]).

Fixpoint starts_with (p s : str) : bool :=
  match p, s with
  | [], _ => true
  | a :: p', b :: s' => (a =? b) && starts_with p' s'
  | _ :: _, [] => false
  end.

(** [needle in hay] *)
Fixpoint contains (needle hay : str) : bool :=
  starts_with needle hay ||
  match hay with
  | [] => false
  | _ :: hay' => contains needle hay'
  end.

(** [sep.join(parts)] *)
Fixpoint join (sep : str) (parts : list str) : str :=
  match parts with
  | [] => []
  | [p] => p
  | p :: ps => p ++ sep ++ join sep ps
  end.

(** [s.split(sep)] for a one-character [sep]. *)
Fixpoint split (sep : N) (s : str) : list str :=
  match s with
  | [] => [[]]
  | c :: s' =>
      match split sep s' with
      | w :: ws => if c =? sep then [] :: w :: ws else (c :: w) :: ws
      | [] => [[]]
      end
  end.

(** The order of [sorted] on strings: lexicographic on code points. *)
Fixpoint str_leb (a b : str) : bool :=
  match a, b with
  | [], _ => true
  | _ :: _, [] => false
  | x :: a', y :: b' => (x <? y) || ((x =? y) && str_leb a' b')
  end.

Definition sorted (l : list str) : list str :=
  merge_sort (λ a b, Is_true (str_leb a b)) l.

End Strings.

(** ** Regular expressions

    The patterns of the source are sequences of greedy bounded repetitions
    of a character class, with [\b] in one of them.  [re] tries the longest
    repetition first and backtracks to shorter ones. *)

Inductive item :=
  | Rep (cls : N → bool) (lo : nat) (hi : option nat)
  | WordB.

Fixpoint take_while (cls : N → bool) (s : str) : str :=
  match s with
  | c :: s' => if cls c then c :: take_while cls s' else []
  | [] => []
  end.

(** The first success of [f] on [n], [n-1], ..., [lo]. *)
Fixpoint first_down {A} (f : nat → option A) (lo n : nat) : option A :=
  if (n <? lo)%nat then None else
  match f n with
  | Some a => Some a
  | None => match n with O => None | S n' => first_down f lo n' end
  end.

Definition last_of (prev : option N) (w : str) : option N :=
  match last w with Some c => Some c | None => prev end.

Section Regex.
Context {R : PyRuntime}.

Definition word_opt (c : option N) : bool :=
  match c with Some c => is_word c | None => false end.

(** [\b] holds between [prev] and the head of [s]. *)
Definition at_boundary (prev : option N) (s : str) : bool :=
  xorb (word_opt prev) (word_opt (head s)).

(** Match the items at the start of [s], [prev] being the character before
    it; the result has the text each item consumed. *)
Fixpoint match_items (p : list item) (prev : option N) (s : str)
  : option (list str) :=
  match p with
  | [] => Some []
  | WordB :: p' =>
      if at_boundary prev s then cons [] <$> match_items p' prev s else None
  | Rep cls lo hi :: p' =>
      let run := length (take_while cls s) in
      let top := match hi with Some h => Nat.min h run | None => run end in
      first_down
        (λ n, cons (take n s)
                <$> match_items p' (last_of prev (take n s)) (drop n s))
        lo top
  end.

(** [re.search]: the leftmost position with a match, and its pieces. *)
Fixpoint search_from (p : list item) (prev : option N) (s : str) (i : nat)
  : option (nat * list str) :=
  match match_items p prev s with
  | Some ps => Some (i, ps)
  | None =>
      match s with
      | [] => None
      | c :: s' => search_from p (Some c) s' (S i)
      end
  end.

Definition re_search (p : list item) (s : str) : option (nat * list str) :=
  search_from p None s 0.

(** [re.sub] and [re.findall] for a pattern that matches no empty string:
    [skip] counts the characters of the current match still to pass. *)
Fixpoint sub_from (p : list item) (repl : str) (skip : nat)
    (prev : option N) (s : str) : str :=
  match s with
  | [] => []
  | c :: s' =>
      match skip with
      | S k => sub_from p repl k (Some c) s'
      | O =>
          match match_items p prev s with
          | Some ps =>
              repl ++ sub_from p repl (pred (length (concat ps))) (Some c) s'
          | None => c :: sub_from p repl O (Some c) s'
          end
      end
  end.

Definition re_sub (p : list item) (repl s : str) : str :=
  sub_from p repl O None s.

Fixpoint findall_from (p : list item) (skip : nat) (prev : option N)
    (s : str) : list str :=
  match s with
  | [] => []
  | c :: s' =>
      match skip with
      | S k => findall_from p k (Some c) s'
      | O =>
          match match_items p prev s with
          | Some ps =>
              concat ps :: findall_from p (pred (length (concat ps))) (Some c) s'
          | None => findall_from p O (Some c) s'
          end
      end
  end.

Definition re_findall (p : list item) (s : str) : list str :=
  findall_from p O None s.

(** The patterns of [data_cleaner.py]. *)

(** [\s+] *)
Definition re_spaces : list item := [Rep is_space 1 None].

(** [[^\w\s\-.,()&/]] *)
Definition is_unwanted (c : N) : bool :=
  negb (is_word c || is_space c
        || bool_decide (c ∈ lit "-.,()&/")).
Definition re_unwanted : list item := [Rep is_unwanted 1 (Some 1%nat)].

(** [([A-Z]{2,4})(\d{3,4})] *)
Definition re_cao : list item :=
  [Rep is_upper_AZ 2 (Some 4%nat); Rep is_digit 3 (Some 4%nat)].

(** [[^A-Z0-9]] *)
Definition is_not_AZ09 (c : N) : bool := negb (is_upper_AZ c || is_digit_09 c).
Definition re_not_AZ09 : list item := [Rep is_not_AZ09 1 (Some 1%nat)].

(** [\b([A-Z]{2,4}\d{3,4})\b] *)
Definition re_cao_word : list item :=
  [WordB; Rep is_upper_AZ 2 (Some 4%nat); Rep is_digit 3 (Some 4%nat); WordB].

(** [(\d+)] *)
Definition re_number : list item := [Rep is_digit 1 None].

(** [\w+] *)
Definition re_words : list item := [Rep is_word 1 None].

End Regex.

(** ** Values and exceptions *)

(** A float by what the code can observe of it: [FFinite m e] is
    [m * 2^e]. *)
Inductive pyfloat :=
  | FNan
  | FInf (negative : bool)
  | FFinite (m e : Z).

(** The values a scraped or JSON-decoded field holds. *)
Inductive value :=
  | VNone
  | VBool (b : bool)
  | VInt (z : Z)
  | VFloat (f : pyfloat)
  | VStr (s : str).

Inductive exn :=
  | ZeroDivisionError
  | OverflowError
  | ValueError
  | TypeError
  | AttributeError.

Inductive result (A : Type) :=
  | Ok (a : A)
  | Raise (e : exn).
Arguments Ok {A} a.
Arguments Raise {A} e.

#[global] Instance pyfloat_eq_dec : EqDecision pyfloat.
Proof. solve_decision. Defined.
#[global] Instance value_eq_dec : EqDecision value.
Proof. solve_decision. Defined.
#[global] Instance exn_eq_dec : EqDecision exn.
Proof. solve_decision. Defined.
#[global] Instance result_eq_dec {A} `{EqDecision A} : EqDecision (result A).
Proof. solve_decision. Defined.

#[global] Instance result_ret : MRet result := λ A a, Ok a.
#[global] Instance result_bind : MBind result := λ A B k r,
  match r with Ok a => k a | Raise e => Raise e end.

(** [try: r except (ValueError, TypeError): return handler] *)
Definition except_value_type {A} (r : result A) (handler : A) : result A :=
  match r with
  | Raise ValueError | Raise TypeError => Ok handler
  | _ => r
  end.

(** The same statement where the handler reads a variable the block may
    have rebound before it raised: the block gives its outcome and the
    variable as it left it. *)
Definition try_except_value_type {A V} (block : result A * V)
    (handler : V → result A) : result A :=
  match block.1 with
  | Raise ValueError | Raise TypeError => handler block.2
  | r => r
  end.

(** [bool(v)] *)
Definition truthy (v : value) : bool :=
  match v with
  | VNone => false
  | VBool b => b
  | VInt z => negb (z =? 0)%Z
  | VFloat (FFinite m _) => negb (m =? 0)%Z
  | VFloat _ => true
  | VStr s => match s with [] => false | _ => true end
  end.

(** [str(z)] for an integer. *)
Definition str_of_Z (z : Z) : str := lit (NilZero.string_of_int (Z.to_int z)).

(** [int(x)] of a finite float: truncation toward zero. *)
Definition float_trunc (m e : Z) : Z :=
  if (0 <=? e)%Z then (m * 2 ^ e)%Z else (m ÷ 2 ^ (- e))%Z.

(** The whitespace [int] skips once the text is ASCII. *)
Definition is_c_space (c : N) : bool := in_range 9 13 c || (c =? 32).

Fixpoint skip_c_space (s : str) : str :=
  match s with
  | c :: s' => if is_c_space c then skip_c_space s' else s
  | [] => []
  end.

(** Digits with single underscores between them. *)
Fixpoint int_body (acc : Z) (after_digit : bool) (s : str) : option Z :=
  match s with
  | [] => if after_digit then Some acc else None
  | c :: s' =>
      if is_digit_09 c then int_body (10 * acc + Z.of_N (c - 48)) true s'
      else if (c =? 95) && after_digit then int_body acc false s'
      else None
  end.

(** The most digits the interpreter converts between an integer and text:
    [sys.get_int_max_str_digits()], 4300 unless it is configured. *)
Definition int_max_str_digits : nat := 4300.

(** An integer of more digits than that. *)
Definition too_many_digits (z : Z) : bool :=
  negb (Z.abs z <? 10 ^ Z.of_nat int_max_str_digits)%Z.
Arguments too_many_digits : simpl never.

(** The digits of a text, as [int] counts them against the limit. *)
Fixpoint digit_count (s : str) : nat :=
  match s with
  | c :: s' => if is_digit_09 c then S (digit_count s') else digit_count s'
  | [] => O
  end.

(** The digits of [int(s)] after the sign, refused beyond the limit. *)
Definition int_literal (body : str) : option Z :=
  if (int_max_str_digits <? digit_count body)%nat then None
  else int_body 0 false body.

Section Conversions.
Context {R : PyRuntime}.

(** [str(v)], where it returns: the interpreter gives no text for an
    integer of too many digits, the embedding gives its digits. *)
Definition py_str (v : value) : str :=
  match v with
  | VNone => lit "None"
  | VBool true => lit "True"
  | VBool false => lit "False"
  | VInt z => str_of_Z z
  | VFloat FNan => lit "nan"
  | VFloat (FInf false) => lit "inf"
  | VFloat (FInf true) => lit "-inf"
  | VFloat (FFinite m e) => float_repr_finite m e
  | VStr s => s
  end.

(** [f"{v}"]: the text of [v] in an f-string, which raises on an integer
    of too many digits. *)
Definition py_format (v : value) : result str :=
  match v with
  | VInt z => if too_many_digits z then Raise ValueError else Ok (py_str v)
  | _ => Ok (py_str v)
  end.

(** What [int] first does to a character: spaces and decimal digits of
    Unicode become ASCII. *)
Definition to_ascii (c : N) : option N :=
  if c <? 127 then Some c
  else if is_space c then Some 32
  else (λ d, 48 + d) <$> digit_value c.

(** [int(s)] for a string, [None] where it raises [ValueError]. *)
Definition parse_int (s : str) : option Z :=
  t ← mapM to_ascii s;
  let t := reverse (skip_c_space (reverse (skip_c_space t))) in
  match t with
  | 45 :: body => Z.opp <$> int_literal body
  | 43 :: body => int_literal body
  | _ => int_literal t
  end.

(** [int(v)] *)
Definition py_int (v : value) : result Z :=
  match v with
  | VNone => Raise TypeError
  | VBool b => Ok (if b then 1 else 0)%Z
  | VInt z => Ok z
  | VFloat FNan => Raise ValueError
  | VFloat (FInf _) => Raise OverflowError
  | VFloat (FFinite m e) => Ok (float_trunc m e)
  | VStr s =>
      match parse_int s with
      | Some z => Ok z
      | None => Raise ValueError
      end
  end.

End Conversions.

(** ** [scraping/config.py] *)

Record validation_rules := {
  required_fields : list string;
  min_description_length : nat;
  valid_nfq_levels : list Z;
  max_course_name_length : nat;
  min_course_name_length : nat;
}.

Definition VALIDATION_RULES : validation_rules := {|
  required_fields := ["name"; "nfq_level"]%string;
  min_description_length := 5;
  valid_nfq_levels := [5; 6; 7; 8; 9; 10]%Z;
  max_course_name_length := 200;
  min_course_name_length := 3;
|}.

(** ** Field cleaners *)

Section FieldCleaners.
Context {R : PyRuntime}.

(** The two text cleaners, on the values [str(text)] returns on. *)
Definition clean_text_field (text : value) : str :=
  if negb (truthy text) then [] else
  let text := strip (py_str text) in
  let text := re_sub re_spaces (lit " ") text in
  let text := replace 0x00A0 (lit " ") text in
  let text := replace 0x2019 (lit "'") text in
  let text := replace 0x201C [34] text in
  let text := replace 0x201D [34] text in
  let text := replace 0x2013 (lit "-") text in
  let text := replace 0x2014 (lit "-") text in
  let text := re_sub re_unwanted [] text in
  strip text.

Definition standardize_cao_code (code : value) : str :=
  if negb (truthy code) then [] else
  let code := upper (strip (py_str code)) in
  match re_search re_cao code with
  | Some (_, [g1; g2]) => g1 ++ g2
  | _ =>
      match code with
      | [] => []
      | _ => re_sub re_not_AZ09 [] code
      end
  end.

(** The two messages of [logger.debug] format [level]: the integer once
    [int] has returned, the value given before that. *)
Definition clean_nfq_level (level : value) : result Z :=
  if negb (truthy level) then Ok 8%Z else
  try_except_value_type
    (match py_int level with
     | Ok n =>
         let level := VInt n in
         (if bool_decide (n ∈ valid_nfq_levels VALIDATION_RULES)
          then Ok n
          else _ ← py_format level; Ok 8%Z,
          level)
     | Raise e => (Raise e, level)
     end)
    (λ level, _ ← py_format level; Ok 8%Z).

Definition clean_points (points : value) : result Z :=
  if negb (truthy points) then Ok 0%Z else
  try_except_value_type
    (match py_int points with
     | Ok n =>
         let points := VInt n in
         (if ((0 <=? n) && (n <=? 625))%Z
          then Ok n
          else _ ← py_format points; Ok 0%Z,
          points)
     | Raise e => (Raise e, points)
     end)
    (λ points, _ ← py_format points; Ok 0%Z).

Definition clean_college_id (college_id : value) : result Z :=
  if negb (truthy college_id) then Ok 1%Z else
  except_value_type
    (college_id ← py_int college_id;
     if (0 <? college_id)%Z then Ok college_id else Ok 1%Z)
    1%Z.

End FieldCleaners.

(** ** Course records and the cleaner's statistics *)

Abbreviation CourseRecord := (gmap string value).

(** The variables of the loop of [remove_duplicates]: [seen_keys],
    [unique_courses], [duplicates_count]. *)
Abbreviation dedup_state := (gset str * list CourseRecord * nat)%type.

(** [course.get(key, default)] *)
Definition get_or (c : CourseRecord) (key : string) (default : value) : value :=
  match c !! key with Some v => v | None => default end.

(** [self.validation_stats] *)
Record stats := {
  total_records : nat;
  valid_records : nat;
  duplicates_removed : nat;
  validation_errors : gmap str (list str);
}.

(** [CourseDataCleaner.__init__] *)
Definition init_stats : stats := {|
  total_records := 0;
  valid_records := 0;
  duplicates_removed := 0;
  validation_errors := ∅;
|}.

Definition set_total_records (n : nat) (st : stats) : stats :=
  {| total_records := n; valid_records := valid_records st;
     duplicates_removed := duplicates_removed st;
     validation_errors := validation_errors st |}.

Definition set_valid_records (n : nat) (st : stats) : stats :=
  {| total_records := total_records st; valid_records := n;
     duplicates_removed := duplicates_removed st;
     validation_errors := validation_errors st |}.

Definition set_duplicates_removed (n : nat) (st : stats) : stats :=
  {| total_records := total_records st; valid_records := valid_records st;
     duplicates_removed := n;
     validation_errors := validation_errors st |}.

Definition set_validation_error (key : str) (errors : list str) (st : stats)
  : stats :=
  {| total_records := total_records st; valid_records := valid_records st;
     duplicates_removed := duplicates_removed st;
     validation_errors := <[key := errors]> (validation_errors st) |}.

(** A method of the cleaner: it may raise, and what it wrote to
    [self.validation_stats] before stays written. *)
Definition M (A : Type) : Type := stats → result A * stats.

#[global] Instance M_ret : MRet M := λ A a st, (Ok a, st).
#[global] Instance M_bind : MBind M := λ A B k m st,
  match m st with
  | (Ok a, st') => k a st'
  | (Raise e, st') => (Raise e, st')
  end.

Definition lift {A} (r : result A) : M A := λ st, (r, st).
Definition modify (f : stats → stats) : M unit := λ st, (Ok tt, f st).
Definition read : M stats := λ st, (Ok st, st).

(** [[x for x in l if keep(x)]] where [keep] is a method. *)
Fixpoint filterM {A} (keep : A → M bool) (l : list A) : M (list A) :=
  match l with
  | [] => mret []
  | x :: l' =>
      b ← keep x;
      rest ← filterM keep l';
      mret (if b : bool then x :: rest else rest)
  end.

(** A [for] loop that threads an accumulator and may raise. *)
Fixpoint for_each {A S} (body : S → A → result S) (acc : S) (l : list A)
  : result S :=
  match l with
  | [] => Ok acc
  | x :: l' => acc' ← body acc x; for_each body acc' l'
  end.

(** [len(v)], defined on strings only among the values. *)
Definition py_len (v : value) : result nat :=
  match v with
  | VStr s => Ok (length s)
  | _ => Raise TypeError
  end.

(** [v[:n]] *)
Definition py_prefix (n : nat) (v : value) : result str :=
  match v with
  | VStr s => Ok (take n s)
  | _ => Raise TypeError
  end.

(** [v == z] for an integer [z], as [in] on a list of integers tests it. *)
Definition eq_int (v : value) (z : Z) : bool :=
  match v with
  | VInt n => (n =? z)%Z
  | VBool b => ((if b then 1 else 0) =? z)%Z
  | VFloat (FFinite m e) =>
      if (0 <=? e)%Z then (m * 2 ^ e =? z)%Z else (m =? z * 2 ^ (- e))%Z
  | _ => false
  end.

Definition in_ints (v : value) (l : list Z) : bool := existsb (eq_int v) l.

Section Cleaner.
Context {R : PyRuntime}.

(** [v.lower()], [v.upper()], [v.strip()] *)
Definition py_lower (v : value) : result str :=
  match v with VStr s => Ok (lower s) | _ => Raise AttributeError end.
Definition py_upper (v : value) : result str :=
  match v with VStr s => Ok (upper s) | _ => Raise AttributeError end.
Definition py_strip (v : value) : result str :=
  match v with VStr s => Ok (strip s) | _ => Raise AttributeError end.

(** *** [clean_single_course] *)

Definition text_fields : list string :=
  ["name"; "description"; "duration"; "tags"; "entry_requirements";
   "career_info"]%string.

Definition clean_text_at (cleaned : CourseRecord) (field : string) : CourseRecord :=
  match cleaned !! field with
  | Some v => <[field := VStr (clean_text_field v)]> cleaned
  | None => cleaned
  end.

Definition clean_number_at (clean : value → result Z) (field : string)
    (cleaned : CourseRecord) : result CourseRecord :=
  match cleaned !! field with
  | Some v => n ← clean v; Ok (<[field := VInt n]> cleaned)
  | None => Ok cleaned
  end.

Definition clean_single_course (course : CourseRecord) : result CourseRecord :=
  let cleaned := course in
  let cleaned := foldl clean_text_at cleaned text_fields in
  let cleaned :=
    match cleaned !! "cao_code"%string with
    | Some v => <["cao_code"%string := VStr (standardize_cao_code v)]> cleaned
    | None => cleaned
    end in
  cleaned ← clean_number_at clean_nfq_level "nfq_level" cleaned;
  cleaned ← clean_number_at clean_points "points" cleaned;
  cleaned ← clean_number_at clean_college_id "college_id" cleaned;
  Ok cleaned.

(** *** [validate_course] *)

Definition invalid_names : list str :=
  [lit "about us"; lit "contact us"; lit "help"; lit "privacy"; lit "cookie";
   lit "accessibility"; lit "terms"].

(** The loop over the required fields. *)
Definition missing_required (course : CourseRecord) : list str :=
  field ← required_fields VALIDATION_RULES;
  match course !! field with
  | Some v => if truthy v then [] else [lit "Missing required field: " ++ lit field]
  | None => [lit "Missing required field: " ++ lit field]
  end.

(** The description check: it only logs, and on the way takes [len] and,
    for a short description, formats the name. *)
Definition check_description (course : CourseRecord) : result unit :=
  let description := get_or course "description" (VStr []) in
  if truthy description then
    n ← py_len description;
    if (n <? min_description_length VALIDATION_RULES)%nat
    then _ ← py_format (get_or course "name" (VStr (lit "Unknown"))); Ok tt
    else Ok tt
  else Ok tt.

Definition name_too_long (name : value) : result (list str) :=
  if truthy name then
    n ← py_len name;
    if (max_course_name_length VALIDATION_RULES <? n)%nat
    then Ok [lit "Course name too long: " ++ str_of_Z (Z.of_nat n)
               ++ lit " chars"]
    else Ok []
  else Ok [].

Definition name_too_short (name : value) : result (list str) :=
  if truthy name then
    n ← py_len name;
    if (n <? min_course_name_length VALIDATION_RULES)%nat
    then Ok [lit "Course name too short: " ++ str_of_Z (Z.of_nat n)
               ++ lit " chars"]
    else Ok []
  else Ok [lit "Course name too short: 0 chars"].

Definition system_page (name : value) : result (list str) :=
  if truthy name then
    low ← py_lower name;
    if existsb (λ invalid, contains invalid low) invalid_names
    then Ok [lit "Not a course entry (system page)"]
    else Ok []
  else Ok [].

Definition invalid_nfq (course : CourseRecord) : result (list str) :=
  let nfq_level := get_or course "nfq_level" VNone in
  if in_ints nfq_level (valid_nfq_levels VALIDATION_RULES) then Ok []
  else text ← py_format nfq_level; Ok [lit "Invalid NFQ level: " ++ text].

(** The list [errors] as the method has it before it decides. *)
Definition validation_errors_of (course : CourseRecord) : result (list str) :=
  let e1 := missing_required course in
  _ ← check_description course;
  let name := get_or course "name" (VStr []) in
  e2 ← name_too_long name;
  e3 ← name_too_short name;
  e4 ← system_page name;
  e5 ← invalid_nfq course;
  Ok (e1 ++ e2 ++ e3 ++ e4 ++ e5).

(** The key of a rejected course in [validation_errors]. *)
Definition error_key (course : CourseRecord) : result str :=
  py_prefix 50 (get_or course "name" (VStr (lit "Unknown"))).

Definition validate_course (course : CourseRecord) : M bool :=
  errors ← lift (validation_errors_of course);
  match errors with
  | [] => mret true
  | _ =>
      course_name ← lift (error_key course);
      _ ← modify (set_validation_error course_name errors);
      mret false
  end.

(** *** [remove_duplicates] *)

Definition dedup_key (course : CourseRecord) : result str :=
  name ← py_lower (get_or course "name" (VStr []));
  let name := strip name in
  cao_code ← py_strip (get_or course "cao_code" (VStr []));
  match cao_code with
  | [] => Ok name
  | _ => Ok (name ++ lit "|" ++ cao_code)
  end.

Definition dedup_step (acc : dedup_state) (course : CourseRecord)
  : result dedup_state :=
  let '(seen_keys, unique_courses, duplicates_count) := acc in
  key ← dedup_key course;
  match key with
  | _ :: _ =>
      if bool_decide (key ∉ seen_keys)
      then Ok ({[key]} ∪ seen_keys, unique_courses ++ [course],
               duplicates_count)
      else Ok (seen_keys, unique_courses, S duplicates_count)
  | [] => Ok (seen_keys, unique_courses, S duplicates_count)
  end.

Definition dedup_loop (courses : list CourseRecord) : result dedup_state :=
  for_each dedup_step (∅, [], O) courses.

Definition remove_duplicates (courses : list CourseRecord) : M (list CourseRecord) :=
  '(_, unique_courses, duplicates_count) ← lift (dedup_loop courses);
  _ ← modify (set_duplicates_removed duplicates_count);
  mret unique_courses.

(** *** [enhance_course_data] *)

Definition extract_cao_code_from_name (name : value) : result str :=
  if negb (truthy name) then Ok [] else
  name ← py_upper name;
  match re_search re_cao_word name with
  | Some (_, groups) => Ok (concat groups)
  | None => Ok []
  end.

Definition stem_keywords : list str :=
  [lit "engineer"; lit "computer"; lit "science"; lit "technology";
   lit "math"; lit "physics"; lit "chemistry"; lit "biology"; lit "data"].
Definition business_keywords : list str :=
  [lit "business"; lit "management"; lit "accounting"; lit "finance";
   lit "marketing"; lit "economics"].
Definition arts_keywords : list str :=
  [lit "art"; lit "design"; lit "music"; lit "creative"; lit "media";
   lit "film"; lit "drama"; lit "literature"].
Definition health_keywords : list str :=
  [lit "health"; lit "medicine"; lit "nursing"; lit "therapy"; lit "medical";
   lit "care"].
Definition education_keywords : list str :=
  [lit "education"; lit "teaching"; lit "early learning"; lit "childcare"].

(** [any(keyword in content for keyword in keywords)] *)
Definition any_in (keywords : list str) (content : str) : bool :=
  existsb (λ keyword, contains keyword content) keywords.

(** [if any(...): tags.add(tag)] *)
Definition add_if (keywords : list str) (content : str) (tag : str)
    (tags : gset str) : gset str :=
  if any_in keywords content then {[tag]} ∪ tags else tags.

(** The string [content] the tags are read from. *)
Definition tag_content (course : CourseRecord) : result str :=
  name ← py_lower (get_or course "name" (VStr []));
  description ← py_lower (get_or course "description" (VStr []));
  Ok (name ++ lit " " ++ description).

Definition improve_tags (course : CourseRecord) : result str :=
  content ← tag_content course;
  let tags : gset str := ∅ in
  let tags := add_if stem_keywords content (lit "STEM") tags in
  let tags := add_if business_keywords content (lit "Business") tags in
  let tags := add_if arts_keywords content (lit "Arts") tags in
  let tags := add_if health_keywords content (lit "Health") tags in
  let tags := add_if education_keywords content (lit "Education") tags in
  let tags := if bool_decide (tags = ∅) then {[lit "General"]} else tags in
  Ok (join (lit ", ") (sorted (elements tags))).

(** [f"{num} Unit{'s' if num > 1 else ''}"] *)
Definition render_duration (num : Z) (unit : str) : str :=
  str_of_Z num ++ lit " " ++ unit ++ (if (1 <? num)%Z then lit "s" else []).

(** One of the three [if 'unit' in duration] blocks: [None] when it falls
    through to the next one. *)
Definition duration_with (word unit duration : str) : option (result str) :=
  if contains word duration then
    match re_search re_number duration with
    | Some (_, groups) =>
        Some (num ← py_int (VStr (concat groups));
              Ok (render_duration num unit))
    | None => None
    end
  else None.

Definition standardize_duration (duration : value) : result str :=
  if negb (truthy duration) then Ok [] else
  duration ← py_lower duration;
  let duration := strip duration in
  match duration_with (lit "year") (lit "Year") duration with
  | Some r => r
  | None =>
  match duration_with (lit "month") (lit "Month") duration with
  | Some r => r
  | None =>
  match duration_with (lit "week") (lit "Week") duration with
  | Some r => r
  | None => Ok (title duration)
  end end end.

(** [{w.lower() for w in re.findall(r'\w+', text) if len(w) > n}], for a
    [text] that is not empty. *)
Definition long_words (n : nat) (text : value) : result (gset str) :=
  if truthy text then
    match text with
    | VStr s =>
        Ok (list_to_set
              (lower <$> filter (λ w, n < length w)%nat (re_findall re_words s)))
    | _ => Raise TypeError
    end
  else Ok ∅.

Definition tag_words (tags : value) : result (gset str) :=
  if truthy tags then
    match tags with
    | VStr s => Ok (list_to_set (lower <$> split 44 s))
    | _ => Raise AttributeError
    end
  else Ok ∅.

Definition stop_words : gset str :=
  list_to_set
    [lit "the"; lit "and"; lit "for"; lit "are"; lit "with"; lit "this";
     lit "that"; lit "course"; lit "programme"; lit "program"].

Definition generate_keywords (course : CourseRecord) : result str :=
  from_name ← long_words 2 (get_or course "name" (VStr []));
  from_description ← long_words 3 (get_or course "description" (VStr []));
  from_tags ← tag_words (get_or course "tags" (VStr []));
  let keywords := from_name ∪ from_description ∪ from_tags in
  let keywords := keywords ∖ stop_words in
  Ok (join (lit ", ") (sorted (elements keywords))).

Definition enhance_course_data (course : CourseRecord) : result CourseRecord :=
  let enhanced := course in
  enhanced ←
    (if truthy (get_or enhanced "cao_code" VNone) then Ok enhanced
     else
       code ← extract_cao_code_from_name (get_or enhanced "name" (VStr []));
       Ok (<["cao_code"%string := VStr code]> enhanced));
  tags ← improve_tags enhanced;
  let enhanced := <["tags"%string := VStr tags]> enhanced in
  duration ← standardize_duration (get_or enhanced "duration" (VStr []));
  let enhanced := <["duration"%string := VStr duration]> enhanced in
  keywords ← generate_keywords enhanced;
  Ok (<["keywords"%string := VStr keywords]> enhanced).

(** *** [log_validation_stats] and [clean_course_data] *)

(** [a / b * 100] on two counts: the quotient goes to the log only, so the
    model keeps whether the division raises. *)
Definition percent (a b : nat) : result unit :=
  match b with
  | O => Raise ZeroDivisionError
  | S _ => Ok tt
  end.

Definition log_validation_stats : M unit :=
  stats ← read;
  _ ← lift (percent (valid_records stats) (total_records stats));
  mret tt.

Definition clean_course_data (courses : list CourseRecord)
  : M (list CourseRecord) :=
  _ ← modify (set_total_records (length courses));
  cleaned_courses ← lift (mapM clean_single_course courses);
  valid_courses ← filterM validate_course cleaned_courses;
  unique_courses ← remove_duplicates valid_courses;
  enhanced_courses ← lift (mapM enhance_course_data unique_courses);
  _ ← modify (set_valid_records (length enhanced_courses));
  _ ← log_validation_stats;
  mret enhanced_courses.

End Cleaner.

(** * Definitions for the statements *)

(** The floats [inf] and [-inf]. *)
Definition is_infinite (v : value) : Prop :=
  ∃ negative, v = VFloat (FInf negative).

(** A field that is absent or holds text. *)
Definition is_text (v : option value) : Prop :=
  match v with
  | None | Some (VStr _) => True
  | Some _ => False
  end.

(** The order of [sorted], as a relation. *)
Definition str_le (a b : str) : Prop := Is_true (str_leb a b).

(** What a piece of a match is, item by item. *)
Definition piece_ok (it : item) (w : str) : Prop :=
  match it with
  | Rep cls lo hi =>
      forallb cls w = true ∧ (lo ≤ length w)%nat
      ∧ match hi with Some h => (length w ≤ h)%nat | None => True end
  | WordB => w = []
  end.

(** An item that is a repetition, not [\b]. *)
Definition is_rep (it : item) : Prop :=
  match it with Rep _ _ _ => True | WordB => False end.

(** The character before position [k] of [s]. *)
Definition prev_at (prev : option N) (s : str) (k : nat) : option N :=
  last_of prev (take k s).

(** A numeric field that holds no infinite float. *)
Definition finite_at (course : CourseRecord) (field : string) : Prop :=
  ∀ v, course !! field = Some v → ¬ is_infinite v.

(** A raw record whose three numeric fields hold no infinite float. *)
Definition finite_numbers (course : CourseRecord) : Prop :=
  finite_at course "nfq_level" ∧ finite_at course "points"
  ∧ finite_at course "college_id".

(** A number the interpreter can print once [int] has read it: an integer
    within the digit limit, a float in the range of a double, and any
    value that is no number. *)
Definition printable_number (v : value) : Prop :=
  match v with
  | VInt z => too_many_digits z = false
  | VFloat (FFinite m e) => (Z.abs (float_trunc m e) < 2 ^ 1024)%Z
  | _ => True
  end.

(** The fields the later stages read as text. *)
Definition cleaned_text (course : CourseRecord) : Prop :=
  is_text (course !! "name"%string)
  ∧ is_text (course !! "description"%string)
  ∧ is_text (course !! "duration"%string)
  ∧ is_text (course !! "cao_code"%string).

(** The records [remove_duplicates] can key: name and code are text. *)
Definition has_text_keys (course : CourseRecord) : Prop :=
  is_text (course !! "name"%string) ∧ is_text (course !! "cao_code"%string).

Section StatementDefinitions.
Context {R : PyRuntime}.

(** 2 to 4 letters [A-Z] and 3 to 4 digits. *)
Definition cao_shape (letters digits : str) : Prop :=
  (2 ≤ length letters ≤ 4)%nat ∧ forallb is_upper_AZ letters = true
  ∧ (3 ≤ length digits ≤ 4)%nat ∧ forallb is_digit digits = true.

(** The code [re.search] finds in the text [u], cut out of it: no code
    starts before it, and it has a fourth digit when a digit follows its
    third. *)
Definition first_code (u pre letters digits post : str) : Prop :=
  u = pre ++ letters ++ digits ++ post
  ∧ cao_shape letters digits
  ∧ (∀ pre' letters' digits' post',
       u = pre' ++ letters' ++ digits' ++ post' →
       cao_shape letters' digits' → (length pre ≤ length pre')%nat)
  ∧ (length digits = 4%nat
     ∨ match post with c :: _ => is_digit c = false | [] => True end).

(** A record whose key [remove_duplicates] computes without raising. *)
Definition keyable (course : CourseRecord) : Prop :=
  ∃ key, dedup_key course = Ok key.

(** What [validate_course] writes to [validation_errors] for a record. *)
Definition rejection (course : CourseRecord) : option (str * list str) :=
  match validation_errors_of course, error_key course with
  | Ok (e :: es), Ok key => Some (key, e :: es)
  | _, _ => None
  end.

(** The mapping after one more record went through the validator. *)
Definition record_rejection (errors : gmap str (list str))
    (course : CourseRecord) : gmap str (list str) :=
  match rejection course with
  | Some (key, reasons) => <[key := reasons]> errors
  | None => errors
  end.

(** The name of a category when one of its keywords is in the content. *)
Definition category_if (keywords : list str) (content tag : str) : list str :=
  if any_in keywords content then [tag] else [].

(** The categories that match, in the order the method tests them. *)
Definition matching_categories (content : str) : list str :=
  category_if stem_keywords content (lit "STEM")
  ++ category_if business_keywords content (lit "Business")
  ++ category_if arts_keywords content (lit "Arts")
  ++ category_if health_keywords content (lit "Health")
  ++ category_if education_keywords content (lit "Education").


End StatementDefinitions.

(** ** Sample records *)

(** A record with an empty name and no code. *)
Definition unnamed_course : CourseRecord := {["name"%string := VStr []]}.

(** Two records named ["Physics"], the second with a description. *)
Definition physics_a : CourseRecord := {["name"%string := VStr (lit "Physics")]}.

Definition physics_b : CourseRecord :=
  <["description"%string := VStr (lit "second")]> physics_a.

(** A scraped record with a level given as text. *)
Definition physics_raw : CourseRecord :=
  <["nfq_level"%string := VStr (lit "12")]> physics_a.

(** A navigation link scraped as a course. *)
Definition contact_us : CourseRecord :=
  <["nfq_level"%string := VInt 8]> {["name"%string := VStr (lit "Contact Us")]}.

(** Two footer links whose names differ after the 50th character. *)
Definition terms_prefix : str :=
  lit "Terms and conditions of use for all the courses of ".

Definition terms_2024 : CourseRecord :=
  <["nfq_level"%string := VInt 8]>
    {["name"%string := VStr (terms_prefix ++ lit "2024")]}.

Definition terms_2025 : CourseRecord :=
  {["name"%string := VStr (terms_prefix ++ lit "2025")]}.

Definition terms_2024_reasons : list str :=
  [lit "Not a course entry (system page)"].

Definition terms_2025_reasons : list str :=
  [lit "Missing required field: nfq_level";
   lit "Not a course entry (system page)";
   lit "Invalid NFQ level: None"].

(** A course that matches three categories, and one that matches none. *)
Definition health_data_course : CourseRecord :=
  <["description"%string := VStr (lit "Statistics for hospital management")]>
    {["name"%string := VStr (lit "BSc in Data Science for Health Care")]}.

Definition philosophy_course : CourseRecord :=
  {["name"%string := VStr (lit "Philosophy")]}.

(** The records of the scenarios of the specification. *)
Definition beng_text : CourseRecord :=
  list_to_map
    [("name"%string, VStr (lit "BEng in Computer Engineering"));
     ("cao_code"%string, VStr []);
     ("nfq_level"%string, VStr (lit "8"));
     ("points"%string, VStr (lit "450"))].

Definition beng_numbers : CourseRecord :=
  list_to_map
    [("name"%string, VStr (lit "BEng in Computer Engineering"));
     ("cao_code"%string, VStr []);
     ("nfq_level"%string, VInt 8);
     ("points"%string, VInt 450)].

Definition hi_course : CourseRecord :=
  list_to_map [("name"%string, VStr (lit "Hi")); ("nfq_level"%string, VInt 8)].

Definition msc_accounting : CourseRecord :=
  list_to_map
    [("name"%string, VStr (lit "MSc in Accounting"));
     ("description"%string, VStr (lit "finance and management"));
     ("nfq_level"%string, VStr (lit "9"))].

(** * Callers and neighbours of the cleaner *)

(** ** [scraping/utils/helpers.py] *)

Section Helpers.
Context {R : PyRuntime}.

(** [s.split()]: the words between the runs of whitespace. *)
Fixpoint split_ws (s : str) : list str :=
  match s with
  | [] => []
  | c :: s' =>
      if is_space c then split_ws s'
      else
        match s' with
        | d :: _ =>
            if is_space d then [c] :: split_ws s'
            else
              match split_ws s' with
              | w :: ws => (c :: w) :: ws
              | [] => [[c]]
              end
        | [] => [[c]]
        end
  end.

Definition clean_text (text : value) : result str :=
  if negb (truthy text) then Ok [] else
  text ← py_strip text;
  let cleaned := join (lit " ") (split_ws text) in
  let cleaned := replace 0x00A0 (lit " ") cleaned in
  let cleaned := replace 0x2019 (lit "'") cleaned in
  let cleaned := replace 0x201C [34] cleaned in
  let cleaned := replace 0x201D [34] cleaned in
  Ok (strip cleaned).

(** [\b(20[2-3]\d)\b] *)
Definition re_year : list item :=
  [WordB; Rep (N.eqb 50) 1 (Some 1%nat); Rep (N.eqb 48) 1 (Some 1%nat);
   Rep (in_range 50 51) 1 (Some 1%nat); Rep is_digit 1 (Some 1%nat); WordB].

Definition extract_year_from_text (text : value) : result (option Z) :=
  if negb (truthy text) then Ok None else
  match text with
  | VStr s =>
      match re_findall re_year s with
      | year :: _ => year ← py_int (VStr year); Ok (Some year)
      | [] => Ok None
      end
  | _ => Raise TypeError
  end.

Definition normalize_course_code (code : value) : result str :=
  if negb (truthy code) then Ok [] else
  normalized ← py_strip code;
  let normalized := upper normalized in
  match re_search re_cao normalized with
  | Some (_, [g1; g2]) => Ok (g1 ++ g2)
  | _ => Ok normalized
  end.

(** The keyword arguments of [create_course_record]. *)
Record course_arguments := {
  arg_cao_code : value;
  arg_name : value;
  arg_description : value;
  arg_nfq_level : value;
  arg_duration : value;
  arg_tags : value;
  arg_course_url : value;
  arg_college_id : value;
  arg_points : value;
  arg_entry_requirements : value;
  arg_career_info : value;
}.

(** The defaults of the signature. *)
Definition default_arguments : course_arguments := {|
  arg_cao_code := VStr []; arg_name := VStr []; arg_description := VStr [];
  arg_nfq_level := VInt 8; arg_duration := VStr []; arg_tags := VStr [];
  arg_course_url := VStr []; arg_college_id := VInt 1; arg_points := VInt 0;
  arg_entry_requirements := VStr []; arg_career_info := VStr [];
|}.

(** The dictionary is built key by key, in the order of the source. *)
Definition create_course_record (a : course_arguments) : result CourseRecord :=
  cao_code ← normalize_course_code (arg_cao_code a);
  name ← clean_text (arg_name a);
  description ← clean_text (arg_description a);
  duration ← clean_text (arg_duration a);
  tags ← clean_text (arg_tags a);
  entry_requirements ← clean_text (arg_entry_requirements a);
  career_info ← clean_text (arg_career_info a);
  Ok (list_to_map
        [("cao_code"%string, VStr cao_code);
         ("name"%string, VStr name);
         ("description"%string, VStr description);
         ("nfq_level"%string, arg_nfq_level a);
         ("duration"%string, VStr duration);
         ("tags"%string, VStr tags);
         ("course_url"%string, arg_course_url a);
         ("college_id"%string, arg_college_id a);
         ("points"%string, arg_points a);
         ("entry_requirements"%string, VStr entry_requirements);
         ("career_info"%string, VStr career_info);
         ("created_at"%string, VStr (lit "2025-01-25T15:00:00"))]).

End Helpers.

(** ** [scraping/generate_csv_files.py] *)

(** The dictionary [categorized_data]: its seven keys are fixed. *)
Record categorized_data := {
  all_courses : list CourseRecord;
  stem_courses : list CourseRecord;
  business_courses : list CourseRecord;
  arts_courses : list CourseRecord;
  health_courses : list CourseRecord;
  education_courses : list CourseRecord;
  general_courses : list CourseRecord;
}.

(** The branches of the [if]/[elif] chain of the loop. *)
Inductive category :=
  | Stem | Business | Arts | Health | Education | General.

#[global] Instance category_eq_dec : EqDecision category.
Proof. solve_decision. Defined.

(** [categorized_data[...].append(course)] *)
Definition append_course (cat : category) (course : CourseRecord)
    (data : categorized_data) : categorized_data :=
  match cat with
  | Stem =>
      {| all_courses := all_courses data;
         stem_courses := stem_courses data ++ [course];
         business_courses := business_courses data;
         arts_courses := arts_courses data;
         health_courses := health_courses data;
         education_courses := education_courses data;
         general_courses := general_courses data |}
  | Business =>
      {| all_courses := all_courses data;
         stem_courses := stem_courses data;
         business_courses := business_courses data ++ [course];
         arts_courses := arts_courses data;
         health_courses := health_courses data;
         education_courses := education_courses data;
         general_courses := general_courses data |}
  | Arts =>
      {| all_courses := all_courses data;
         stem_courses := stem_courses data;
         business_courses := business_courses data;
         arts_courses := arts_courses data ++ [course];
         health_courses := health_courses data;
         education_courses := education_courses data;
         general_courses := general_courses data |}
  | Health =>
      {| all_courses := all_courses data;
         stem_courses := stem_courses data;
         business_courses := business_courses data;
         arts_courses := arts_courses data;
         health_courses := health_courses data ++ [course];
         education_courses := education_courses data;
         general_courses := general_courses data |}
  | Education =>
      {| all_courses := all_courses data;
         stem_courses := stem_courses data;
         business_courses := business_courses data;
         arts_courses := arts_courses data;
         health_courses := health_courses data;
         education_courses := education_courses data ++ [course];
         general_courses := general_courses data |}
  | General =>
      {| all_courses := all_courses data;
         stem_courses := stem_courses data;
         business_courses := business_courses data;
         arts_courses := arts_courses data;
         health_courses := health_courses data;
         education_courses := education_courses data;
         general_courses := general_courses data ++ [course] |}
  end.

Section Organize.
Context {R : PyRuntime}.

(** The branch a course takes: the first of the five words found in its
    lowered tags. *)
Definition course_category (course : CourseRecord) : result category :=
  tags ← py_lower (get_or course "tags" (VStr []));
  if contains (lit "stem") tags then Ok Stem
  else if contains (lit "business") tags then Ok Business
  else if contains (lit "arts") tags then Ok Arts
  else if contains (lit "health") tags then Ok Health
  else if contains (lit "education") tags then Ok Education
  else Ok General.

(** The body of the loop. *)
Definition organize_step (data : categorized_data) (course : CourseRecord)
  : result categorized_data :=
  cat ← course_category course;
  Ok (append_course cat course data).

(** [clean_and_organize_data], with a cleaner of its own. *)
Definition clean_and_organize_data (raw_courses : list CourseRecord)
  : result categorized_data :=
  cleaned_courses ← (clean_course_data raw_courses init_stats).1;
  let categorized_data :=
    {| all_courses := cleaned_courses; stem_courses := [];
       business_courses := []; arts_courses := []; health_courses := [];
       education_courses := []; general_courses := [] |} in
  for_each organize_step categorized_data cleaned_courses.

End Organize.

(** ** [fix_questions.py] *)

(** The dictionary [PAPERS], in the order it is written: the fallback loop
    of [get_correct_paper_id] goes through it in that order. *)
Definition PAPERS : list ((Z * str) * Z) :=
  [((2025, lit "mock"), 1); ((2024, lit "state"), 2); ((2024, lit "mock"), 3);
   ((2023, lit "state"), 4); ((2023, lit "deferred"), 5);
   ((2023, lit "mock"), 6); ((2022, lit "state"), 7);
   ((2022, lit "deferred"), 8); ((2022, lit "mock"), 9);
   ((2021, lit "mock"), 10); ((2020, lit "state"), 11);
   ((2020, lit "mock"), 12); ((2019, lit "state"), 13);
   ((2019, lit "mock"), 14); ((2018, lit "state"), 15);
   ((2017, lit "state"), 16); ((2017, lit "mock"), 17);
   ((2016, lit "state"), 18); ((2015, lit "state"), 19);
   ((2014, lit "state"), 20); ((2014, lit "mock"), 21);
   ((2013, lit "state"), 22); ((2013, lit "mock"), 23);
   ((2012, lit "state"), 24); ((2012, lit "mock"), 25);
   ((2011, lit "state"), 26); ((2010, lit "state"), 27);
   ((2009, lit "state"), 28); ((2009, lit "mock"), 29);
   ((2008, lit "state"), 30); ((2007, lit "state"), 31);
   ((2006, lit "state"), 32); ((2005, lit "state"), 33)]%Z.

(** [PAPERS.get(key)] *)
Definition papers_get (key : Z * str) : option Z :=
  snd <$> find (λ p, bool_decide (p.1 = key)) PAPERS.

Definition get_year_from_content (content : str) : Z :=
  if contains (lit "2025") content then 2025
  else if contains (lit "2024") content then 2024
  else if contains (lit "2023") content then 2023
  else if contains (lit "2022") content then 2022
  else if contains (lit "2021") content then 2021
  else if contains (lit "2020") content then 2020
  else if contains (lit "2019") content then 2019
  else if contains (lit "2018") content then 2018
  else if contains (lit "2017") content then 2017
  else if contains (lit "2016") content then 2016
  else if contains (lit "2015") content then 2015
  else if contains (lit "2014") content then 2014
  else if contains (lit "2013") content then 2013
  else if contains (lit "2012") content then 2012
  else if contains (lit "2011") content then 2011
  else if contains (lit "2010") content then 2010
  else if contains (lit "2009") content then 2009
  else if contains (lit "2008") content then 2008
  else if contains (lit "2007") content then 2007
  else if contains (lit "2006") content then 2006
  else if contains (lit "2005") content then 2005
  else 2024.

(** The end of [get_correct_paper_id]: the exact match, then any paper of
    the year, then paper 2. *)
Definition find_paper (year : Z) (source_type : str) : Z :=
  let fallback :=
    match find (λ p, bool_decide (p.1.1 = year)) PAPERS with
    | Some p => p.2
    | None => 2%Z
    end in
  match papers_get (year, source_type) with
  | Some paper_id => if (paper_id =? 0)%Z then fallback else paper_id
  | None => fallback
  end.

Section FixQuestions.
Context {R : PyRuntime}.

Definition get_source_type (source : str) : str :=
  if bool_decide (lower source = lit "mock") then lit "mock"
  else if bool_decide (lower source = lit "state") then lit "state"
  else lit "state".

Definition get_correct_paper_id (content source : str) : Z :=
  let year := get_year_from_content content in
  let source_type := get_source_type source in
  let source_type :=
    if contains (lit "Deferred") content then lit "deferred"
    else source_type in
  find_paper year source_type.

End FixQuestions.

(** * Definitions for the further properties *)

(** The six characters [clean_text_field] replaces. *)
Definition replaced_characters : list N :=
  [0xA0; 0x2019; 0x201C; 0x201D; 0x2013; 0x2014].

(** The fields [clean_single_course] cleans. *)
Definition cleaned_fields : list string :=
  text_fields ++ ["cao_code"; "nfq_level"; "points"; "college_id"]%string.

Section FurtherStatementDefinitions.
Context {R : PyRuntime}.

(** A record the validator has nothing to say against: a name that is text
    of 3 to 200 characters with no boilerplate substring, a level equal to
    one of the valid ones, and a description that is text unless it is
    falsy. *)
Definition acceptable (course : CourseRecord) : Prop :=
  (∃ name, course !! "name"%string = Some (VStr name)
     ∧ (min_course_name_length VALIDATION_RULES ≤ length name
        ≤ max_course_name_length VALIDATION_RULES)%nat
     ∧ existsb (λ invalid, contains invalid (lower name)) invalid_names
       = false)
  ∧ (∃ level, course !! "nfq_level"%string = Some level
       ∧ in_ints level (valid_nfq_levels VALIDATION_RULES) = true)
  ∧ (∀ v, course !! "description"%string = Some v → truthy v = true →
          ∃ s, v = VStr s).

End FurtherStatementDefinitions.

(** The fields [enhance_course_data] writes. *)
Definition enhanced_fields : list string :=
  ["cao_code"; "tags"; "duration"; "keywords"]%string.

(** The record named ["Physics"] once enriched. *)
Definition physics_enhanced : CourseRecord :=
  <["keywords"%string := VStr (lit "physics, stem")]>
    (<["duration"%string := VStr []]>
       (<["tags"%string := VStr (lit "STEM")]>
          (<["cao_code"%string := VStr []]> physics_a))).

(** What the batch of the two ["BEng"] records leaves. *)
Definition beng_enhanced : CourseRecord :=
  list_to_map
    [("name"%string, VStr (lit "BEng in Computer Engineering"));
     ("cao_code"%string, VStr []);
     ("nfq_level"%string, VInt 8);
     ("points"%string, VInt 450);
     ("tags"%string, VStr (lit "STEM"));
     ("duration"%string, VStr []);
     ("keywords"%string, VStr (lit "beng, computer, engineering, stem"))].

Definition beng_stats : stats :=
  {| total_records := 2; valid_records := 1; duplicates_removed := 1;
     validation_errors := ∅ |}.

(** The batch of the two ["BEng"] records, organized. *)
Definition beng_organized : categorized_data :=
  {| all_courses := [beng_enhanced]; stem_courses := [beng_enhanced];
     business_courses := []; arts_courses := []; health_courses := [];
     education_courses := []; general_courses := [] |}.

(** A word of a cleaned text: not empty, with no whitespace and none of
    the characters in [avoid]. *)
Definition is_clean_word (avoid : list N) (w : str) : Prop :=
  w ≠ [] ∧ Forall (λ c, is_space c = false ∧ c ∉ avoid) w.

(** The four characters [clean_text] replaces. *)
Definition replaced_by_clean_text : list N := [0xA0; 0x2019; 0x201C; 0x201D].

(** The years [get_year_from_content] looks for, in the order it looks for
    them. *)
Definition years_sought : list Z := reverse (seqZ 2005 21).

(** The first year of a list whose digits are in the content, or a default. *)
Fixpoint first_year_in (years : list Z) (content : str) (default : Z) : Z :=
  match years with
  | [] => default
  | year :: years' =>
      if contains (str_of_Z year) content then year
      else first_year_in years' content default
  end.

(** The three kinds of paper. *)
Definition paper_types : list str := [lit "mock"; lit "state"; lit "deferred"].

(** The years and ids of [PAPERS], without the kinds. *)
Definition papers_by_year : list (Z * Z) := (λ p, (p.1.1, p.2)) <$> PAPERS.

(** The dictionary of the arguments of [create_course_record] as they were
    given, with nothing cleaned. *)
Definition raw_record (a : course_arguments) : CourseRecord :=
  list_to_map
    [("cao_code"%string, arg_cao_code a);
     ("name"%string, arg_name a);
     ("description"%string, arg_description a);
     ("nfq_level"%string, arg_nfq_level a);
     ("duration"%string, arg_duration a);
     ("tags"%string, arg_tags a);
     ("course_url"%string, arg_course_url a);
     ("college_id"%string, arg_college_id a);
     ("points"%string, arg_points a);
     ("entry_requirements"%string, arg_entry_requirements a);
     ("career_info"%string, arg_career_info a);
     ("created_at"%string, VStr (lit "2025-01-25T15:00:00"))].

(** What a scraper passes for a course it found. *)
Definition physics_arguments : course_arguments := {|
  arg_cao_code := VStr (lit " tu 856 ");
  arg_name := VStr (lit " Physics   (Honours) ");
  arg_description := VStr [];
  arg_nfq_level := VInt 8;
  arg_duration := VStr (lit "4 years");
  arg_tags := VStr [];
  arg_course_url := VStr (lit "https://example.org/tu856");
  arg_college_id := VStr (lit "TU Dublin");
  arg_points := VInt 0;
  arg_entry_requirements := VStr [];
  arg_career_info := VStr [];
|}.

Definition physics_created : CourseRecord :=
  list_to_map
    [("cao_code"%string, VStr (lit "TU 856"));
     ("name"%string, VStr (lit "Physics (Honours)"));
     ("description"%string, VStr []);
     ("nfq_level"%string, VInt 8);
     ("duration"%string, VStr (lit "4 years"));
     ("tags"%string, VStr []);
     ("course_url"%string, VStr (lit "https://example.org/tu856"));
     ("college_id"%string, VStr (lit "TU Dublin"));
     ("points"%string, VInt 0);
     ("entry_requirements"%string, VStr []);
     ("career_info"%string, VStr []);
     ("created_at"%string, VStr (lit "2025-01-25T15:00:00"))].

(** ** The digit limit on records *)

Section DigitLimit.
Context {R : PyRuntime}.

(** A raw record the conversions of the pipeline go through: the fields the
    cleaner converts hold numbers the interpreter prints, and the duration,
    once cleaned and lowered, is no longer than the digits [int] reads. *)
Definition within_digit_limit (course : CourseRecord) : Prop :=
  (∀ field v, field ∈ cleaned_fields → course !! field = Some v →
              printable_number v)
  ∧ (∀ v, course !! "duration"%string = Some v →
          (length (lower (clean_text_field v)) ≤ int_max_str_digits)%nat).

(** A cleaned record as the validator and the enricher need it: text where
    they read text, a level they can print, a duration [int] can read. *)
Definition convertible (course : CourseRecord) : Prop :=
  cleaned_text course
  ∧ (∀ z, course !! "nfq_level"%string = Some (VInt z) →
          too_many_digits z = false)
  ∧ (∀ s, course !! "duration"%string = Some (VStr s) →
          (length (lower s) ≤ int_max_str_digits)%nat).

End DigitLimit.

(** * Properties *)

(** A closed decidable goal, by running its decision procedure. *)
Ltac by_decision := apply (bool_decide_unpack _); by vm_compute.

(** ** The batch entry point *)

Section Batch.
Context {R : PyRuntime}.

Lemma log_validation_stats_nonempty (st : stats) :
  total_records st ≠ O → log_validation_stats st = (Ok tt, st).
Proof.
  intros Hn. unfold log_validation_stats, mbind, M_bind, read, lift, percent.
  simpl. destruct (total_records st); [done|reflexivity].
Qed.

Lemma log_validation_stats_empty (st : stats) :
  total_records st = O →
  log_validation_stats st = (Raise ZeroDivisionError, st).
Proof.
  intros Hn. unfold log_validation_stats, mbind, M_bind, read, lift, percent.
  simpl. by rewrite Hn.
Qed.

(** C1. On the empty batch [clean_course_data] does not return the empty
    list: every stage runs on no record, the two counters are set to 0, and
    the success rate logged by [log_validation_stats] divides by
    [total_records = 0], so [ZeroDivisionError] leaves the method. *)
Theorem clean_course_data_empty_raises (st : stats) :
  clean_course_data [] st
  = (Raise ZeroDivisionError,
     set_valid_records 0 (set_duplicates_removed 0 (set_total_records 0 st))).
Proof. reflexivity. Qed.

End Batch.

(** ** Field cleaners *)

Section CleanText.
Context {R : PyRuntime}.

(** C2. [clean_text_field] is not idempotent: the characters outside the
    allowlist are removed after the whitespace runs were collapsed, so
    ["a ! b"] is cleaned to ["a  b"] with two spaces, and cleaning that
    again gives ["a b"]. *)
Theorem clean_text_field_not_idempotent :
  clean_text_field (VStr (lit "a ! b")) = lit "a  b"
  ∧ clean_text_field (VStr (clean_text_field (VStr (lit "a ! b")))) = lit "a b"
  ∧ clean_text_field (VStr (clean_text_field (VStr (lit "a ! b"))))
    ≠ clean_text_field (VStr (lit "a ! b")).
Proof. by vm_compute. Qed.

End CleanText.

Section Numbers.
Context {R : PyRuntime}.

(** [int] raises [OverflowError] on the infinities and nowhere else. *)
Lemma py_int_raises (v : value) (e : exn) :
  py_int v = Raise e →
  e = TypeError ∨ e = ValueError
  ∨ (e = OverflowError ∧ ∃ negative, v = VFloat (FInf negative)).
Proof.
  destruct v as [|b|z|[|negative|m ex]|s]; simpl; intros H; simplify_eq;
    eauto 6.
  destruct (parse_int s); simplify_eq; eauto.
Qed.

Lemma default_level_valid : (8 ∈ valid_nfq_levels VALIDATION_RULES)%Z.
Proof. by_decision. Qed.

(** *** The digit limit *)

Lemma too_many_digits_false (z : Z) :
  too_many_digits z = false
  ↔ (Z.abs z < 10 ^ Z.of_nat int_max_str_digits)%Z.
Proof. unfold too_many_digits. rewrite negb_false_iff. apply Z.ltb_lt. Qed.

Lemma too_many_digits_true (z : Z) :
  too_many_digits z = true
  ↔ (10 ^ Z.of_nat int_max_str_digits ≤ Z.abs z)%Z.
Proof. unfold too_many_digits. rewrite negb_true_iff. apply Z.ltb_ge. Qed.

(** The limit on the two sides of a conversion: [str] gives the 4300
    digits of [10 ** 4300 - 1] and refuses [10 ** 4300]; [int] reads 4300
    zeros and refuses 4301, which [clean_college_id] answers with its
    default. *)
Example digit_limit_both_ways :
  too_many_digits (10 ^ 4300 - 1) = false
  ∧ py_format (R := ascii_runtime) (VInt (10 ^ 4300)) = Raise ValueError
  ∧ py_int (R := ascii_runtime) (VStr (replicate 4300 48)) = Ok 0%Z
  ∧ py_int (R := ascii_runtime) (VStr (replicate 4301 48)) = Raise ValueError
  ∧ clean_college_id (R := ascii_runtime) (VStr (replicate 4301 49))
    = Ok 1%Z.
Proof. by vm_compute. Qed.

Lemma too_many_digits_small (z : Z) :
  (Z.abs z < 2 ^ 1024)%Z → too_many_digits z = false.
Proof.
  intros Hz. apply too_many_digits_false.
  eapply Z.lt_le_trans; [exact Hz|].
  transitivity (10 ^ 1024)%Z.
  - apply Z.pow_le_mono_l. lia.
  - apply Z.pow_le_mono_r; [lia|]. unfold int_max_str_digits. lia.
Qed.

(** What [int] reads from [k] digits is below [10 ^ k]. *)
Lemma int_body_bound (acc z : Z) (after_digit : bool) (s : str) (k : nat) :
  int_body acc after_digit s = Some z →
  (0 ≤ acc < 10 ^ Z.of_nat k)%Z →
  (0 ≤ z < 10 ^ Z.of_nat (k + digit_count s))%Z.
Proof.
  revert acc after_digit k.
  induction s as [|c s IH]; intros acc b k; cbn [int_body digit_count].
  - destruct b; [|done]. intros [= <-]. by rewrite Nat.add_0_r.
  - destruct (is_digit_09 c) eqn:Hc.
    + intros H Hacc. replace (k + S (digit_count s))%nat
        with (S k + digit_count s)%nat by lia.
      apply (IH _ _ _ H).
      unfold is_digit_09, in_range in Hc. apply andb_true_iff in Hc as [H1 H2].
      apply N.leb_le in H1, H2.
      rewrite Nat2Z.inj_succ, Z.pow_succ_r by lia. lia.
    + destruct ((c =? 95) && b); [|done]. intros H Hacc. by apply (IH _ _ _ H).
Qed.

Lemma int_literal_within (body : str) (z : Z) :
  int_literal body = Some z →
  (0 ≤ z < 10 ^ Z.of_nat int_max_str_digits)%Z.
Proof.
  unfold int_literal.
  destruct (Nat.ltb_spec int_max_str_digits (digit_count body)) as [|Hle];
    [done|].
  intros H. apply (int_body_bound _ _ _ _ O) in H; [|simpl; lia].
  split; [lia|]. eapply Z.lt_le_trans; [apply H|].
  apply Z.pow_le_mono_r; lia.
Qed.

(** [int] of a string gives an integer the interpreter prints. *)
Lemma parse_int_within (s : str) (z : Z) :
  parse_int s = Some z → too_many_digits z = false.
Proof.
  unfold parse_int. destruct (mapM to_ascii s) as [t|]; [|done]. simpl.
  intros H. apply too_many_digits_false.
  destruct (reverse _) as [|c body].
  - apply int_literal_within in H. lia.
  - assert (∀ y, int_literal (c :: body) = Some y →
                 (Z.abs y < 10 ^ Z.of_nat int_max_str_digits)%Z) as Hall.
    { intros y Hy%int_literal_within. lia. }
    assert (∀ y, int_literal body = Some y →
                 (Z.abs y < 10 ^ Z.of_nat int_max_str_digits)%Z) as Hbody.
    { intros y Hy%int_literal_within. lia. }
    destruct (decide (c = 45)) as [->|H45].
    { destruct (int_literal body) as [y|] eqn:Hy; [|done].
      injection H as <-. rewrite Z.abs_opp. by apply Hbody. }
    destruct (decide (c = 43)) as [->|H43]; [by apply Hbody|].
    revert H. destruct c as [|p]; [apply Hall|].
    repeat (destruct p as [p|p|]; try apply Hall; try done).
Qed.

Lemma py_int_printable (v : value) (n : Z) :
  py_int v = Ok n → printable_number v → too_many_digits n = false.
Proof.
  destruct v as [|b|z|[|negative|m e]|s]; simpl; try done.
  - intros [= <-] _. apply too_many_digits_small. destruct b; simpl; lia.
  - by intros [= <-].
  - intros [= <-]. apply too_many_digits_small.
  - destruct (parse_int s) as [z|] eqn:Hs; [|done]. intros [= <-] _.
    by eapply parse_int_within.
Qed.

Lemma py_format_printable (v : value) :
  printable_number v → py_format v = Ok (py_str v).
Proof. destruct v as [| |z| |]; try done. simpl. by intros ->. Qed.

Lemma py_format_too_many (z : Z) :
  too_many_digits z = true → py_format (VInt z) = Raise ValueError.
Proof. simpl. by intros ->. Qed.

(** The message of a handler is formatted from the value [int] refused,
    which is no integer. *)
Lemma py_int_refused_format (v : value) (e : exn) :
  py_int v = Raise e → py_format v = Ok (py_str v).
Proof. by destruct v. Qed.

(** *** The two cleaners *)

(** What [clean_nfq_level] returns is a level of the valid set. *)
Lemma clean_nfq_level_range (level : value) (n : Z) :
  clean_nfq_level level = Ok n → n ∈ valid_nfq_levels VALIDATION_RULES.
Proof.
  pose proof default_level_valid as H8. unfold clean_nfq_level.
  destruct (truthy level); cbn [negb]; [|by intros [= <-]].
  unfold try_except_value_type.
  destruct (py_int level) as [m|e] eqn:Hi; cbn [fst snd].
  - case_bool_decide as Hin; [by intros [= <-]|].
    unfold py_format. destruct (too_many_digits m); simpl; [done|].
    by intros [= <-].
  - rewrite (py_int_refused_format _ _ Hi).
    destruct e; simpl; try done; by intros [= <-].
Qed.

Lemma clean_points_range (points : value) (n : Z) :
  clean_points points = Ok n → (0 ≤ n ≤ 625)%Z.
Proof.
  unfold clean_points.
  destruct (truthy points); cbn [negb]; [|intros [= <-]; lia].
  unfold try_except_value_type.
  destruct (py_int points) as [m|e] eqn:Hi; cbn [fst snd].
  - destruct ((0 <=? m) && (m <=? 625))%Z eqn:Hr.
    + intros [= <-]. apply andb_true_iff in Hr. lia.
    + unfold py_format. destruct (too_many_digits m); simpl; [done|].
      intros [= <-]. lia.
  - rewrite (py_int_refused_format _ _ Hi).
    destruct e; simpl; try done; intros [= <-]; lia.
Qed.

(** On a number the interpreter prints, [clean_nfq_level] returns unless
    the number is an infinite float. *)
Lemma clean_nfq_level_cases (level : value) :
  printable_number level →
  (is_infinite level ∧ clean_nfq_level level = Raise OverflowError)
  ∨ ∃ n, clean_nfq_level level = Ok n
         ∧ n ∈ valid_nfq_levels VALIDATION_RULES.
Proof.
  intros Hp. pose proof default_level_valid as H8.
  assert (∀ r, (∃ n, r = Ok n) →
               ∃ n, r = Ok n ∧ (clean_nfq_level level = r →
                                n ∈ valid_nfq_levels VALIDATION_RULES))
    as Hrange.
  { intros r [n ->]. exists n. split; [done|]. apply clean_nfq_level_range. }
  assert ((is_infinite level ∧ clean_nfq_level level = Raise OverflowError)
          ∨ ∃ n, clean_nfq_level level = Ok n) as [?|[n Hn]];
    [|by left|right; exists n; split; [done|by eapply clean_nfq_level_range]].
  clear Hrange. unfold clean_nfq_level.
  destruct (truthy level); cbn [negb]; [|by eauto].
  unfold try_except_value_type.
  destruct (py_int level) as [m|e] eqn:Hi; cbn [fst snd].
  - right. case_bool_decide as Hin; [by eauto|].
    rewrite py_format_printable by (by eapply py_int_printable). simpl. eauto.
  - rewrite (py_int_refused_format _ _ Hi).
    destruct (py_int_raises _ _ Hi) as [->|[->|[-> Hinf]]]; simpl; eauto.
Qed.

Lemma clean_points_cases (points : value) :
  printable_number points →
  (is_infinite points ∧ clean_points points = Raise OverflowError)
  ∨ ∃ n, clean_points points = Ok n ∧ (0 ≤ n ≤ 625)%Z.
Proof.
  intros Hp.
  assert ((is_infinite points ∧ clean_points points = Raise OverflowError)
          ∨ ∃ n, clean_points points = Ok n) as [?|[n Hn]];
    [|by left|right; exists n; split; [done|by eapply clean_points_range]].
  unfold clean_points.
  destruct (truthy points); cbn [negb]; [|by eauto].
  unfold try_except_value_type.
  destruct (py_int points) as [m|e] eqn:Hi; cbn [fst snd].
  - right. destruct ((0 <=? m) && (m <=? 625))%Z; [by eauto|].
    rewrite py_format_printable by (by eapply py_int_printable). simpl. eauto.
  - rewrite (py_int_refused_format _ _ Hi).
    destruct (py_int_raises _ _ Hi) as [->|[->|[-> Hinf]]]; simpl; eauto.
Qed.

(** An integer of too many digits passes [int] and is in no range; the
    message that says so cannot be formatted, and neither can the
    handler's. *)
Lemma too_many_digits_truthy (z : Z) :
  too_many_digits z = true → truthy (VInt z) = true ∧ (625 < Z.abs z)%Z.
Proof.
  intros Hz%too_many_digits_true.
  assert (10 ^ 3 < 10 ^ Z.of_nat int_max_str_digits)%Z as Hpow.
  { apply Z.pow_lt_mono_r; [lia|lia|]. unfold int_max_str_digits. lia. }
  change (10 ^ 3)%Z with 1000%Z in Hpow.
  split; [|lia]. simpl. apply negb_true_iff, Z.eqb_neq. lia.
Qed.

Lemma clean_nfq_level_too_many (z : Z) :
  too_many_digits z = true → clean_nfq_level (VInt z) = Raise ValueError.
Proof.
  intros Hz. destruct (too_many_digits_truthy z Hz) as [Ht Hbig].
  unfold clean_nfq_level. rewrite Ht. cbn [negb py_int].
  unfold try_except_value_type. cbn [fst snd].
  rewrite bool_decide_eq_false_2.
  2:{ intros Hin. assert (5 ≤ z ≤ 10)%Z; [|lia].
      revert Hin. unfold valid_nfq_levels, VALIDATION_RULES.
      rewrite !elem_of_cons, elem_of_nil. lia. }
  by rewrite (py_format_too_many z Hz).
Qed.

Lemma clean_points_too_many (z : Z) :
  too_many_digits z = true → clean_points (VInt z) = Raise ValueError.
Proof.
  intros Hz. destruct (too_many_digits_truthy z Hz) as [Ht Hbig].
  unfold clean_points. rewrite Ht. cbn [negb py_int].
  unfold try_except_value_type. cbn [fst snd].
  replace ((0 <=? z) && (z <=? 625))%Z with false.
  2:{ symmetry. apply andb_false_iff.
      destruct (Z.leb_spec 0 z); [right; apply Z.leb_gt; lia|by left]. }
  by rewrite (py_format_too_many z Hz).
Qed.

(** C3. The range invariant fails on an infinite float, which is a number a
    field can hold: [int] raises [OverflowError] there, the handler names
    [ValueError] and [TypeError] only, and the two cleaners return nothing.
    It fails as well on an integer of more than 4300 digits, where the
    message of [logger.debug] cannot be formatted and [ValueError] leaves
    the handler.  On every other value, an integer within the digit limit
    and a float in the range of a double among them, the cleaners return a
    level of the valid set and points between 0 and 625. *)
Theorem numeric_cleaners_overflow (negative : bool) (z : Z) (x : value) :
  clean_nfq_level (VFloat (FInf negative)) = Raise OverflowError
  ∧ clean_points (VFloat (FInf negative)) = Raise OverflowError
  ∧ (too_many_digits z = true →
     clean_nfq_level (VInt z) = Raise ValueError
     ∧ clean_points (VInt z) = Raise ValueError)
  ∧ (printable_number x →
     (is_infinite x ∧ clean_nfq_level x = Raise OverflowError)
     ∨ ∃ n, clean_nfq_level x = Ok n ∧ n ∈ [5; 6; 7; 8; 9; 10]%Z)
  ∧ (printable_number x →
     (is_infinite x ∧ clean_points x = Raise OverflowError)
     ∨ ∃ n, clean_points x = Ok n ∧ (0 ≤ n ≤ 625)%Z).
Proof.
  split; [done|]. split; [done|]. split; [|split].
  - intros Hz. split;
      [by apply clean_nfq_level_too_many|by apply clean_points_too_many].
  - apply clean_nfq_level_cases.
  - apply clean_points_cases.
Qed.

End Numbers.

(** ** The matcher *)

Section MatcherFacts.
Context {R : PyRuntime}.

Lemma first_down_eq {A} (f : nat → option A) (lo n : nat) :
  first_down f lo n =
  if (n <? lo)%nat then None else
  match f n with
  | Some a => Some a
  | None => match n with O => None | S n' => first_down f lo n' end
  end.
Proof. by destruct n. Qed.

Lemma first_down_Some {A} (f : nat → option A) (lo n : nat) (a : A) :
  first_down f lo n = Some a → ∃ k, (lo ≤ k ≤ n)%nat ∧ f k = Some a.
Proof.
  induction n as [|n IH]; rewrite first_down_eq.
  - destruct (Nat.ltb_spec0 O lo) as [Hlt|Hge]; [done|].
    destruct (f O) eqn:Hf; [|done].
    intros [= <-]. exists O. split; [lia|done].
  - destruct (Nat.ltb_spec0 (S n) lo) as [Hlt|Hge]; [done|].
    destruct (f (S n)) eqn:Hf.
    + intros [= <-]. exists (S n). split; [lia|done].
    + intros H. destruct (IH H) as (k & Hk & Hfk). exists k. split; [lia|done].
Qed.

Lemma first_down_complete {A} (f : nat → option A) (lo n k : nat) :
  (lo ≤ k ≤ n)%nat → is_Some (f k) → is_Some (first_down f lo n).
Proof.
  intros Hk Hf. induction n as [|n IH]; rewrite first_down_eq.
  - destruct (Nat.ltb_spec0 O lo) as [Hlt|Hge]; [lia|].
    assert (k = O) as -> by lia. destruct Hf as [x ->]. eauto.
  - destruct (Nat.ltb_spec0 (S n) lo) as [Hlt|Hge]; [lia|].
    destruct (f (S n)) eqn:Hfn; [eauto|].
    destruct (decide (k = S n)) as [->|Hne].
    + rewrite Hfn in Hf. by destruct Hf.
    + apply IH. lia.
Qed.

Lemma take_while_take (cls : N → bool) (s : str) (k : nat) :
  (k ≤ length (take_while cls s))%nat →
  forallb cls (take k s) = true ∧ length (take k s) = k.
Proof.
  revert k. induction s as [|c s IH]; intros k; simpl.
  - intros Hk. assert (k = O) as -> by lia. done.
  - destruct (cls c) eqn:Hc; simpl.
    + destruct k as [|k]; simpl; [done|]. intros Hk.
      destruct (IH k) as [H1 H2]; [lia|]. rewrite Hc, H1, H2. done.
    + intros Hk. assert (k = O) as -> by lia. done.
Qed.

(** The longest repetition is tried first. *)
Lemma first_down_top {A} (f : nat → option A) (lo n : nat) (a : A) :
  (lo ≤ n)%nat → f n = Some a → first_down f lo n = Some a.
Proof.
  intros Hlo Hf. rewrite first_down_eq.
  destruct (Nat.ltb_spec0 n lo); [lia|]. by rewrite Hf.
Qed.

Lemma take_while_all (cls : N → bool) (w rest : str) :
  forallb cls w = true →
  match rest with c :: _ => cls c = false | [] => True end →
  take_while cls (w ++ rest) = w.
Proof.
  intros Hw Hrest. induction w as [|c w IH]; simpl.
  - destruct rest as [|c rest]; [done|]. simpl. by rewrite Hrest.
  - simpl in Hw. apply andb_true_iff in Hw as [Hc Hw]. rewrite Hc.
    by rewrite IH.
Qed.

Lemma take_while_prefix (cls : N → bool) (w rest : str) :
  forallb cls w = true → (length w ≤ length (take_while cls (w ++ rest)))%nat.
Proof.
  induction w as [|c w IH]; simpl; [lia|].
  intros [Hc Hw]%andb_true_iff. rewrite Hc. simpl. specialize (IH Hw). lia.
Qed.

(** A match consumes a prefix of the text, cut into pieces that fit the
    items. *)
Lemma match_items_sound (p : list item) (prev : option N) (s : str)
    (pieces : list str) :
  match_items p prev s = Some pieces →
  Forall2 piece_ok p pieces ∧ ∃ rest, s = concat pieces ++ rest.
Proof.
  revert prev s pieces. induction p as [|it p IH]; intros prev s pieces; simpl.
  - intros [= <-]. split; [constructor|]. by exists s.
  - destruct it as [cls lo hi|].
    + intros H. apply first_down_Some in H as (k & Hk & Hf).
      destruct (match_items p (last_of prev (take k s)) (drop k s))
        as [ps|] eqn:Hm; simpl in Hf; [|done].
      injection Hf as <-.
      destruct (IH _ _ _ Hm) as [Hfit [rest Hrest]].
      destruct (take_while_take cls s k) as [Hall Hlen].
      { destruct hi; lia. }
      split.
      * constructor; [|done]. simpl. rewrite Hlen.
        split; [done|]. split; [lia|]. destruct hi; [lia|done].
      * exists rest. simpl. rewrite <- (assoc_L (++)), <- Hrest.
        by rewrite take_drop.
    + destruct (at_boundary prev s); [|done].
      destruct (match_items p prev s) as [ps|] eqn:Hm; simpl; [|done].
      intros [= <-]. destruct (IH _ _ _ Hm) as [Hfit [rest Hrest]].
      split; [by constructor|]. by exists rest.
Qed.

(** A pattern of repetitions matches wherever the text can be cut into
    fitting pieces. *)
Lemma match_items_complete (p : list item) (prev : option N)
    (pieces : list str) (rest : str) :
  Forall is_rep p → Forall2 piece_ok p pieces →
  is_Some (match_items p prev (concat pieces ++ rest)).
Proof.
  intros Hrep Hfit. revert prev.
  induction Hfit as [|it w p pieces Hw Hfit IH]; intros prev; simpl; [eauto|].
  apply Forall_cons in Hrep as [Hit Hrep].
  destruct it as [cls lo hi|]; [|done]. destruct Hw as (Hall & Hlo & Hhi).
  rewrite <- (assoc_L (++)).
  apply (first_down_complete _ _ _ (length w)).
  - split; [done|].
    pose proof (take_while_prefix cls w (concat pieces ++ rest) Hall).
    destruct hi; lia.
  - rewrite take_app_length, drop_app_length.
    destruct (IH Hrep (last_of prev w)) as [ps ->]. simpl. eauto.
Qed.

Lemma prev_at_S (prev : option N) (c : N) (s : str) (k : nat) :
  prev_at prev (c :: s) (S k) = prev_at (Some c) s k.
Proof.
  unfold prev_at, last_of.
  change (take (S k) (c :: s)) with (c :: take k s).
  destruct (take k s) as [|d w]; [done|]. rewrite last_cons_cons.
  destruct (last (d :: w)) eqn:Hl; [done|]. by apply last_None in Hl.
Qed.

(** [search_from] returns the first position with a match. *)
Lemma search_from_Some (p : list item) (prev : option N) (s : str)
    (i0 i : nat) (pieces : list str) :
  search_from p prev s i0 = Some (i, pieces) →
  ∃ k, i = (i0 + k)%nat ∧ (k ≤ length s)%nat
       ∧ match_items p (prev_at prev s k) (drop k s) = Some pieces
       ∧ ∀ j, (j < k)%nat →
              match_items p (prev_at prev s j) (drop j s) = None.
Proof.
  revert prev i0. induction s as [|c s IH]; intros prev i0; simpl.
  - destruct (match_items p prev []) eqn:Hm; [|done]. intros [= <- <-].
    exists O. repeat split; [lia|lia|done|lia].
  - destruct (match_items p prev (c :: s)) eqn:Hm.
    + intros [= <- <-]. exists O. repeat split; [lia|lia|done|lia].
    + intros H. destruct (IH _ _ H) as (k & -> & Hk & Hmk & Hnone).
      exists (S k). repeat split; [lia|lia| |].
      * by rewrite prev_at_S.
      * intros [|j] Hj; [done|]. rewrite prev_at_S. apply Hnone. lia.
Qed.

Lemma search_from_None (p : list item) (prev : option N) (s : str)
    (i0 k : nat) :
  search_from p prev s i0 = None → (k ≤ length s)%nat →
  match_items p (prev_at prev s k) (drop k s) = None.
Proof.
  revert prev i0 k. induction s as [|c s IH]; intros prev i0 k; simpl.
  - destruct (match_items p prev []) eqn:Hm; [done|]. intros _ Hk.
    by assert (k = O) as -> by lia.
  - destruct (match_items p prev (c :: s)) eqn:Hm; [done|]. intros H Hk.
    destruct k as [|k]; [done|]. rewrite prev_at_S. eapply IH; [done|lia].
Qed.

End MatcherFacts.

(** ** CAO codes *)

Section CaoCode.
Context {R : PyRuntime}.

Lemma cao_shape_pieces (letters digits : str) :
  cao_shape letters digits ↔ Forall2 piece_ok re_cao [letters; digits].
Proof.
  unfold cao_shape, re_cao. split.
  - intros (Hl & Hu & Hd & Hg).
    apply Forall2_cons. split; [simpl; split; [done|lia]|].
    apply Forall2_cons. split; [simpl; split; [done|lia]|]. constructor.
  - intros H. inversion H as [|? ? ? ? H1 H2]; subst.
    inversion H2 as [|? ? ? ? H3 H4]; subst. simpl in *. intuition lia.
Qed.

Lemma re_cao_reps : Forall is_rep re_cao.
Proof. repeat constructor. Qed.

(** Where the text has a code, a match starts there. *)
Lemma re_cao_matches_at (u pre letters digits post : str) (prev : option N) :
  u = pre ++ letters ++ digits ++ post → cao_shape letters digits →
  is_Some (match_items re_cao prev (drop (length pre) u)).
Proof.
  intros -> Hshape. rewrite drop_app_length.
  replace (letters ++ digits ++ post) with (concat [letters; digits] ++ post)
    by (simpl; by rewrite app_nil_r, <- (assoc_L (++))).
  apply match_items_complete; [apply re_cao_reps|by apply cao_shape_pieces].
Qed.

(** No code starts where the pattern does not match. *)
Lemma no_code_before (u : str) (n : nat) :
  (∀ j, (j < n)%nat →
        match_items re_cao (prev_at None u j) (drop j u) = None) →
  ∀ pre letters digits post,
    u = pre ++ letters ++ digits ++ post → cao_shape letters digits →
    (n ≤ length pre)%nat.
Proof.
  intros Hnone pre letters digits post Hu Hshape.
  destruct (decide (n ≤ length pre)%nat) as [|Hlt]; [done|].
  pose proof (re_cao_matches_at u pre letters digits post
                (prev_at None u (length pre)) Hu Hshape) as Hat.
  rewrite Hnone in Hat by lia. by destruct Hat.
Qed.

Lemma digit_not_upper (c : N) : is_digit c = true → is_upper_AZ c = false.
Proof.
  unfold is_digit, is_ascii, is_digit_09, is_upper_AZ, in_range.
  destruct (N.ltb_spec c 128) as [Hascii|Hhigh].
  - intros [H1 H2]%andb_true_iff. apply N.leb_le in H1, H2.
    apply andb_false_iff. left. apply N.leb_gt. lia.
  - intros _. apply andb_false_iff. right. apply N.leb_gt. lia.
Qed.

(** At a code, the pattern takes the letters and then the digits, four of
    them or all there are. *)
Lemma re_cao_match_greedy (letters digits post : str) (prev : option N) :
  cao_shape letters digits →
  length digits = 4%nat
  ∨ match post with c :: _ => is_digit c = false | [] => True end →
  match_items re_cao prev (letters ++ digits ++ post) = Some [letters; digits].
Proof.
  intros (Hll & Hlu & Hdl & Hdd) Hmax. unfold re_cao. cbn [match_items].
  assert (take_while is_upper_AZ (letters ++ digits ++ post) = letters) as ->.
  { apply take_while_all; [done|].
    destruct digits as [|d digits]; [simpl in Hdl; lia|].
    simpl in Hdd. apply andb_true_iff in Hdd as [Hd _].
    by apply digit_not_upper. }
  rewrite Nat.min_r by lia.
  apply first_down_top; [lia|].
  rewrite take_app_length, drop_app_length.
  assert (Nat.min 4 (length (take_while is_digit (digits ++ post)))
          = length digits) as ->.
  { destruct Hmax as [H4|Hpost].
    - pose proof (take_while_prefix is_digit digits post Hdd). lia.
    - rewrite take_while_all by done. lia. }
  rewrite (first_down_top _ _ _ [digits]); [done|lia|].
  by rewrite take_app_length.
Qed.

Lemma drop_take_while_head (cls : N → bool) (s : str) :
  match drop (length (take_while cls s)) s with
  | c :: _ => cls c = false
  | [] => True
  end.
Proof.
  induction s as [|c s IH]; [done|]. simpl.
  destruct (cls c) eqn:Hc; [done|]. by simpl.
Qed.

(** Where three or four digits start, the pattern takes four of them or
    all there are. *)
Lemma greedy_digits (digits post : str) :
  (3 ≤ length digits ≤ 4)%nat → forallb is_digit digits = true →
  ∃ digits' post',
    digits ++ post = digits' ++ post'
    ∧ (3 ≤ length digits' ≤ 4)%nat ∧ forallb is_digit digits' = true
    ∧ (length digits' = 4%nat
       ∨ match post' with c :: _ => is_digit c = false | [] => True end).
Proof.
  intros Hlen Hdigits.
  pose proof (take_while_prefix is_digit digits post Hdigits) as Hrun.
  set (s := digits ++ post) in *.
  set (n := Nat.min 4 (length (take_while is_digit s))).
  destruct (take_while_take is_digit s n) as [Hall Hn]; [lia|].
  exists (take n s), (drop n s).
  split; [by rewrite take_drop|]. split; [lia|]. split; [done|].
  destruct (decide (4 ≤ length (take_while is_digit s))%nat) as [H4|H4].
  - left. lia.
  - right. replace n with (length (take_while is_digit s)) by lia.
    apply drop_take_while_head.
Qed.

(** The code [standardize_cao_code] returns, by where it is in the text. *)
Lemma standardize_cao_code_first_code (raw pre letters digits post : str) :
  first_code (upper (strip raw)) pre letters digits post →
  standardize_cao_code (VStr raw) = letters ++ digits.
Proof.
  intros (Hu & Hshape & Hleft & Hmax). unfold standardize_cao_code.
  assert (truthy (VStr raw) = true) as ->.
  { destruct raw; [|done]. exfalso. vm_compute in Hu.
    destruct Hshape as ([Hl _] & _).
    destruct pre; [|done]. destruct letters; [simpl in Hl; lia|done]. }
  simpl negb. cbv iota. change (py_str (VStr raw)) with raw.
  set (u := upper (strip raw)) in *.
  assert (length pre ≤ length u)%nat as Hpre.
  { rewrite Hu, length_app. lia. }
  pose proof (λ prev, re_cao_matches_at u pre letters digits post prev Hu Hshape)
    as Hat.
  unfold re_search. destruct (search_from re_cao None u 0) as [[i ps]|] eqn:Hs.
  - apply search_from_Some in Hs as (k & -> & Hk & Hm & Hfirst).
    assert (k = length pre) as ->.
    { apply Nat.le_antisymm.
      - destruct (decide (k ≤ length pre)%nat); [done|].
        specialize (Hat (prev_at None u (length pre))).
        rewrite Hfirst in Hat by lia. by destruct Hat.
      - destruct (match_items_sound _ _ _ _ Hm) as [Hfit [rest Hrest]].
        assert (∃ l' d', ps = [l'; d']) as (l' & d' & ->).
        { inversion Hfit as [|? ? ? ? ? H2]; subst.
          inversion H2 as [|? ? ? ? ? H3]; subst. inversion H3; subst. eauto. }
        apply cao_shape_pieces in Hfit. simpl in Hrest.
        rewrite app_nil_r in Hrest.
        specialize (Hleft (take k u) l' d' rest).
        rewrite length_take in Hleft.
        assert (length pre ≤ k `min` length u)%nat; [|lia].
        apply Hleft; [|done].
        rewrite (assoc_L (++) l'), <- Hrest. by rewrite take_drop. }
    rewrite Hu, drop_app_length in Hm.
    rewrite re_cao_match_greedy in Hm by done. by injection Hm as <-.
  - eapply (search_from_None _ _ _ _ (length pre)) in Hs; [|done].
    specialize (Hat (prev_at None u (length pre))).
    rewrite Hs in Hat. by destruct Hat.
Qed.

(** A text that holds a code holds a first one. *)
Lemma first_code_exists (u pre letters digits post : str) :
  u = pre ++ letters ++ digits ++ post → cao_shape letters digits →
  ∃ pre' letters' digits' post', first_code u pre' letters' digits' post'.
Proof.
  intros Hu Hshape.
  assert (length pre ≤ length u)%nat as Hpre.
  { rewrite Hu, length_app. lia. }
  pose proof (re_cao_matches_at u pre letters digits post
                (prev_at None u (length pre)) Hu Hshape) as Hat.
  destruct (search_from re_cao None u 0) as [[i ps]|] eqn:Hs.
  2:{ eapply (search_from_None _ _ _ _ (length pre)) in Hs; [|done].
      rewrite Hs in Hat. by destruct Hat. }
  apply search_from_Some in Hs as (k & _ & Hk & Hm & Hfirst).
  destruct (match_items_sound _ _ _ _ Hm) as [Hfit [rest Hrest]].
  assert (∃ l' d', ps = [l'; d']) as (l' & d' & ->).
  { inversion Hfit as [|? ? ? ? ? H2]; subst.
    inversion H2 as [|? ? ? ? ? H3]; subst. inversion H3; subst. eauto. }
  apply cao_shape_pieces in Hfit as (Hll & Hlu & Hdl & Hdd).
  simpl in Hrest. rewrite app_nil_r in Hrest.
  destruct (greedy_digits d' rest Hdl Hdd)
    as (digits' & post' & Hcut & Hdl' & Hdd' & Hmax).
  exists (take k u), l', digits', post'. split; [|split; [done|split]].
  - rewrite <- Hcut, (assoc_L (++) l'), <- Hrest. by rewrite take_drop.
  - intros pre2 letters2 digits2 post2 Hu2 Hshape2.
    rewrite length_take, Nat.min_l by done.
    by eapply no_code_before.
  - done.
Qed.

(** C4, amended. When the stripped, uppercased input holds a code, 2 to 4
    letters followed by 3 to 4 digits, [standardize_cao_code] returns the
    letters and the digits of one such substring, and which one is fixed by
    [re.search]: the one before which no other starts, taken with its
    fourth digit when there is one.  There is such a first code in the
    text, the method returns it, and any two ways of cutting it out give
    the same code. *)
Theorem standardize_cao_code_canonical (raw pre letters digits post : str) :
  upper (strip raw) = pre ++ letters ++ digits ++ post →
  cao_shape letters digits →
  ∃ pre' letters' digits' post',
    first_code (upper (strip raw)) pre' letters' digits' post'
    ∧ standardize_cao_code (VStr raw) = letters' ++ digits'
    ∧ ∀ pre2 letters2 digits2 post2,
        first_code (upper (strip raw)) pre2 letters2 digits2 post2 →
        letters2 ++ digits2 = letters' ++ digits'.
Proof.
  intros Hu Hshape.
  destruct (first_code_exists _ _ _ _ _ Hu Hshape)
    as (pre' & letters' & digits' & post' & Hfirst).
  exists pre', letters', digits', post'. split; [done|].
  pose proof (standardize_cao_code_first_code raw _ _ _ _ Hfirst) as Hcode.
  split; [done|].
  intros pre2 letters2 digits2 post2 Hfirst2. rewrite <- Hcode.
  symmetry. by eapply standardize_cao_code_first_code.
Qed.

(** The example of the specification. *)
Example standardize_cao_code_example :
  standardize_cao_code (VStr (lit "code: ab123 ")) = lit "AB123".
Proof. reflexivity. Qed.

End CaoCode.

(** C4, the claim as worded.  ["AB1234"] holds the code ["AB123"], two
    letters and three digits, and [standardize_cao_code] does not return
    it: the pattern takes the fourth digit as well. *)
Lemma standardize_cao_code_takes_fourth_digit :
  upper (R := ascii_runtime) (strip (lit "AB1234"))
    = [] ++ lit "AB" ++ lit "123" ++ lit "4"
  ∧ cao_shape (R := ascii_runtime) (lit "AB") (lit "123")
  ∧ standardize_cao_code (R := ascii_runtime) (VStr (lit "AB1234"))
    = lit "AB1234"
  ∧ standardize_cao_code (R := ascii_runtime) (VStr (lit "AB1234"))
    ≠ lit "AB" ++ lit "123".
Proof.
  split; [reflexivity|]. split; [repeat split; simpl; lia|].
  split; [reflexivity|]. by vm_compute.
Qed.

(** C4, amended, on the example of the specification. *)
Lemma standardize_cao_code_canonical_witness :
  ∃ pre' letters' digits' post',
    first_code (R := ascii_runtime)
      (upper (R := ascii_runtime) (strip (lit "code: ab123 ")))
      pre' letters' digits' post'
    ∧ standardize_cao_code (R := ascii_runtime) (VStr (lit "code: ab123 "))
      = letters' ++ digits'
    ∧ ∀ pre2 letters2 digits2 post2,
        first_code (R := ascii_runtime)
          (upper (R := ascii_runtime) (strip (lit "code: ab123 ")))
          pre2 letters2 digits2 post2 →
        letters2 ++ digits2 = letters' ++ digits'.
Proof.
  apply (standardize_cao_code_canonical (R := ascii_runtime)
           (lit "code: ab123 ") (lit "CODE: ") (lit "AB") (lit "123") []).
  - reflexivity.
  - repeat split; simpl; lia.
Defined.

(** ** Deduplication *)

Section Dedup.
Context {R : PyRuntime}.

Lemma get_or_text (course : CourseRecord) (field : string) (d : str) :
  is_text (course !! field) → ∃ s, get_or course field (VStr d) = VStr s.
Proof.
  unfold get_or. destruct (course !! field) as [[]|]; simpl; eauto; done.
Qed.

Lemma dedup_key_total (course : CourseRecord) :
  has_text_keys course → keyable course.
Proof.
  intros [Hn Hc]. unfold keyable, dedup_key.
  destruct (get_or_text _ _ [] Hn) as [n ->].
  destruct (get_or_text _ _ [] Hc) as [c ->]. simpl.
  destruct (strip c); eauto.
Qed.

(** The key is empty exactly when the name lowers and strips to nothing and
    the code strips to nothing. *)
Lemma dedup_key_empty (course : CourseRecord) (name cao_code : str) :
  get_or course "name" (VStr []) = VStr name →
  get_or course "cao_code" (VStr []) = VStr cao_code →
  dedup_key course = Ok [] ↔ strip (lower name) = [] ∧ strip cao_code = [].
Proof.
  intros Hn Hc. unfold dedup_key. rewrite Hn, Hc. simpl.
  destruct (strip cao_code) as [|c w]; simpl.
  - split; [by intros [= ->]|by intros [-> _]].
  - split; [|by intros [_ ?]]. intros [= H].
    by apply app_eq_nil in H as [_ ?].
Qed.

(** What the loop does to its variables, one record at a time. *)
Lemma dedup_step_empty (seen : gset str) (unique : list CourseRecord)
    (dups : nat) (course : CourseRecord) :
  dedup_key course = Ok [] →
  dedup_step (seen, unique, dups) course = Ok (seen, unique, S dups).
Proof. intros H. unfold dedup_step. by rewrite H. Qed.

Lemma dedup_step_seen (seen : gset str) (unique : list CourseRecord)
    (dups : nat) (course : CourseRecord) (key : str) :
  dedup_key course = Ok key → key ∈ seen →
  dedup_step (seen, unique, dups) course = Ok (seen, unique, S dups).
Proof.
  intros H Hin. unfold dedup_step. rewrite H. simpl.
  destruct key; [done|]. by rewrite bool_decide_eq_false_2 by (by intros []).
Qed.

Lemma dedup_step_fresh (seen : gset str) (unique : list CourseRecord)
    (dups : nat) (course : CourseRecord) (key : str) :
  dedup_key course = Ok key → key ≠ [] → key ∉ seen →
  dedup_step (seen, unique, dups) course
  = Ok ({[key]} ∪ seen, unique ++ [course], dups).
Proof.
  intros H Hne Hin. unfold dedup_step. rewrite H. simpl.
  destruct key; [done|]. by rewrite bool_decide_eq_true_2.
Qed.

Lemma for_each_cons_Ok {A S} (body : S → A → result S) (acc acc' : S) (x : A)
    (l : list A) :
  body acc x = Ok acc' → for_each body acc (x :: l) = for_each body acc' l.
Proof. intros H. simpl. by rewrite H. Qed.

(** The loop invariant: what is appended to [unique_courses] is, key by
    key, the first record of the remaining input with that key, unless the
    key is empty or was seen before; the rest is counted. *)
Lemma for_each_dedup_step (courses : list CourseRecord) (seen : gset str)
    (unique : list CourseRecord) (dups : nat) :
  Forall keyable courses →
  ∃ seen' added,
    for_each dedup_step (seen, unique, dups) courses
    = Ok (seen', unique ++ added,
          (dups + (length courses - length added))%nat)
    ∧ (length added ≤ length courses)%nat
    ∧ added `sublist_of` courses
    ∧ ∀ key,
        filter (λ c, dedup_key c = Ok key) added
        = if decide (key = [] ∨ key ∈ seen) then []
          else take 1 (filter (λ c, dedup_key c = Ok key) courses).
Proof.
  intros Hall. revert seen unique dups.
  induction Hall as [|course courses Hc Hall IH]; intros seen unique dups.
  { exists seen, []. simpl. rewrite app_nil_r, Nat.add_0_r.
    repeat split; [lia|done|]. intros key. by destruct (decide _). }
  destruct Hc as [k0 Hk0].
  destruct (decide (k0 = [] ∨ k0 ∈ seen)) as [Hdrop|Hkeep].
  - rewrite (for_each_cons_Ok _ _ (seen, unique, S dups)).
    2:{ destruct Hdrop as [->|Hin];
          [by apply dedup_step_empty|by eapply dedup_step_seen]. }
    destruct (IH seen unique (S dups))
      as (seen' & added & Heq & Hlen & Hsub & Hkeys).
    exists seen', added. rewrite Heq. repeat split.
    + cbn [length]. do 2 f_equal. lia.
    + cbn [length]. lia.
    + by apply sublist_cons.
    + intros key. rewrite Hkeys. destruct (decide (key = [] ∨ key ∈ seen)); [done|].
      rewrite filter_cons. destruct (decide (dedup_key course = Ok key)) as [He|]; [|done].
      rewrite Hk0 in He. injection He as ->. done.
  - assert (k0 ≠ [] ∧ k0 ∉ seen) as [Hne Hnin] by tauto.
    rewrite (for_each_cons_Ok _ _ ({[k0]} ∪ seen, unique ++ [course], dups))
      by by apply dedup_step_fresh.
    destruct (IH ({[k0]} ∪ seen) (unique ++ [course]) dups)
      as (seen' & added & Heq & Hlen & Hsub & Hkeys).
    exists seen', (course :: added). rewrite Heq. repeat split.
    + rewrite <- (assoc_L (++)). cbn [length app]. do 2 f_equal; lia.
    + cbn [length]. lia.
    + by apply sublist_skip.
    + intros key. rewrite !filter_cons, Hkeys.
      destruct (decide (dedup_key course = Ok key)) as [He|Hne'].
      * rewrite Hk0 in He. injection He as <-.
        rewrite decide_True by set_solver. by rewrite decide_False by tauto.
      * destruct (decide (key = [] ∨ key ∈ seen)) as [Hd|Hd].
        -- rewrite decide_True; [done|]. destruct Hd; [by left|right].
           apply elem_of_union. by right.
        -- rewrite decide_False; [done|].
           intros [?|[?%elem_of_singleton|?]%elem_of_union]; [tauto| |tauto].
           subst key. by rewrite Hk0 in Hne'.
Qed.

(** A loop that ends without an exception keyed every record. *)
Lemma for_each_dedup_step_keyable (courses : list CourseRecord)
    (acc r : dedup_state) :
  for_each dedup_step acc courses = Ok r → Forall keyable courses.
Proof.
  revert acc. induction courses as [|course courses IH]; intros acc;
    [by constructor|].
  simpl. destruct acc as [[seen unique] dups].
  destruct (dedup_step (seen, unique, dups) course) as [acc'|e] eqn:Hstep;
    [|done].
  simpl. intros H. constructor; [|by eapply IH].
  unfold dedup_step in Hstep.
  destruct (dedup_key course) as [k|] eqn:Hk; [|done]. by exists k.
Qed.

(** [remove_duplicates] as a whole. *)
Lemma remove_duplicates_spec (courses : list CourseRecord) (st : stats) :
  Forall keyable courses →
  ∃ unique,
    remove_duplicates courses st
    = (Ok unique,
       set_duplicates_removed (length courses - length unique) st)
    ∧ unique `sublist_of` courses
    ∧ ∀ key,
        filter (λ c, dedup_key c = Ok key) unique
        = if decide (key = []) then []
          else take 1 (filter (λ c, dedup_key c = Ok key) courses).
Proof.
  intros Hall.
  destruct (for_each_dedup_step courses ∅ [] O Hall)
    as (seen' & unique & Heq & Hlen & Hsub & Hkeys).
  exists unique. unfold remove_duplicates, dedup_loop, mbind, M_bind, lift.
  rewrite Heq. simpl. repeat split; [done|].
  intros key. rewrite Hkeys. destruct (decide (key = [])) as [->|Hne].
  - by rewrite decide_True by by left.
  - rewrite decide_False; [done|]. intros [?|?]; [done|set_solver].
Qed.

Lemma remove_duplicates_Ok (courses unique : list CourseRecord) (st : stats) :
  (remove_duplicates courses st).1 = Ok unique → Forall keyable courses.
Proof.
  unfold remove_duplicates, dedup_loop, mbind, M_bind, lift.
  destruct (for_each dedup_step (∅, [], O) courses) as [r|e] eqn:Heq;
    [|done].
  intros _. by eapply for_each_dedup_step_keyable.
Qed.

(** C5, amended. When two records of the input have the same non-empty
    key, the output has exactly one record with that key, the first of the
    input that has it, and the output keeps the order of the input. *)
Theorem remove_duplicates_first_wins (courses : list CourseRecord)
    (st : stats) (i j : nat) (ci cj : CourseRecord) (key : str) :
  Forall has_text_keys courses →
  (i < j)%nat → courses !! i = Some ci → courses !! j = Some cj →
  dedup_key ci = Ok key → dedup_key cj = Ok key → key ≠ [] →
  ∃ unique first,
    (remove_duplicates courses st).1 = Ok unique
    ∧ head (filter (λ c, dedup_key c = Ok key) courses) = Some first
    ∧ filter (λ c, dedup_key c = Ok key) unique = [first]
    ∧ unique `sublist_of` courses.
Proof.
  intros Hall _ Hi _ Hki _ Hne.
  destruct (remove_duplicates_spec courses st) as (unique & Heq & Hsub & Hkeys).
  { eapply Forall_impl; [done|]. apply dedup_key_total. }
  assert (ci ∈ filter (λ c, dedup_key c = Ok key) courses) as Hin.
  { apply list_elem_of_filter. split; [done|]. by eapply list_elem_of_lookup_2. }
  destruct (filter (λ c, dedup_key c = Ok key) courses) as [|first rest] eqn:Hf;
    [by apply elem_of_nil in Hin|].
  exists unique, first. rewrite Heq, Hkeys, decide_False, Hf by done. done.
Qed.

(** C9. A record whose name lowers and strips to nothing and whose code
    strips to nothing has the empty key: the loop drops it and counts it as
    a duplicate whatever was seen before, so alone in the input it leaves
    no output and a count of 1; and no record of any output has the empty
    key. *)
Theorem remove_duplicates_drops_empty_key (course : CourseRecord)
    (name cao_code : str) :
  get_or course "name" (VStr []) = VStr name → strip (lower name) = [] →
  get_or course "cao_code" (VStr []) = VStr cao_code → strip cao_code = [] →
  dedup_key course = Ok []
  ∧ (∀ seen unique dups,
       dedup_step (seen, unique, dups) course = Ok (seen, unique, S dups))
  ∧ (∀ st, remove_duplicates [course] st
           = (Ok [], set_duplicates_removed 1 st))
  ∧ (∀ courses st unique,
       (remove_duplicates courses st).1 = Ok unique →
       (course ∉ unique) ∧ ∀ c, c ∈ unique → dedup_key c ≠ Ok []).
Proof.
  intros Hn Hlow Hc Hcode.
  assert (dedup_key course = Ok []) as Hkey
    by by apply (dedup_key_empty course name cao_code).
  split; [done|]. split; [|split].
  - intros seen unique dups. by apply dedup_step_empty.
  - intros st. unfold remove_duplicates, dedup_loop, mbind, M_bind, lift.
    by rewrite (for_each_cons_Ok _ _ (∅, [], 1%nat))
      by by apply dedup_step_empty.
  - intros courses st unique Hrun.
    destruct (remove_duplicates_spec courses st) as (unique' & Heq & _ & Hkeys);
      [by eapply remove_duplicates_Ok|].
    rewrite Heq in Hrun. injection Hrun as ->.
    specialize (Hkeys []). rewrite decide_True in Hkeys by done.
    assert (∀ c, c ∈ unique → dedup_key c ≠ Ok []) as Hnone.
    { intros c Hin Hk.
      assert (c ∈ filter (λ c, dedup_key c = Ok []) unique) as Hf
        by by apply list_elem_of_filter.
      rewrite Hkeys in Hf. by apply elem_of_nil in Hf. }
    split; [|done]. intros Hin. by apply (Hnone course).
Qed.

End Dedup.

(** Whatever the tables of the runtime, two records with the empty key
    leave nothing in the output. *)
Lemma empty_key_twice_any_runtime {R : PyRuntime} :
  dedup_key unnamed_course = Ok []
  ∧ remove_duplicates [unnamed_course; unnamed_course] init_stats
    = (Ok [], set_duplicates_removed 2 init_stats).
Proof. split; reflexivity. Qed.

(** C5 as stated fails on the empty key: two records with the same key,
    and no record with that key in the output. *)
Lemma remove_duplicates_empty_key_twice :
  dedup_key (R := ascii_runtime) unnamed_course = Ok []
  ∧ remove_duplicates (R := ascii_runtime) [unnamed_course; unnamed_course]
      init_stats
    = (Ok [], set_duplicates_removed 2 init_stats).
Proof. split; reflexivity. Qed.

(** C5, amended, on two records named "Physics". *)
Lemma remove_duplicates_first_wins_witness :
  ∃ unique first,
    (remove_duplicates (R := ascii_runtime) [physics_a; physics_b]
       init_stats).1 = Ok unique
    ∧ head (filter (λ c, dedup_key (R := ascii_runtime) c = Ok (lit "physics"))
              [physics_a; physics_b]) = Some first
    ∧ filter (λ c, dedup_key (R := ascii_runtime) c = Ok (lit "physics")) unique
      = [first]
    ∧ unique `sublist_of` [physics_a; physics_b].
Proof.
  apply (remove_duplicates_first_wins (R := ascii_runtime)
           [physics_a; physics_b] init_stats 0 1 physics_a physics_b
           (lit "physics")).
  - repeat constructor; vm_compute; exact I.
  - lia.
  - reflexivity.
  - reflexivity.
  - reflexivity.
  - reflexivity.
  - discriminate.
Defined.

(** C9 on the record with an empty name. *)
Lemma remove_duplicates_drops_empty_key_witness :
  dedup_key (R := ascii_runtime) unnamed_course = Ok []
  ∧ (∀ seen unique dups,
       dedup_step (R := ascii_runtime) (seen, unique, dups) unnamed_course
       = Ok (seen, unique, S dups))
  ∧ (∀ st, remove_duplicates (R := ascii_runtime) [unnamed_course] st
           = (Ok [], set_duplicates_removed 1 st))
  ∧ (∀ courses st unique,
       (remove_duplicates (R := ascii_runtime) courses st).1 = Ok unique →
       (unnamed_course ∉ unique)
       ∧ ∀ c, c ∈ unique → dedup_key (R := ascii_runtime) c ≠ Ok []).
Proof.
  apply (remove_duplicates_drops_empty_key (R := ascii_runtime)
           unnamed_course [] []); reflexivity.
Defined.

(** ** Cleaning a record *)

Section CleanRecord.
Context {R : PyRuntime}.

Lemma clean_text_at_other (cleaned : CourseRecord) (field key : string) :
  field ≠ key → clean_text_at cleaned field !! key = cleaned !! key.
Proof.
  intros Hne. unfold clean_text_at.
  destruct (cleaned !! field); [by rewrite lookup_insert_ne|done].
Qed.

Lemma clean_text_fields_other (cleaned : CourseRecord) (fields : list string)
    (key : string) :
  key ∉ fields → foldl clean_text_at cleaned fields !! key = cleaned !! key.
Proof.
  revert cleaned. induction fields as [|f fields IH]; intros cleaned Hnot;
    [done|].
  simpl. rewrite IH by set_solver. apply clean_text_at_other. set_solver.
Qed.

Lemma clean_number_at_Ok (clean : value → result Z) (field : string)
    (cleaned cleaned' : CourseRecord) :
  clean_number_at clean field cleaned = Ok cleaned' →
  (∀ key, key ≠ field → cleaned' !! key = cleaned !! key)
  ∧ (∀ v, cleaned !! field = Some v →
          ∃ n, clean v = Ok n ∧ cleaned' !! field = Some (VInt n)).
Proof.
  unfold clean_number_at. destruct (cleaned !! field) as [v|] eqn:Hv.
  - destruct (clean v) as [n|e] eqn:Hc; simpl; [|done]. intros [= <-]. split.
    + intros key Hne. by rewrite lookup_insert_ne.
    + intros ? [= <-]. exists n. by rewrite lookup_insert_eq.
  - intros [= <-]. split; [done|]. intros v. by rewrite Hv.
Qed.

Lemma nfq_level_not_text : "nfq_level"%string ∉ text_fields.
Proof. by_decision. Qed.

Lemma clean_text_at_same (cleaned : CourseRecord) (field : string) :
  clean_text_at cleaned field !! field
  = (λ v, VStr (clean_text_field v)) <$> cleaned !! field.
Proof.
  unfold clean_text_at. destruct (cleaned !! field) as [v|] eqn:Hv.
  - by rewrite lookup_insert_eq.
  - by rewrite Hv.
Qed.

Lemma clean_text_fields_same (cleaned : CourseRecord) (fields : list string)
    (key : string) :
  NoDup fields → key ∈ fields →
  foldl clean_text_at cleaned fields !! key
  = (λ v, VStr (clean_text_field v)) <$> cleaned !! key.
Proof.
  intros Hnodup. revert cleaned.
  induction Hnodup as [|f fields Hf Hnodup IH]; intros cleaned Hkey;
    [by apply elem_of_nil in Hkey|].
  simpl. apply elem_of_cons in Hkey as [->|Hkey].
  - rewrite clean_text_fields_other by done. apply clean_text_at_same.
  - rewrite IH by done. rewrite clean_text_at_other; [done|].
    by intros ->.
Qed.

Lemma clean_text_at_dom (cleaned : CourseRecord) (field : string) :
  dom (clean_text_at cleaned field) = dom cleaned.
Proof.
  unfold clean_text_at. destruct (cleaned !! field) as [v|] eqn:Hv; [|done].
  by apply dom_insert_lookup_L.
Qed.

Lemma clean_text_fields_dom (cleaned : CourseRecord) (fields : list string) :
  dom (foldl clean_text_at cleaned fields) = dom cleaned.
Proof.
  revert cleaned. induction fields as [|f fields IH]; intros cleaned; [done|].
  simpl. by rewrite IH, clean_text_at_dom.
Qed.

Lemma clean_number_at_dom (clean : value → result Z) (field : string)
    (cleaned cleaned' : CourseRecord) :
  clean_number_at clean field cleaned = Ok cleaned' →
  dom cleaned' = dom cleaned.
Proof.
  unfold clean_number_at. destruct (cleaned !! field) as [v|] eqn:Hv.
  - destruct (clean v) as [n|]; simpl; [|done]. intros [= <-].
    by apply dom_insert_lookup_L.
  - by intros [= <-].
Qed.

Lemma text_fields_NoDup : NoDup text_fields.
Proof. by_decision. Qed.

(** The level a cleaned record holds, when the raw record had one. *)
Lemma clean_single_course_nfq_level (raw cleaned : CourseRecord) (v : value) :
  clean_single_course raw = Ok cleaned →
  raw !! "nfq_level"%string = Some v →
  ∃ n, clean_nfq_level v = Ok n
       ∧ cleaned !! "nfq_level"%string = Some (VInt n).
Proof.
  unfold clean_single_course. intros Hrun Hraw.
  set (c0 := foldl clean_text_at raw text_fields) in *.
  set (c1 := match c0 !! "cao_code"%string with
             | Some v => <["cao_code"%string := VStr (standardize_cao_code v)]> c0
             | None => c0
             end) in *.
  assert (c1 !! "nfq_level"%string = Some v) as Hc1.
  { subst c1. destruct (c0 !! "cao_code"%string);
      [rewrite lookup_insert_ne by done|];
      subst c0; rewrite clean_text_fields_other; try done;
      apply nfq_level_not_text. }
  destruct (clean_number_at clean_nfq_level "nfq_level" c1) as [c2|] eqn:H2;
    simpl in Hrun; [|done].
  destruct (clean_number_at clean_points "points" c2) as [c3|] eqn:H3;
    simpl in Hrun; [|done].
  destruct (clean_number_at clean_college_id "college_id" c3) as [c4|] eqn:H4;
    simpl in Hrun; [|done].
  injection Hrun as <-.
  apply clean_number_at_Ok in H2 as [_ H2], H3 as [H3 _], H4 as [H4 _].
  destruct (H2 v Hc1) as (n & Hn & Hl). exists n. split; [done|].
  by rewrite H4, H3.
Qed.

(** What a cleaned record holds in a text field and where it has none. *)
Lemma clean_single_course_text (raw cleaned : CourseRecord) (key : string) :
  clean_single_course raw = Ok cleaned →
  (key ∈ text_fields →
   cleaned !! key = (λ v, VStr (clean_text_field v)) <$> raw !! key)
  ∧ (raw !! key = None → cleaned !! key = None).
Proof.
  unfold clean_single_course. intros Hrun.
  set (c0 := foldl clean_text_at raw text_fields) in *.
  set (c1 := match c0 !! "cao_code"%string with
             | Some v => <["cao_code"%string := VStr (standardize_cao_code v)]> c0
             | None => c0
             end) in *.
  destruct (clean_number_at clean_nfq_level "nfq_level" c1) as [c2|] eqn:H2;
    simpl in Hrun; [|done].
  destruct (clean_number_at clean_points "points" c2) as [c3|] eqn:H3;
    simpl in Hrun; [|done].
  destruct (clean_number_at clean_college_id "college_id" c3) as [c4|] eqn:H4;
    simpl in Hrun; [|done].
  injection Hrun as <-.
  assert (dom c1 = dom raw) as Hdom1.
  { subst c1. destruct (c0 !! "cao_code"%string) as [v|] eqn:Hv.
    - rewrite dom_insert_lookup_L by done. apply clean_text_fields_dom.
    - apply clean_text_fields_dom. }
  pose proof (clean_number_at_dom _ _ _ _ H2) as Hd2.
  pose proof (clean_number_at_dom _ _ _ _ H3) as Hd3.
  pose proof (clean_number_at_dom _ _ _ _ H4) as Hd4.
  apply clean_number_at_Ok in H2 as [H2o _], H3 as [H3o _], H4 as [H4o _].
  split.
  - intros Hkey.
    assert (key ∉ ["cao_code"; "nfq_level"; "points"; "college_id"]%string)
      as Hother.
    { intros Hin.
      repeat (apply elem_of_cons in Hin as [->|Hin];
              [revert Hkey; by_decision|]).
      by apply elem_of_nil in Hin. }
    rewrite H4o, H3o, H2o by (intros ->; apply Hother; by_decision).
    subst c1. assert (key ≠ "cao_code"%string) as Hcao
      by (intros ->; apply Hother; by_decision).
    destruct (c0 !! "cao_code"%string); [rewrite lookup_insert_ne by done|];
      apply clean_text_fields_same; (apply text_fields_NoDup || done).
  - intros Hnone. apply not_elem_of_dom. apply not_elem_of_dom in Hnone.
    congruence.
Qed.

Lemma in_ints_VInt (n : Z) (l : list Z) : n ∈ l → in_ints (VInt n) l = true.
Proof.
  intros Hin. unfold in_ints. apply existsb_exists. exists n.
  split; [by apply list_elem_of_In|]. simpl. apply Z.eqb_refl.
Qed.

(** C6, amended. A raw record that has an [nfq_level] field leaves
    [clean_single_course] with a level of the valid set, so the validator's
    check of the level adds no error for it. *)
Theorem cleaned_nfq_level_valid (raw cleaned : CourseRecord) :
  clean_single_course raw = Ok cleaned →
  is_Some (raw !! "nfq_level"%string) →
  (∃ n, cleaned !! "nfq_level"%string = Some (VInt n)
        ∧ n ∈ [5; 6; 7; 8; 9; 10]%Z)
  ∧ invalid_nfq cleaned = Ok [].
Proof.
  intros Hrun [v Hv].
  destruct (clean_single_course_nfq_level _ _ _ Hrun Hv) as (n & Hn & Hl).
  assert (n ∈ valid_nfq_levels VALIDATION_RULES) as Hin
    by (by eapply clean_nfq_level_range).
  split; [by exists n|].
  unfold invalid_nfq, get_or. rewrite Hl. by rewrite in_ints_VInt.
Qed.

End CleanRecord.

(** Whatever the tables of the runtime, a record without the field is
    cleaned to itself and fails the check of the level. *)
Lemma without_nfq_level_any_runtime {R : PyRuntime} :
  clean_single_course physics_a = Ok physics_a
  ∧ invalid_nfq physics_a = Ok [lit "Invalid NFQ level: None"].
Proof. split; reflexivity. Qed.

(** C6 as stated fails on a raw record without the field: cleaning leaves
    it as it is, and the validator's check of the level reports [None]. *)
Lemma cleaned_without_nfq_level_invalid :
  clean_single_course (R := ascii_runtime) physics_a = Ok physics_a
  ∧ invalid_nfq (R := ascii_runtime) physics_a
    = Ok [lit "Invalid NFQ level: None"].
Proof. split; reflexivity. Qed.

(** C6, amended, on a record whose level ["12"] is out of the set. *)
Lemma cleaned_nfq_level_valid_witness :
  (∃ n, <["nfq_level"%string := VInt 8]> physics_a !! "nfq_level"%string
        = Some (VInt n)
        ∧ n ∈ [5; 6; 7; 8; 9; 10]%Z)
  ∧ invalid_nfq (R := ascii_runtime) (<["nfq_level"%string := VInt 8]> physics_a)
    = Ok [].
Proof.
  apply (cleaned_nfq_level_valid (R := ascii_runtime) physics_raw).
  - by vm_compute.
  - by exists (VStr (lit "12")).
Defined.

(** ** Validation *)

Section Validation.
Context {R : PyRuntime}.

(** [validate_course] by the list of errors it collects. *)
Lemma validate_course_run (course : CourseRecord) (st : stats) :
  validate_course course st =
  match validation_errors_of course with
  | Raise e => (Raise e, st)
  | Ok [] => (Ok true, st)
  | Ok (e :: es) =>
      match error_key course with
      | Ok key => (Ok false, set_validation_error key (e :: es) st)
      | Raise x => (Raise x, st)
      end
  end.
Proof.
  unfold validate_course, mbind, M_bind, lift.
  destruct (validation_errors_of course) as [[|e es]|x]; [done| |done].
  simpl. by destruct (error_key course).
Qed.

(** A record is kept by the filter only if the method said [True]. *)
Lemma filterM_kept {A} (keep : A → M bool) (l out : list A) (st : stats) :
  (filterM keep l st).1 = Ok out →
  ∀ x, x ∈ out → ∃ st', (keep x st').1 = Ok true.
Proof.
  revert st out. induction l as [|a l IH]; intros st out; simpl.
  - intros [= <-] x Hx. by apply elem_of_nil in Hx.
  - unfold mbind, M_bind.
    destruct (keep a st) as [[b|e] st1] eqn:Hk; [|done].
    destruct (filterM keep l st1) as [[rest|e] st2] eqn:Hf; [|done].
    simpl. intros [= <-] x Hx.
    assert (∀ y, y ∈ rest → ∃ st', (keep y st').1 = Ok true) as Hrest.
    { apply (IH st1). by rewrite Hf. }
    destruct b; [|by apply Hrest].
    apply elem_of_cons in Hx as [->|Hx]; [|by apply Hrest].
    exists st. by rewrite Hk.
Qed.

(** A name that holds one of the boilerplate substrings is not empty. *)
Lemma system_name_not_empty (name : str) :
  existsb (λ invalid, contains invalid (lower name)) invalid_names = true →
  truthy (VStr name) = true.
Proof. by destruct name. Qed.

Lemma system_page_hit (name : str) :
  existsb (λ invalid, contains invalid (lower name)) invalid_names = true →
  system_page (VStr name) = Ok [lit "Not a course entry (system page)"].
Proof.
  intros Hsys. unfold system_page.
  rewrite (system_name_not_empty name Hsys). simpl py_lower.
  change (Ok (lower name) ≫= ?k) with (k (lower name)). cbv beta.
  by rewrite Hsys.
Qed.

Lemma name_too_long_Ok (name : str) :
  ∃ errors, name_too_long (VStr name) = Ok errors.
Proof.
  unfold name_too_long. destruct (truthy (VStr name)); [|eauto]. simpl.
  destruct (_ <? _)%nat; eauto.
Qed.

Lemma name_too_short_Ok (name : str) :
  ∃ errors, name_too_short (VStr name) = Ok errors.
Proof.
  unfold name_too_short. destruct (truthy (VStr name)); [|eauto]. simpl.
  destruct (_ <? _)%nat; eauto.
Qed.

(** The errors of a record named as a system page: the reason is among
    them, whatever the other checks add. *)
Lemma validation_errors_of_system_page (course : CourseRecord) (name : str) :
  course !! "name"%string = Some (VStr name) →
  existsb (λ invalid, contains invalid (lower name)) invalid_names = true →
  ∃ front,
    validation_errors_of course
    = (_ ← check_description course;
       e5 ← invalid_nfq course;
       Ok (front ++ [lit "Not a course entry (system page)"] ++ e5)).
Proof.
  intros Hname Hsys. unfold validation_errors_of, get_or. rewrite Hname.
  rewrite (system_page_hit name Hsys).
  destruct (name_too_long_Ok name) as [e2 ->].
  destruct (name_too_short_Ok name) as [e3 ->].
  exists (missing_required course ++ e2 ++ e3).
  unfold mbind, result_bind.
  destruct (check_description course); [|done].
  destruct (invalid_nfq course); [|done]. by rewrite <- !(assoc_L (++)).
Qed.

(** The description check returns on a description that is text or
    absent, when the name is text. *)
Lemma check_description_text (course : CourseRecord) (name : str) :
  course !! "name"%string = Some (VStr name) →
  is_text (course !! "description"%string) →
  check_description course = Ok tt.
Proof.
  intros Hname Hdesc. unfold check_description, get_or. rewrite Hname.
  destruct (course !! "description"%string) as [[| | | |s]|]; try done.
  destruct (truthy (VStr s)); [|done]. simpl.
  by destruct (_ <? _)%nat.
Qed.

(** The check of the level returns unless the level is an integer of too
    many digits. *)
Lemma invalid_nfq_Ok (course : CourseRecord) :
  (∀ z, course !! "nfq_level"%string = Some (VInt z) →
        too_many_digits z = false) →
  ∃ e5, invalid_nfq course = Ok e5.
Proof.
  intros Hlevel. unfold invalid_nfq, get_or.
  destruct (in_ints _ _); [by eauto|].
  destruct (course !! "nfq_level"%string) as [v|]; [|by eauto].
  destruct v as [| |z| |]; try (by eauto).
  unfold py_format. rewrite Hlevel by done. by eauto.
Qed.

(** C7, amended. A record whose name, lowered, holds one of the boilerplate
    substrings is never accepted by [validate_course], in whatever state the
    statistics are and whatever its other fields hold, and it is in no list
    the validation step of the pipeline lets through.  The method returns
    [False] for it when its description is text or absent and its level is
    no integer of more than 4300 digits; on other records it may raise
    instead. *)
Theorem validate_course_rejects_system_page (course : CourseRecord)
    (name : str) :
  course !! "name"%string = Some (VStr name) →
  existsb (λ invalid, contains invalid (lower name)) invalid_names = true →
  (∀ st, (validate_course course st).1 ≠ Ok true)
  ∧ (is_text (course !! "description"%string) →
     (∀ z, course !! "nfq_level"%string = Some (VInt z) →
           too_many_digits z = false) →
     ∀ st, (validate_course course st).1 = Ok false)
  ∧ (∀ courses st valid,
       (filterM validate_course courses st).1 = Ok valid → course ∉ valid).
Proof.
  intros Hname Hsys.
  destruct (validation_errors_of_system_page course name Hname Hsys)
    as [front Herrs].
  assert (∀ e5, ∃ e es,
            front ++ [lit "Not a course entry (system page)"] ++ e5 = e :: es)
    as Hcons.
  { intros e5. destruct (front ++ _ ++ e5) as [|e es] eqn:Happ; [|by eauto].
    by apply app_eq_nil in Happ as [_ Happ]. }
  assert (error_key course = Ok (take 50 name)) as Hkey.
  { unfold error_key, get_or. by rewrite Hname. }
  assert (∀ st, (validate_course course st).1 ≠ Ok true) as Hnever.
  { intros st. rewrite validate_course_run, Herrs, Hkey.
    destruct (check_description course) as [[]|]; [|done].
    destruct (invalid_nfq course) as [e5|]; [|done].
    cbn [mbind result_bind]. by destruct (Hcons e5) as (e & es & ->). }
  split; [done|]. split.
  - intros Hdesc Hlevel st. rewrite validate_course_run, Herrs, Hkey.
    rewrite (check_description_text course name Hname Hdesc).
    destruct (invalid_nfq_Ok course Hlevel) as [e5 ->].
    cbn [mbind result_bind]. by destruct (Hcons e5) as (e & es & ->).
  - intros courses st valid Hrun Hin.
    destruct (filterM_kept _ _ _ _ Hrun course Hin) as [st' Hst'].
    by apply (Hnever st').
Qed.

(** *** The rejection reasons *)

(** After the validation step, the mapping is the one the records wrote in
    the order of the batch. *)
Lemma filterM_validate_course_errors (courses valid : list CourseRecord)
    (st st' : stats) :
  filterM validate_course courses st = (Ok valid, st') →
  validation_errors st'
  = foldl record_rejection (validation_errors st) courses.
Proof.
  revert st valid. induction courses as [|c courses IH]; intros st valid;
    simpl.
  - by intros [= _ <-].
  - unfold mbind, M_bind. rewrite validate_course_run.
    unfold record_rejection at 2, rejection.
    destruct (validation_errors_of c) as [[|e es]|x]; [| |done].
    + destruct (filterM validate_course courses st) as [[rest|?] st1] eqn:Hf;
        [|done].
      intros [= _ <-]. by eapply IH.
    + destruct (error_key c) as [key|x]; [|done].
      destruct (filterM validate_course courses
                  (set_validation_error key (e :: es) st))
        as [[rest|?] st1] eqn:Hf; [|done].
      intros [= _ <-]. by rewrite (IH _ _ Hf).
Qed.

Lemma foldl_record_rejection_other (courses : list CourseRecord)
    (errors : gmap str (list str)) (key : str) :
  (∀ c reasons, c ∈ courses → rejection c ≠ Some (key, reasons)) →
  foldl record_rejection errors courses !! key = errors !! key.
Proof.
  revert errors. induction courses as [|c courses IH]; intros errors Hno;
    [done|].
  simpl. rewrite IH by (intros ? ? ?; apply Hno; by right).
  unfold record_rejection. destruct (rejection c) as [[k reasons]|] eqn:Hr;
    [|done].
  apply lookup_insert_ne. intros ->. by eapply (Hno c); [left|].
Qed.

(** C10. The reasons of a rejected record are stored under the first 50
    characters of its name.  When two rejected records of a batch have
    names with the same first 50 characters, and no record after the later
    one is rejected under that key, the statistics hold the later record's
    reasons under it: the earlier record's are replaced. *)
Theorem rejection_reasons_last_wins
    (before between after valid : list CourseRecord)
    (earlier later : CourseRecord) (name1 name2 : str)
    (reasons1 reasons2 : list str) (st st' : stats) :
  earlier !! "name"%string = Some (VStr name1) →
  later !! "name"%string = Some (VStr name2) →
  take 50 name1 = take 50 name2 →
  validation_errors_of earlier = Ok reasons1 → reasons1 ≠ [] →
  validation_errors_of later = Ok reasons2 → reasons2 ≠ [] →
  (∀ c reasons, c ∈ after → rejection c ≠ Some (take 50 name2, reasons)) →
  filterM validate_course (before ++ earlier :: between ++ later :: after) st
  = (Ok valid, st') →
  (∀ st0, validate_course earlier st0
          = (Ok false, set_validation_error (take 50 name1) reasons1 st0))
  ∧ validation_errors st' !! take 50 name2 = Some reasons2.
Proof.
  intros Hn1 Hn2 Hsame He1 Hne1 He2 Hne2 Hafter Hrun. split.
  - intros st0. rewrite validate_course_run, He1.
    unfold error_key, get_or. rewrite Hn1. simpl. by destruct reasons1.
  - rewrite (filterM_validate_course_errors _ _ _ _ Hrun).
    rewrite foldl_app. simpl. rewrite foldl_app. simpl.
    rewrite foldl_record_rejection_other by done.
    unfold record_rejection at 1, rejection. rewrite He2.
    unfold error_key, get_or. rewrite Hn2. simpl.
    destruct reasons2; [done|]. apply lookup_insert_eq.
Qed.

End Validation.

(** C7, the claim as worded.  A record named "Contact Us" whose
    description is the number 5: the validator takes [len] of the
    description, [TypeError] leaves the method, and it returns nothing. *)
Lemma validate_course_system_page_raises :
  validate_course (R := ascii_runtime)
    (<["description"%string := VInt 5]> contact_us) init_stats
  = (Raise TypeError, init_stats).
Proof. reflexivity. Qed.

(** C7, amended, on the record named "Contact Us". *)
Lemma validate_course_rejects_system_page_witness :
  (∀ st, (validate_course (R := ascii_runtime) contact_us st).1 ≠ Ok true)
  ∧ (is_text (contact_us !! "description"%string) →
     (∀ z, contact_us !! "nfq_level"%string = Some (VInt z) →
           too_many_digits z = false) →
     ∀ st, (validate_course (R := ascii_runtime) contact_us st).1 = Ok false)
  ∧ (∀ courses st valid,
       (filterM (validate_course (R := ascii_runtime)) courses st).1
       = Ok valid → contact_us ∉ valid).
Proof.
  apply (validate_course_rejects_system_page (R := ascii_runtime) contact_us
           (lit "Contact Us")); reflexivity.
Defined.

(** C10 on the two footer links, validated one after the other. *)
Lemma rejection_reasons_last_wins_witness :
  (∀ st0, validate_course (R := ascii_runtime) terms_2024 st0
          = (Ok false,
             set_validation_error (take 50 (terms_prefix ++ lit "2024"))
               terms_2024_reasons st0))
  ∧ validation_errors
      (set_validation_error (take 50 terms_prefix) terms_2025_reasons
         (set_validation_error (take 50 terms_prefix) terms_2024_reasons
            init_stats))
    !! take 50 (terms_prefix ++ lit "2025")
    = Some terms_2025_reasons.
Proof.
  apply (rejection_reasons_last_wins (R := ascii_runtime) [] [] [] []
           terms_2024 terms_2025 (terms_prefix ++ lit "2024")
           (terms_prefix ++ lit "2025") terms_2024_reasons terms_2025_reasons
           init_stats).
  - reflexivity.
  - reflexivity.
  - reflexivity.
  - reflexivity.
  - discriminate.
  - reflexivity.
  - discriminate.
  - intros c reasons Hc. by apply elem_of_nil in Hc.
  - reflexivity.
Defined.

(** ** Tags *)

Section Tags.
Context {R : PyRuntime}.



Lemma tag_content_insert (course : CourseRecord) (field : string) (v : value) :
  field ≠ "name"%string → field ≠ "description"%string →
  tag_content (<[field := v]> course) = tag_content course.
Proof.
  intros H1 H2. unfold tag_content, get_or. by rewrite !lookup_insert_ne.
Qed.

Lemma improve_tags_insert (course : CourseRecord) (field : string) (v : value) :
  field ≠ "name"%string → field ≠ "description"%string →
  improve_tags (<[field := v]> course) = improve_tags course.
Proof.
  intros H1 H2. unfold improve_tags. by rewrite tag_content_insert.
Qed.

Lemma improve_tags_spec (course : CourseRecord) (content : str) :
  tag_content course = Ok content →
  improve_tags course
  = Ok (join (lit ", ")
          match matching_categories content with
          | [] => [lit "General"]
          | tags => sorted tags
          end).
Proof.
  intros Hc. unfold improve_tags, matching_categories, category_if, add_if.
  rewrite Hc.
  change (Ok content ≫= ?k) with (k content). cbv beta.
  destruct (any_in stem_keywords content),
    (any_in business_keywords content), (any_in arts_keywords content),
    (any_in health_keywords content), (any_in education_keywords content);
    by vm_compute.
Qed.

(** The tags of the enriched record are those of [improve_tags]. *)
Lemma enhance_course_data_tags (course enhanced : CourseRecord) :
  enhance_course_data course = Ok enhanced →
  ∃ tags, improve_tags course = Ok tags
          ∧ enhanced !! "tags"%string = Some (VStr tags).
Proof.
  unfold enhance_course_data. intros Hrun.
  set (first := if truthy (get_or course "cao_code" VNone) then Ok course
                else code ← extract_cao_code_from_name
                              (get_or course "name" (VStr []));
                     Ok (<["cao_code"%string := VStr code]> course)) in *.
  assert (∃ e1, first = Ok e1 ∧ improve_tags e1 = improve_tags course)
    as (e1 & He1 & Htags).
  { subst first. destruct (truthy _); [by exists course|].
    destruct (extract_cao_code_from_name _) as [code|]; [|done].
    eexists. split; [done|]. by apply improve_tags_insert. }
  rewrite He1 in Hrun. simpl in Hrun. rewrite Htags in Hrun.
  destruct (improve_tags course) as [tags|]; [|done]. simpl in Hrun.
  destruct (standardize_duration _) as [duration|]; [|done]. simpl in Hrun.
  destruct (generate_keywords _) as [keywords|]; [|done]. simpl in Hrun.
  injection Hrun as <-. exists tags. split; [done|].
  rewrite lookup_insert_ne by done. rewrite lookup_insert_ne by done.
  apply lookup_insert_eq.
Qed.


End Tags.

Example improve_tags_three_categories :
  improve_tags (R := ascii_runtime) health_data_course
  = Ok (lit "Business, Health, STEM").
Proof. reflexivity. Qed.

Example improve_tags_no_category :
  improve_tags (R := ascii_runtime) philosophy_course = Ok (lit "General").
Proof. reflexivity. Qed.


(** ** The order of [sorted] *)

#[global] Instance str_le_total : Total str_le.
Proof.
  intros a. induction a as [|x a IH]; intros [|y b]; unfold str_le; simpl;
    [by left|by left|by right|].
  destruct (N.lt_trichotomy x y) as [Hlt|[->|Hgt]].
  - left. apply N.ltb_lt in Hlt. by rewrite Hlt.
  - rewrite N.ltb_irrefl, N.eqb_refl. simpl. apply IH.
  - right. apply N.ltb_lt in Hgt. by rewrite Hgt.
Qed.

#[global] Instance str_le_trans : Transitive str_le.
Proof.
  intros a. unfold str_le.
  induction a as [|x a IH]; intros [|y b] [|z c]; simpl; try done.
  destruct (N.ltb_spec x y) as [Hxy|Hxy]; simpl.
  - intros _. destruct (N.ltb_spec y z) as [Hyz|Hyz]; simpl.
    + intros _. replace (x <? z) with true; [done|].
      symmetry. apply N.ltb_lt. lia.
    + destruct (N.eqb_spec y z) as [->|]; [|done]. intros _.
      replace (x <? z) with true; [done|]. symmetry. by apply N.ltb_lt.
  - destruct (N.eqb_spec x y) as [->|]; [|done]. simpl. intros Hab.
    destruct (N.ltb_spec y z) as [Hyz|Hyz]; simpl; [done|].
    destruct (N.eqb_spec y z) as [->|]; [|done]. simpl. by apply IH.
Qed.

#[global] Instance str_le_antisymm : AntiSymm (=) str_le.
Proof.
  intros a. unfold str_le.
  induction a as [|x a IH]; intros [|y b]; simpl; try done.
  destruct (N.ltb_spec x y) as [Hxy|Hxy], (N.ltb_spec y x) as [Hyx|Hyx];
    simpl; try lia.
  - destruct (N.eqb_spec y x); [lia|done].
  - destruct (N.eqb_spec x y); [lia|done].
  - destruct (N.eqb_spec x y) as [->|]; [|done]. rewrite N.eqb_refl. simpl.
    intros Hab Hba. f_equal. by apply IH.
Qed.

(** [sorted] returns its argument in order. *)
Lemma sorted_spec (l : list str) : Sorted str_le (sorted l) ∧ sorted l ≡ₚ l.
Proof.
  split; [apply (Sorted_merge_sort str_le)|apply merge_sort_Permutation].
Qed.

(** ** What cleaned text is made of *)

Section CleanTextFacts.
Context {R : PyRuntime}.

(** Substituting nothing for a one-character class removes its
    characters. *)
Lemma re_sub_class (cls : N → bool) (s : str) :
  re_sub [Rep cls 1 (Some 1%nat)] [] s = filter (λ c, cls c = false) s.
Proof.
  unfold re_sub. generalize (None : option N).
  induction s as [|c s IH]; intros prev; [done|].
  rewrite filter_cons. cbn [sub_from match_items take_while].
  destruct (cls c) eqn:Hc.
  - cbn [length]. rewrite decide_False by done.
    change (Nat.min 1 (S ?n)) with 1%nat. rewrite first_down_eq.
    simpl. apply IH.
  - cbn [length]. rewrite decide_True by done.
    rewrite first_down_eq. simpl. f_equal. apply IH.
Qed.

Lemma lstrip_Forall (P : N → Prop) (s : str) :
  Forall P s → Forall P (lstrip s).
Proof.
  induction 1 as [|c s Hc Hs IH]; simpl; [done|].
  destruct (is_space c); [done|by constructor].
Qed.

Lemma strip_Forall (P : N → Prop) (s : str) : Forall P s → Forall P (strip s).
Proof.
  intros H. unfold strip, rstrip.
  by apply Forall_reverse, lstrip_Forall, Forall_reverse, lstrip_Forall.
Qed.

(** Cleaned text holds no character outside the allowlist of
    [clean_text_field]. *)
Lemma clean_text_field_allowlist (text : value) :
  Forall (λ c, is_unwanted c = false) (clean_text_field text).
Proof.
  unfold clean_text_field. destruct (truthy text); simpl; [|done].
  apply strip_Forall. unfold re_unwanted. rewrite re_sub_class.
  apply Forall_forall. by intros c [Hc _]%list_elem_of_filter.
Qed.

End CleanTextFacts.

(** ** When the batch completes *)

Section Completes.
Context {R : PyRuntime}.

(** What the Unicode database says of a decimal digit: its value is below
    ten and it is no whitespace. *)
Hypothesis uni_decimal_digit :
  ∀ c d, uni_decimal c = Some d → d < 10 ∧ is_space c = false.

Lemma M_bind_Ok {A B} (m : M A) (k : A → M B) (st st1 : stats) (a : A) :
  m st = (Ok a, st1) → (m ≫= k) st = k a st1.
Proof. intros H. unfold mbind, M_bind. by rewrite H. Qed.

Lemma clean_college_id_cases (college_id : value) :
  (is_infinite college_id ∧ clean_college_id college_id = Raise OverflowError)
  ∨ ∃ n, clean_college_id college_id = Ok n.
Proof.
  unfold clean_college_id.
  destruct (truthy college_id); simpl; [|eauto].
  destruct (py_int college_id) as [n|e] eqn:Hi; simpl.
  - right. destruct (0 <? n)%Z; eauto.
  - destruct (py_int_raises _ _ Hi) as [->|[->|[-> Hinf]]]; simpl; eauto.
Qed.

Lemma clean_number_at_total (clean : value → result Z) (field : string)
    (cleaned : CourseRecord) :
  (∀ v, cleaned !! field = Some v → ∃ n, clean v = Ok n) →
  ∃ cleaned', clean_number_at clean field cleaned = Ok cleaned'
              ∧ ∀ key, key ≠ field → cleaned' !! key = cleaned !! key.
Proof.
  intros Hclean. unfold clean_number_at.
  destruct (cleaned !! field) as [v|] eqn:Hv; [|eauto].
  destruct (Hclean v eq_refl) as [n ->]. simpl. eexists. split; [done|].
  intros key Hne. by rewrite lookup_insert_ne.
Qed.

Lemma clean_text_at_text (cleaned : CourseRecord) (field key : string) :
  field = key ∨ is_text (cleaned !! key) →
  is_text (clean_text_at cleaned field !! key).
Proof.
  unfold clean_text_at. intros H.
  destruct (cleaned !! field) as [v|] eqn:Hv.
  - destruct (decide (field = key)) as [->|Hne].
    + by rewrite lookup_insert_eq.
    + rewrite lookup_insert_ne by done. by destruct H.
  - destruct H as [<-|H]; [by rewrite Hv|done].
Qed.

Lemma clean_text_fields_text (cleaned : CourseRecord) (fields : list string)
    (key : string) :
  key ∈ fields ∨ is_text (cleaned !! key) →
  is_text (foldl clean_text_at cleaned fields !! key).
Proof.
  revert cleaned. induction fields as [|f fields IH]; intros cleaned H; simpl.
  - destruct H as [H|H]; [by apply elem_of_nil in H|done].
  - apply IH. destruct H as [[->|H]%elem_of_cons|H]; [right|by left|right];
      apply clean_text_at_text; auto.
Qed.

(** A level of the valid set is within the digit limit. *)
Lemma valid_level_printable (n : Z) :
  n ∈ valid_nfq_levels VALIDATION_RULES → too_many_digits n = false.
Proof.
  unfold valid_nfq_levels, VALIDATION_RULES.
  rewrite !elem_of_cons, elem_of_nil. intros Hn.
  apply too_many_digits_small.
  assert (2 ^ 4 ≤ 2 ^ 1024)%Z as Hpow by (apply Z.pow_le_mono_r; lia).
  change (2 ^ 4)%Z with 16%Z in Hpow. lia.
Qed.

(** [clean_single_course] returns unless a numeric field is an infinite
    float or a field is beyond the digit limit, and what it returns is as
    the later stages need it. *)
Lemma clean_single_course_total (raw : CourseRecord) :
  finite_numbers raw → within_digit_limit raw →
  ∃ cleaned, clean_single_course raw = Ok cleaned ∧ convertible cleaned.
Proof.
  intros (Hnfq & Hpoints & Hcollege) [Hprint Hduration].
  assert (∃ cleaned, clean_single_course raw = Ok cleaned
                     ∧ cleaned_text cleaned) as (cleaned & Hrun & Htext).
  { unfold clean_single_course.
    set (c0 := foldl clean_text_at raw text_fields).
    set (c1 := match c0 !! "cao_code"%string with
               | Some v =>
                   <["cao_code"%string := VStr (standardize_cao_code v)]> c0
               | None => c0
               end).
    assert (∀ key, key ∉ text_fields → key ≠ "cao_code"%string →
                   c1 !! key = raw !! key) as Hsame.
    { intros key H1 H2. subst c1. destruct (c0 !! "cao_code"%string);
        [rewrite lookup_insert_ne by done|];
        by apply clean_text_fields_other. }
    assert (∀ key, key ∈ text_fields → is_text (c1 !! key)) as Htext.
    { intros key Hkey. subst c1.
      assert (is_text (c0 !! key)) as H0
        by (apply clean_text_fields_text; by left).
      destruct (c0 !! "cao_code"%string); [|done].
      rewrite lookup_insert_ne; [done|]. intros <-. revert Hkey.
      by_decision. }
    assert (is_text (c1 !! "cao_code"%string)) as Hcao.
    { subst c1. destruct (c0 !! "cao_code"%string) eqn:Hc;
        [by rewrite lookup_insert_eq|by rewrite Hc]. }
    destruct (clean_number_at_total clean_nfq_level "nfq_level" c1)
      as (c2 & -> & H2).
    { intros v. rewrite Hsame by by_decision. intros Hv.
      destruct (clean_nfq_level_cases v) as [[? _]|(n & ? & _)];
        [apply (Hprint "nfq_level"%string); [by_decision|done]
        |by apply Hnfq in Hv|eauto]. }
    destruct (clean_number_at_total clean_points "points" c2)
      as (c3 & H3e & H3).
    { intros v. rewrite H2, Hsame by by_decision. intros Hv.
      destruct (clean_points_cases v) as [[? _]|(n & ? & _)];
        [apply (Hprint "points"%string); [by_decision|done]
        |by apply Hpoints in Hv|eauto]. }
    destruct (clean_number_at_total clean_college_id "college_id" c3)
      as (c4 & H4e & H4).
    { intros v. rewrite H3, H2, Hsame by by_decision. intros Hv.
      destruct (clean_college_id_cases v) as [[? _]|?];
        [by apply Hcollege in Hv|done]. }
    exists c4. simpl. rewrite H3e. simpl. rewrite H4e. simpl.
    split; [done|].
    assert (∀ key, key ≠ "nfq_level"%string → key ≠ "points"%string →
                   key ≠ "college_id"%string → c4 !! key = c1 !! key)
      as Hkeep.
    { intros key ? ? ?. by rewrite H4, H3, H2. }
    unfold cleaned_text. rewrite !Hkeep by by_decision.
    repeat split; [apply Htext; by_decision..|done]. }
  exists cleaned. split; [done|]. split; [done|]. split.
  - intros z Hz. destruct (raw !! "nfq_level"%string) as [v|] eqn:Hv.
    + destruct (clean_single_course_nfq_level _ _ _ Hrun Hv)
        as (n & Hn & Hl).
      rewrite Hl in Hz. injection Hz as <-.
      by eapply valid_level_printable, clean_nfq_level_range.
    + apply (clean_single_course_text _ _ "nfq_level" Hrun) in Hv.
      by rewrite Hv in Hz.
  - intros s Hs.
    destruct (clean_single_course_text _ _ "duration" Hrun) as [Hd _].
    rewrite Hd in Hs by by_decision.
    destruct (raw !! "duration"%string) as [v|] eqn:Hv; [|done].
    injection Hs as <-. by apply Hduration.
Qed.

Lemma system_page_Ok (name : str) :
  ∃ errors, system_page (VStr name) = Ok errors.
Proof.
  unfold system_page. destruct (truthy (VStr name)); [|eauto].
  simpl py_lower. change (Ok (lower name) ≫= ?k) with (k (lower name)).
  cbv beta. destruct (existsb _ invalid_names); eauto.
Qed.

(** On a cleaned record the validator decides. *)
Lemma validate_course_total (course : CourseRecord) (st : stats) :
  convertible course →
  ∃ b st', validate_course course st = (Ok b, st')
           ∧ total_records st' = total_records st.
Proof.
  intros ((Hname & Hdesc & _) & Hlevel & _). rewrite validate_course_run.
  assert (∃ errors, validation_errors_of course = Ok errors) as [errors ->].
  { unfold validation_errors_of.
    assert (check_description course = Ok tt) as ->.
    { destruct (course !! "name"%string) as [[| | | |n]|] eqn:Hn; try done.
      - by eapply check_description_text.
      - unfold check_description, get_or. rewrite Hn.
        destruct (course !! "description"%string) as [[| | | |s]|];
          try done.
        destruct (truthy (VStr s)); [|done]. simpl.
        by destruct (_ <? _)%nat. }
    destruct (get_or_text course "name" [] Hname) as [n ->].
    destruct (name_too_long_Ok n) as [e2 ->].
    destruct (name_too_short_Ok n) as [e3 ->].
    destruct (system_page_Ok n) as [e4 ->].
    destruct (invalid_nfq_Ok course Hlevel) as [e5 ->]. simpl. eauto. }
  destruct errors as [|e es]; [by exists true, st|].
  unfold error_key.
  destruct (get_or_text course "name" (lit "Unknown") Hname) as [n ->].
  simpl. by eexists false, _.
Qed.

Lemma filterM_validate_course_total (courses : list CourseRecord)
    (st : stats) :
  Forall convertible courses →
  ∃ valid st', filterM validate_course courses st = (Ok valid, st')
               ∧ Forall convertible valid
               ∧ (length valid ≤ length courses)%nat
               ∧ total_records st' = total_records st.
Proof.
  intros Hall. revert st.
  induction Hall as [|c courses Hc Hall IH]; intros st; simpl.
  - by exists [], st.
  - destruct (validate_course_total c st Hc) as (b & st1 & Hv & Ht1).
    destruct (IH st1) as (rest & st2 & Hf & Hrest & Hlen & Ht2).
    rewrite (M_bind_Ok _ _ _ _ _ Hv), (M_bind_Ok _ _ _ _ _ Hf).
    eexists _, st2. split; [done|]. split; [|split; [|congruence]].
    + destruct b; [by constructor|done].
    + destruct b; simpl; lia.
Qed.

(** *** The enricher on a cleaned record *)

Lemma int_body_digits (acc : Z) (after_digit : bool) (t : str) :
  forallb is_digit_09 t = true → t ≠ [] ∨ after_digit = true →
  is_Some (int_body acc after_digit t).
Proof.
  revert acc after_digit. induction t as [|c t IH]; intros acc b; simpl.
  - intros _ [?| ->]; [done|eauto].
  - intros [Hc Ht]%andb_true_iff _. rewrite Hc. apply IH; [done|by right].
Qed.

Lemma digit_count_digits (t : str) :
  forallb is_digit_09 t = true → digit_count t = length t.
Proof.
  induction t as [|c t IH]; simpl; [done|].
  intros [-> Ht]%andb_true_iff. by rewrite IH.
Qed.

Lemma to_ascii_digit (c : N) :
  is_digit c = true → ∃ a, to_ascii c = Some a ∧ is_digit_09 a = true.
Proof.
  unfold is_digit, to_ascii, digit_value, is_ascii.
  destruct (N.ltb_spec c 127) as [H127|H127].
  - replace (c <? 128) with true by (symmetry; apply N.ltb_lt; lia). eauto.
  - destruct (N.ltb_spec c 128) as [H128|H128].
    + assert (c = 127) as -> by lia. done.
    + intros Hd%bool_decide_eq_true. destruct Hd as [d Hd].
      destruct (uni_decimal_digit c d Hd) as [Hlt ->]. rewrite Hd. simpl.
      eexists. split; [done|]. unfold is_digit_09, in_range.
      apply andb_true_iff. split; apply N.leb_le; lia.
Qed.

Lemma mapM_to_ascii_digits (w : str) :
  forallb is_digit w = true →
  ∃ t, mapM to_ascii w = Some t ∧ forallb is_digit_09 t = true
       ∧ length t = length w.
Proof.
  induction w as [|c w IH]; simpl; [by exists []|].
  intros [Hc Hw]%andb_true_iff. destruct (IH Hw) as (t & Ht & Hd & Hl).
  destruct (to_ascii_digit c Hc) as (a & Ha & Hda).
  exists (a :: t). rewrite Ha, Ht. simpl. by rewrite Hda, Hd, Hl.
Qed.

Lemma digit_not_c_space (c : N) : is_digit_09 c = true → is_c_space c = false.
Proof.
  unfold is_digit_09, is_c_space, in_range.
  intros [H1 H2]%andb_true_iff. apply N.leb_le in H1, H2.
  apply orb_false_iff. split; [apply andb_false_iff; right|];
    [apply N.leb_gt|apply N.eqb_neq]; lia.
Qed.

Lemma skip_c_space_digits (t : str) :
  forallb is_digit_09 t = true → skip_c_space t = t.
Proof.
  destruct t as [|c t]; simpl; [done|]. intros [Hc _]%andb_true_iff.
  by rewrite digit_not_c_space.
Qed.

(** [int] reads what [\d+] matched, when it is within the digit limit. *)
Lemma parse_int_digits (w : str) :
  w ≠ [] → forallb is_digit w = true →
  (length w ≤ int_max_str_digits)%nat → is_Some (parse_int w).
Proof.
  intros Hne Hw Hlen. unfold parse_int.
  destruct (mapM_to_ascii_digits w Hw) as (t & -> & Hd & Hl). simpl.
  rewrite (skip_c_space_digits t Hd).
  rewrite (skip_c_space_digits (reverse t)), reverse_involutive.
  2:{ rewrite forallb_forall in *. intros c Hc. apply Hd.
      by apply list_elem_of_In, elem_of_reverse, list_elem_of_In. }
  destruct t as [|c t]; [by destruct w|].
  assert (is_Some (int_literal (c :: t))) as Hbody.
  { unfold int_literal. rewrite (digit_count_digits _ Hd), Hl.
    destruct (Nat.ltb_spec int_max_str_digits (length w)); [lia|].
    apply int_body_digits; [done|by left]. }
  simpl in Hd. apply andb_true_iff in Hd as [Hc _].
  unfold is_digit_09, in_range in Hc. apply andb_true_iff in Hc as [H1 H2].
  apply N.leb_le in H1, H2.
  assert (c = 48 ∨ c = 49 ∨ c = 50 ∨ c = 51 ∨ c = 52 ∨ c = 53 ∨ c = 54
          ∨ c = 55 ∨ c = 56 ∨ c = 57) as Hcases by lia.
  repeat (destruct Hcases as [->|Hcases]; [exact Hbody|]). by subst c.
Qed.

Lemma mapM_result_total {A B} (f : A → result B) (P : A → Prop)
    (Q : B → Prop) (l : list A) :
  (∀ x, P x → ∃ y, f x = Ok y ∧ Q y) → Forall P l →
  ∃ ys, mapM f l = Ok ys ∧ Forall Q ys ∧ length ys = length l.
Proof.
  intros Hf. induction 1 as [|x l Hx Hl IH]; [by exists []|].
  destruct (Hf x Hx) as (y & Hy & HQ). destruct IH as (ys & Hys & HQs & Hlen).
  exists (y :: ys). simpl. rewrite Hy. simpl. rewrite Hys. simpl.
  split; [done|]. split; [by constructor|by rewrite Hlen].
Qed.

Lemma lstrip_length (s : str) : (length (lstrip s) ≤ length s)%nat.
Proof.
  induction s as [|c s IH]; simpl; [done|]. destruct (is_space c); simpl; lia.
Qed.

Lemma strip_length (s : str) : (length (strip s) ≤ length s)%nat.
Proof.
  unfold strip, rstrip. rewrite length_reverse.
  etrans; [apply lstrip_length|]. rewrite length_reverse.
  apply lstrip_length.
Qed.

Lemma duration_with_Ok (word unit duration : str) (r : result str) :
  (length duration ≤ int_max_str_digits)%nat →
  duration_with word unit duration = Some r → ∃ s, r = Ok s.
Proof.
  intros Hshort. unfold duration_with.
  destruct (contains word duration); [|done].
  destruct (re_search re_number duration) as [[i groups]|] eqn:Hs; [|done].
  intros [= <-]. apply search_from_Some in Hs as (k & _ & _ & Hm & _).
  apply match_items_sound in Hm as [Hfit [rest Hrest]].
  inversion Hfit as [|? w ? ? Hw Hnil]; subst. inversion Hnil; subst.
  destruct Hw as (Hdigits & Hlen & _).
  simpl in Hrest. rewrite app_nil_r in Hrest.
  assert (length w ≤ length duration)%nat as Hw.
  { rewrite <- (take_drop k duration), Hrest, !length_app. lia. }
  simpl. rewrite app_nil_r.
  destruct (parse_int_digits w) as [z Hz];
    [intros ->; simpl in Hlen; lia|done|lia|].
  rewrite Hz. simpl. eauto.
Qed.

Lemma standardize_duration_Ok (duration : str) :
  (length (lower duration) ≤ int_max_str_digits)%nat →
  ∃ s, standardize_duration (VStr duration) = Ok s.
Proof.
  intros Hshort. unfold standardize_duration.
  destruct (truthy (VStr duration)); [|eauto].
  simpl py_lower.
  change (Ok (lower duration) ≫= ?k) with (k (lower duration)). cbv beta.
  pose proof (strip_length (lower duration)) as Hstrip.
  destruct (duration_with (lit "year") _ _) eqn:H1;
    [eapply duration_with_Ok; [|done]; lia|].
  destruct (duration_with (lit "month") _ _) eqn:H2;
    [eapply duration_with_Ok; [|done]; lia|].
  destruct (duration_with (lit "week") _ _) eqn:H3;
    [eapply duration_with_Ok; [|done]; lia|].
  eauto.
Qed.

Lemma extract_cao_code_from_name_Ok (name : str) :
  ∃ s, extract_cao_code_from_name (VStr name) = Ok s.
Proof.
  unfold extract_cao_code_from_name. destruct (truthy (VStr name)); [|eauto].
  simpl py_upper. change (Ok (upper name) ≫= ?k) with (k (upper name)).
  cbv beta. destruct (re_search _ _) as [[? ?]|]; eauto.
Qed.

Lemma tag_content_Ok (course : CourseRecord) :
  is_text (course !! "name"%string) → is_text (course !! "description"%string) →
  ∃ content, tag_content course = Ok content.
Proof.
  intros Hn Hd. unfold tag_content.
  destruct (get_or_text course "name" [] Hn) as [n ->].
  destruct (get_or_text course "description" [] Hd) as [d ->]. simpl. eauto.
Qed.

Lemma long_words_Ok (n : nat) (text : str) :
  ∃ words, long_words n (VStr text) = Ok words.
Proof. unfold long_words. destruct (truthy _); eauto. Qed.

Lemma tag_words_Ok (tags : str) : ∃ words, tag_words (VStr tags) = Ok words.
Proof. unfold tag_words. destruct (truthy _); eauto. Qed.

Lemma generate_keywords_Ok (course : CourseRecord) :
  is_text (course !! "name"%string) → is_text (course !! "description"%string) →
  is_text (course !! "tags"%string) →
  ∃ keywords, generate_keywords course = Ok keywords.
Proof.
  intros Hn Hd Ht. unfold generate_keywords.
  destruct (get_or_text course "name" [] Hn) as [n ->].
  destruct (get_or_text course "description" [] Hd) as [d ->].
  destruct (get_or_text course "tags" [] Ht) as [t ->].
  destruct (long_words_Ok 2 n) as [w1 ->].
  destruct (long_words_Ok 3 d) as [w2 ->].
  destruct (tag_words_Ok t) as [w3 ->]. simpl. eauto.
Qed.

(** The enricher returns on a cleaned record. *)
Lemma enhance_course_data_total (course : CourseRecord) :
  convertible course → ∃ enhanced, enhance_course_data course = Ok enhanced.
Proof.
  intros ((Hn & Hd & Hdur & Hcao) & _ & Hshort). unfold enhance_course_data.
  set (first := if truthy (get_or course "cao_code" VNone) then Ok course
                else code ← extract_cao_code_from_name
                              (get_or course "name" (VStr []));
                     Ok (<["cao_code"%string := VStr code]> course)).
  assert (∃ e1, first = Ok e1
                ∧ (∀ key, key ≠ "cao_code"%string → e1 !! key = course !! key))
    as (e1 & -> & Hsame).
  { subst first. destruct (truthy _); [by exists course|].
    destruct (get_or_text course "name" [] Hn) as [n ->].
    destruct (extract_cao_code_from_name_Ok n) as [code ->]. simpl.
    eexists. split; [done|]. intros key Hne. by rewrite lookup_insert_ne. }
  simpl.
  destruct (tag_content_Ok e1) as [content Hcontent];
    [by rewrite Hsame|by rewrite Hsame|].
  rewrite (improve_tags_spec e1 content Hcontent). simpl.
  set (tags := join _ _).
  assert (∃ d, get_or (<["tags"%string := VStr tags]> e1) "duration" (VStr [])
               = VStr d
               ∧ (length (lower d) ≤ int_max_str_digits)%nat)
    as (d & -> & Hd_short).
  { unfold get_or. rewrite lookup_insert_ne by done. rewrite Hsame by done.
    destruct (course !! "duration"%string) as [[| | | |s]|] eqn:Hs;
      try done.
    - exists s. split; [done|]. by apply Hshort.
    - exists []. split; [done|]. vm_compute. lia. }
  destruct (standardize_duration_Ok d Hd_short) as [d' ->]. simpl.
  destruct (generate_keywords_Ok
              (<["duration"%string := VStr d']>
                 (<["tags"%string := VStr tags]> e1))) as [k ->].
  - rewrite !lookup_insert_ne by done. by rewrite Hsame.
  - rewrite !lookup_insert_ne by done. by rewrite Hsame.
  - rewrite lookup_insert_ne by done. by rewrite lookup_insert_eq.
  - simpl. eauto.
Qed.

(** A batch that is not empty, holds no infinite float in a numeric field
    and stays within the digit limit goes through [clean_course_data]: the
    method returns, with [total_records] the size of the batch and
    [valid_records] the size of the output. *)
Theorem clean_course_data_completes (courses : list CourseRecord)
    (st : stats) :
  courses ≠ [] → Forall finite_numbers courses →
  Forall within_digit_limit courses →
  ∃ enhanced st',
    clean_course_data courses st = (Ok enhanced, st')
    ∧ total_records st' = length courses
    ∧ valid_records st' = length enhanced
    ∧ (length enhanced ≤ length courses)%nat.
Proof.
  intros Hne Hfin Hlimit. unfold clean_course_data.
  rewrite (M_bind_Ok _ _ st (set_total_records (length courses) st) tt)
    by done.
  destruct (mapM_result_total clean_single_course
              (λ c, finite_numbers c ∧ within_digit_limit c) convertible
              courses) as (cleaned & Hclean & Hcleaned & Hlen1).
  { intros c [? ?]. by apply clean_single_course_total. }
  { apply Forall_and. by split. }
  rewrite (M_bind_Ok _ _ _ (set_total_records (length courses) st) cleaned)
    by (unfold lift; by rewrite Hclean).
  destruct (filterM_validate_course_total cleaned
              (set_total_records (length courses) st) Hcleaned)
    as (valid & st1 & Hvalid & Hvalid_text & Hlen0 & Ht1).
  rewrite (M_bind_Ok _ _ _ _ _ Hvalid).
  destruct (remove_duplicates_spec valid st1) as (unique & Hdedup & Hsub & _).
  { eapply Forall_impl; [done|]. intros c ((Hn & _ & _ & Hc) & _).
    by apply dedup_key_total. }
  rewrite (M_bind_Ok _ _ _ _ _ Hdedup).
  destruct (mapM_result_total enhance_course_data convertible (λ _, True)
              unique) as (enhanced & Henh & _ & Hlen2).
  { intros c Hc. destruct (enhance_course_data_total c Hc) as [e He]. eauto. }
  { apply Forall_forall. intros c Hc. rewrite Forall_forall in Hvalid_text.
    apply Hvalid_text. by eapply sublist_submseteq, elem_of_submseteq in Hsub. }
  rewrite (M_bind_Ok _ _ _
             (set_duplicates_removed (length valid - length unique) st1)
             enhanced) by (unfold lift; by rewrite Henh).
  set (st2 := set_valid_records (length enhanced)
                (set_duplicates_removed (length valid - length unique) st1)).
  rewrite (M_bind_Ok _ _ _ st2 tt) by done.
  rewrite (M_bind_Ok _ _ _ st2 tt).
  2:{ apply log_validation_stats_nonempty. subst st2. simpl. rewrite Ht1.
      simpl. by destruct courses. }
  exists enhanced, st2. split; [done|]. subst st2. simpl. rewrite Ht1. simpl.
  repeat split. rewrite Hlen2.
  apply sublist_length in Hsub. lia.
Qed.

End Completes.

(** ** The scenarios of the specification *)

(** An exact duplicate: one record out, tagged STEM, with no code and 450
    points. *)
Example scenario_duplicate :
  clean_course_data (R := ascii_runtime) [beng_text; beng_numbers] init_stats
  = (Ok [list_to_map
           [("name"%string, VStr (lit "BEng in Computer Engineering"));
            ("cao_code"%string, VStr []);
            ("nfq_level"%string, VInt 8);
            ("points"%string, VInt 450);
            ("tags"%string, VStr (lit "STEM"));
            ("duration"%string, VStr []);
            ("keywords"%string,
             VStr (lit "beng, computer, engineering, stem"))]],
     {| total_records := 2; valid_records := 1; duplicates_removed := 1;
        validation_errors := ∅ |}).
Proof. vm_compute. reflexivity. Qed.

(** A name of two characters: nothing out, one reason recorded. *)
Example scenario_too_short :
  clean_course_data (R := ascii_runtime) [hi_course] init_stats
  = (Ok [],
     {| total_records := 1; valid_records := 0; duplicates_removed := 0;
        validation_errors :=
          {[lit "Hi" := [lit "Course name too short: 2 chars"]]} |}).
Proof. vm_compute. reflexivity. Qed.

(** A level given as text, tags from the description, and keywords without
    the stop word. *)
Example scenario_business :
  clean_course_data (R := ascii_runtime) [msc_accounting] init_stats
  = (Ok [list_to_map
           [("name"%string, VStr (lit "MSc in Accounting"));
            ("description"%string, VStr (lit "finance and management"));
            ("nfq_level"%string, VInt 9);
            ("cao_code"%string, VStr []);
            ("tags"%string, VStr (lit "Business"));
            ("duration"%string, VStr []);
            ("keywords"%string,
             VStr (lit "accounting, business, finance, management, msc"))]],
     {| total_records := 1; valid_records := 1; duplicates_removed := 0;
        validation_errors := ∅ |}).
Proof. vm_compute. reflexivity. Qed.

(** The scraped record named ["Physics"] is within the digit limit. *)
Lemma physics_raw_within_digit_limit :
  within_digit_limit (R := ascii_runtime) physics_raw.
Proof.
  split.
  - intros field v Hfield Hv. unfold cleaned_fields, text_fields in Hfield.
    simpl in Hfield.
    repeat (apply elem_of_cons in Hfield as [->|Hfield];
            [vm_compute in Hv; by simplify_eq|]).
    by apply elem_of_nil in Hfield.
  - intros v Hv. by vm_compute in Hv.
Qed.

(** The batch of one scraped record completes. *)
Example clean_course_data_completes_once :
  ∃ enhanced st',
    clean_course_data (R := ascii_runtime) [physics_raw] init_stats
    = (Ok enhanced, st')
    ∧ total_records st' = 1%nat
    ∧ valid_records st' = length enhanced
    ∧ (length enhanced ≤ 1)%nat.
Proof.
  apply (clean_course_data_completes (R := ascii_runtime)); [done|done| |].
  - repeat constructor; intros v Hv [negative ->]; by vm_compute in Hv.
  - apply Forall_cons. split; [|by apply Forall_nil].
    apply physics_raw_within_digit_limit.
Qed.

(** * Further properties of the cleaner *)

(** ** [str.strip] and [str.replace] *)

Lemma lstrip_app (s : str) :
  ∃ spaces, s = spaces ++ lstrip s ∧ forallb is_space spaces = true.
Proof.
  induction s as [|c s (spaces & Hs & Hsp)]; simpl; [by exists []|].
  destruct (is_space c) eqn:Hc; [|by exists []].
  exists (c :: spaces). simpl. rewrite Hc, Hsp. split; [by f_equal|done].
Qed.

Lemma lstrip_head (s : str) (c : N) (r : str) :
  lstrip s = c :: r → is_space c = false.
Proof.
  induction s as [|d s IH]; simpl; [done|].
  destruct (is_space d) eqn:Hd; [done|]. by intros [= <- _].
Qed.

Lemma lstrip_fixed (s : str) :
  match s with c :: _ => is_space c = false | [] => True end → lstrip s = s.
Proof. destruct s as [|c s]; simpl; [done|]. by intros ->. Qed.

Lemma lstrip_idemp (s : str) : lstrip (lstrip s) = lstrip s.
Proof.
  apply lstrip_fixed. destruct (lstrip s) eqn:H; [done|]. by eapply lstrip_head.
Qed.

Lemma rstrip_prefix (s : str) :
  ∃ spaces, s = rstrip s ++ spaces ∧ forallb is_space spaces = true.
Proof.
  destruct (lstrip_app (reverse s)) as (spaces & Hs & Hsp).
  exists (reverse spaces). split.
  - unfold rstrip. rewrite <- reverse_app, <- Hs. by rewrite reverse_involutive.
  - rewrite forallb_forall in *. intros c Hc. apply Hsp.
    by apply list_elem_of_In, elem_of_reverse, list_elem_of_In.
Qed.

Lemma rstrip_idemp (s : str) : rstrip (rstrip s) = rstrip s.
Proof. unfold rstrip. by rewrite reverse_involutive, lstrip_idemp. Qed.

(** Trimming the right end leaves a clean left end clean. *)
Lemma lstrip_rstrip (s : str) : lstrip s = s → lstrip (rstrip s) = rstrip s.
Proof.
  intros Hs. apply lstrip_fixed.
  destruct (rstrip s) as [|c r] eqn:Hr; [done|].
  destruct (rstrip_prefix s) as (spaces & Heq & _). rewrite Hr in Heq.
  rewrite Heq in Hs. simpl in Hs.
  destruct (is_space c) eqn:Hc; [|done]. exfalso.
  destruct (lstrip_app (r ++ spaces)) as (sp & Happ & _).
  apply (f_equal length) in Hs, Happ. cbn [length] in Hs.
  rewrite !length_app in *. lia.
Qed.

Lemma strip_idemp (s : str) : strip (strip s) = strip s.
Proof.
  unfold strip. rewrite (lstrip_rstrip (lstrip s)) by apply lstrip_idemp.
  apply rstrip_idemp.
Qed.

(** A stripped text neither starts nor ends with whitespace. *)
Lemma strip_ends (s : str) :
  match strip s with c :: _ => is_space c = false | [] => True end
  ∧ match last (strip s) with Some c => is_space c = false | None => True end.
Proof.
  split.
  - pose proof (lstrip_rstrip (lstrip s) (lstrip_idemp s)) as H.
    fold (strip s) in H. destruct (strip s) eqn:Hs; [done|].
    by eapply lstrip_head.
  - unfold strip, rstrip. rewrite last_reverse.
    destruct (lstrip (reverse (lstrip s))) eqn:Hs; [done|]. simpl.
    by eapply lstrip_head.
Qed.

Lemma replace_Forall (P : N → Prop) (old : N) (new s : str) :
  Forall P new → Forall P s → Forall P (replace old new s).
Proof.
  intros Hnew. induction 1 as [|c s Hc Hs IH]; [done|].
  unfold replace. rewrite bind_cons. apply Forall_app. split; [|done].
  destruct (c =? old); [done|by constructor].
Qed.

(** After [s.replace(old, new)] the character [old] is gone, unless [new]
    holds it. *)
Lemma replace_removes (old : N) (new s : str) :
  old ∉ new → old ∉ replace old new s.
Proof.
  intros Hnew. induction s as [|c s IH]; [by apply not_elem_of_nil|].
  unfold replace. rewrite bind_cons. apply not_elem_of_app. split; [|done].
  destruct (N.eqb_spec c old) as [->|Hne]; [done|].
  apply not_elem_of_cons. split; [done|apply not_elem_of_nil].
Qed.

(** ** The text cleaner *)

Section CleanTextNormalForm.
Context {R : PyRuntime}.

(** Where [\s+] does not match, the character is no whitespace. *)
Lemma re_spaces_no_match (prev : option N) (c : N) (s : str) :
  match_items re_spaces prev (c :: s) = None → is_space c = false.
Proof.
  intros Hnone. destruct (is_space c) eqn:Hc; [|done]. exfalso.
  destruct (match_items_complete re_spaces prev [[c]] s) as [ps Hps].
  - repeat constructor.
  - apply Forall2_cons. split; [|constructor].
    simpl. rewrite Hc. split; [done|]. split; [lia|done].
  - change (concat [[c]] ++ s) with (c :: s) in Hps. congruence.
Qed.

(** After [re.sub(r'\s+', ' ', text)] the only whitespace is the space. *)
Lemma sub_spaces_only_space (skip : nat) (prev : option N) (s : str) :
  Forall (λ c, is_space c = true → c = 32)
    (sub_from re_spaces (lit " ") skip prev s).
Proof.
  revert skip prev. induction s as [|c s IH]; intros skip prev; [done|].
  cbn [sub_from]. destruct skip as [|k]; [|apply IH].
  destruct (match_items re_spaces prev (c :: s)) as [ps|] eqn:Hm.
  - apply Forall_app. split; [by repeat constructor|apply IH].
  - constructor; [|apply IH]. rewrite (re_spaces_no_match _ _ _ Hm). done.
Qed.

(** X1. Whatever the field holds, the text [clean_text_field] returns has
    only characters of the allowlist, no whitespace but the plain space,
    none of the six characters the method replaces (non-breaking space,
    curly quotes, en and em dash), and no whitespace at either end. *)
Theorem clean_text_field_normal_form (text : value) :
  Forall (λ c, is_unwanted c = false) (clean_text_field text)
  ∧ Forall (λ c, is_space c = true → c = 32) (clean_text_field text)
  ∧ Forall (λ c, c ∉ replaced_characters) (clean_text_field text)
  ∧ strip (clean_text_field text) = clean_text_field text.
Proof.
  split; [apply clean_text_field_allowlist|].
  unfold clean_text_field. destruct (truthy text); simpl negb; cbv iota;
    [|by repeat split; constructor].
  set (t1 := re_sub re_spaces (lit " ") (strip (py_str text))).
  set (t2 := replace 0xA0 (lit " ") t1).
  set (t3 := replace 0x2019 (lit "'") t2).
  set (t4 := replace 0x201C [34] t3).
  set (t5 := replace 0x201D [34] t4).
  set (t6 := replace 0x2013 (lit "-") t5).
  set (t7 := replace 0x2014 (lit "-") t6).
  assert (Forall (λ c, is_space c = true → c = 32) t7) as Hspace.
  { subst t7 t6 t5 t4 t3 t2.
    repeat (apply replace_Forall; [by repeat constructor|]).
    apply sub_spaces_only_space. }
  assert (Forall (λ c, c ≠ 0x2019) t7) as H1.
  { do 4 (apply replace_Forall; [by repeat constructor|]).
    apply Forall_forall. intros c Hc ->. revert Hc.
    apply replace_removes. by_decision. }
  assert (Forall (λ c, c ≠ 0x201C) t7) as H2.
  { do 3 (apply replace_Forall; [by repeat constructor|]).
    apply Forall_forall. intros c Hc ->. revert Hc.
    apply replace_removes. by_decision. }
  assert (Forall (λ c, c ≠ 0x201D) t7) as H3.
  { do 2 (apply replace_Forall; [by repeat constructor|]).
    apply Forall_forall. intros c Hc ->. revert Hc.
    apply replace_removes. by_decision. }
  assert (Forall (λ c, c ≠ 0x2013) t7) as H4.
  { do 1 (apply replace_Forall; [by repeat constructor|]).
    apply Forall_forall. intros c Hc ->. revert Hc.
    apply replace_removes. by_decision. }
  assert (Forall (λ c, c ≠ 0x2014) t7) as H5.
  { apply Forall_forall. intros c Hc ->. revert Hc.
    apply replace_removes. by_decision. }
  assert (∀ P : N → Prop, Forall P t7 →
            Forall P (strip (re_sub re_unwanted [] t7))) as Hkeep.
  { intros P HP. apply strip_Forall. unfold re_unwanted.
    rewrite re_sub_class. rewrite Forall_forall in *.
    intros c [_ Hc]%list_elem_of_filter. by apply HP. }
  split; [by apply Hkeep|]. split; [|apply strip_idemp].
  apply Hkeep in Hspace, H1, H2, H3, H4, H5. rewrite Forall_forall in *.
  intros c Hc. unfold replaced_characters.
  repeat (apply not_elem_of_cons; split); [..|apply not_elem_of_nil];
    [|by auto..].
  intros ->. by specialize (Hspace _ Hc eq_refl).
Qed.

End CleanTextNormalForm.

(** ** CAO codes and numbers *)

Section FieldCleanerFacts.
Context {R : PyRuntime}.

Lemma is_digit_09_is_digit (c : N) : is_digit_09 c = true → is_digit c = true.
Proof.
  intros Hc. unfold is_digit, is_ascii.
  replace (c <? 128) with true; [done|]. symmetry. apply N.ltb_lt.
  unfold is_digit_09, in_range in Hc. apply andb_true_iff in Hc as [_ Hc].
  apply N.leb_le in Hc. lia.
Qed.

Lemma standardize_cao_code_chars (code : value) :
  Forall (λ c, is_upper_AZ c || is_digit c = true)
    (standardize_cao_code code).
Proof.
  unfold standardize_cao_code. destruct (truthy code); simpl negb; cbv iota;
    [|done].
  set (u := upper (strip (py_str code))).
  destruct (re_search re_cao u) as [[i ps]|] eqn:Hs.
  - apply search_from_Some in Hs as (k & _ & _ & Hm & _).
    apply match_items_sound in Hm as [Hfit _].
    assert (∃ l d, ps = [l; d]) as (l & d & ->).
    { inversion Hfit as [|? ? ? ? ? H2]; subst.
      inversion H2 as [|? ? ? ? ? H3]; subst. inversion H3; subst. eauto. }
    apply cao_shape_pieces in Hfit as (_ & Hl & _ & Hd).
    apply Forall_app. rewrite forallb_forall in *.
    split; apply Forall_forall; intros c Hc%list_elem_of_In.
    + by rewrite (Hl c Hc).
    + rewrite (Hd c Hc). apply orb_true_r.
  - destruct u as [|c u]; [done|]. unfold re_not_AZ09. rewrite re_sub_class.
    apply Forall_forall. intros x [Hx _]%list_elem_of_filter.
    unfold is_not_AZ09 in Hx. apply negb_false_iff in Hx.
    apply orb_true_iff in Hx as [Hx|Hx]; [by rewrite Hx|].
    rewrite (is_digit_09_is_digit x Hx). apply orb_true_r.
Qed.

(** X2. The code [standardize_cao_code] returns holds nothing but the
    letters A to Z and decimal digits, whatever the field held: no
    lowercase letter and no separator is left in it. *)
Theorem standardize_cao_code_alphabet (code : value) :
  Forall (λ c, is_upper_AZ c || is_digit c = true)
    (standardize_cao_code code).
Proof. apply standardize_cao_code_chars. Qed.

Lemma clean_college_id_Ok (x : value) (n : Z) :
  clean_college_id x = Ok n → (1 ≤ n)%Z.
Proof.
  unfold clean_college_id. destruct (truthy x); simpl; [|by intros [= <-]].
  destruct (py_int x) as [m|e] eqn:Hi; simpl.
  - destruct (Z.ltb_spec 0 m); intros [= <-]; lia.
  - destruct (py_int_raises _ _ Hi) as [->|[->|[-> _]]]; simpl;
      by intros [= <-].
Qed.

(** X3. Whatever it is given, [clean_college_id] returns an integer that
    is at least 1, unless it is given an infinite float, where the
    [OverflowError] of [int] leaves the method.  A positive integer is
    returned as it is; any other integer, and [None], give 1. *)
Theorem clean_college_id_positive (x : value) (m : Z) :
  ((is_infinite x ∧ clean_college_id x = Raise OverflowError)
   ∨ ∃ n, clean_college_id x = Ok n ∧ (1 ≤ n)%Z)
  ∧ clean_college_id (VInt m) = Ok (if (0 <? m)%Z then m else 1%Z)
  ∧ clean_college_id VNone = Ok 1%Z.
Proof.
  split; [|split; [|done]].
  - destruct (clean_college_id_cases x) as [?|[n Hn]]; [by left|right].
    exists n. split; [done|]. by eapply clean_college_id_Ok.
  - unfold clean_college_id. simpl. destruct (Z.eqb_spec m 0) as [->|Hm];
      simpl; [done|]. by destruct (0 <? m)%Z.
Qed.

(** X4. Cleaning a number twice is cleaning it once: what the three numeric
    cleaners return is returned unchanged when it is cleaned again. *)
Theorem numeric_cleaners_fixed_points (x : value) (n : Z) :
  (clean_nfq_level x = Ok n → clean_nfq_level (VInt n) = Ok n)
  ∧ (clean_points x = Ok n → clean_points (VInt n) = Ok n)
  ∧ (clean_college_id x = Ok n → clean_college_id (VInt n) = Ok n).
Proof.
  split; [|split].
  - intros Hin%clean_nfq_level_range.
    unfold valid_nfq_levels, VALIDATION_RULES in Hin.
    repeat (apply elem_of_cons in Hin as [->|Hin]; [done|]).
    by apply elem_of_nil in Hin.
  - intros Hin%clean_points_range.
    unfold clean_points. cbn [truthy py_int].
    destruct (Z.eqb_spec n 0) as [->|Hn]; [done|]. cbn [negb].
    unfold try_except_value_type. cbn [fst snd].
    destruct (Z.leb_spec 0 n), (Z.leb_spec n 625); simpl; [done|lia..].
  - intros Hx%clean_college_id_Ok. unfold clean_college_id. simpl.
    destruct (Z.eqb_spec n 0) as [->|Hn]; [lia|]. simpl.
    destruct (Z.ltb_spec 0 n); [done|lia].
Qed.

End FieldCleanerFacts.

(** ** The fields of a cleaned record *)

Section CleanedFields.
Context {R : PyRuntime}.

(** X5. [clean_single_course] works field by field.  It neither adds nor
    removes a field; a field it does not name is returned as it came; each
    of the six text fields that is present holds the text
    [clean_text_field] makes of it, [cao_code] the code
    [standardize_cao_code] makes of it; and [nfq_level], [points] and
    [college_id], where present, hold integers of the valid set, between 0
    and 625, and at least 1. *)
Theorem clean_single_course_fields (raw cleaned : CourseRecord) :
  clean_single_course raw = Ok cleaned →
  dom cleaned = dom raw
  ∧ (∀ key, key ∉ cleaned_fields → cleaned !! key = raw !! key)
  ∧ (∀ key, key ∈ text_fields →
       cleaned !! key = (λ v, VStr (clean_text_field v)) <$> raw !! key)
  ∧ cleaned !! "cao_code"%string
    = (λ v, VStr (standardize_cao_code v)) <$> raw !! "cao_code"%string
  ∧ (∀ v, raw !! "nfq_level"%string = Some v →
       ∃ n, cleaned !! "nfq_level"%string = Some (VInt n)
            ∧ n ∈ [5; 6; 7; 8; 9; 10]%Z)
  ∧ (∀ v, raw !! "points"%string = Some v →
       ∃ n, cleaned !! "points"%string = Some (VInt n) ∧ (0 ≤ n ≤ 625)%Z)
  ∧ (∀ v, raw !! "college_id"%string = Some v →
       ∃ n, cleaned !! "college_id"%string = Some (VInt n) ∧ (1 ≤ n)%Z).
Proof.
  unfold clean_single_course. intros Hrun.
  set (c0 := foldl clean_text_at raw text_fields) in *.
  set (c1 := match c0 !! "cao_code"%string with
             | Some v => <["cao_code"%string := VStr (standardize_cao_code v)]> c0
             | None => c0
             end) in *.
  destruct (clean_number_at clean_nfq_level "nfq_level" c1) as [c2|] eqn:H2;
    simpl in Hrun; [|done].
  destruct (clean_number_at clean_points "points" c2) as [c3|] eqn:H3;
    simpl in Hrun; [|done].
  destruct (clean_number_at clean_college_id "college_id" c3) as [c4|] eqn:H4;
    simpl in Hrun; [|done].
  injection Hrun as <-.
  assert (c0 !! "cao_code"%string = raw !! "cao_code"%string) as Hcao0.
  { apply clean_text_fields_other. by_decision. }
  assert (∀ key, key ≠ "cao_code"%string → c1 !! key = c0 !! key) as Hc1.
  { intros key Hne. subst c1. destruct (c0 !! "cao_code"%string); [|done].
    by rewrite lookup_insert_ne. }
  assert (c1 !! "cao_code"%string
          = (λ v, VStr (standardize_cao_code v)) <$> raw !! "cao_code"%string)
    as Hcao1.
  { rewrite <- Hcao0. subst c1.
    destruct (c0 !! "cao_code"%string) as [v|] eqn:Hv;
      [by rewrite lookup_insert_eq|by rewrite Hv]. }
  assert (dom c1 = dom raw) as Hdom1.
  { subst c1. destruct (c0 !! "cao_code"%string) as [v|] eqn:Hv.
    - rewrite dom_insert_lookup_L by done. apply clean_text_fields_dom.
    - apply clean_text_fields_dom. }
  pose proof (clean_number_at_dom _ _ _ _ H2) as Hd2.
  pose proof (clean_number_at_dom _ _ _ _ H3) as Hd3.
  pose proof (clean_number_at_dom _ _ _ _ H4) as Hd4.
  apply clean_number_at_Ok in H2 as [H2o H2], H3 as [H3o H3], H4 as [H4o H4].
  assert (∀ key, key ∉ ["nfq_level"; "points"; "college_id"]%string →
                 c4 !! key = c1 !! key) as Hnum.
  { intros key Hkey. rewrite H4o, H3o, H2o; [done|..];
      intros ->; apply Hkey; by_decision. }
  split; [congruence|]. split; [|split; [|split; [|split; [|split]]]].
  - intros key Hkey. unfold cleaned_fields in Hkey.
    apply not_elem_of_app in Hkey as [Htext Hkey].
    apply not_elem_of_cons in Hkey as [Hcao Hkey].
    rewrite Hnum, Hc1 by done. by apply clean_text_fields_other.
  - intros key Hkey. rewrite Hnum, Hc1.
    + apply clean_text_fields_same; [apply text_fields_NoDup|done].
    + intros ->. revert Hkey. by_decision.
    + intros Hin. assert (key ∈ text_fields ∧ key ∈ ["nfq_level"; "points";
        "college_id"]%string) as Hboth by done.
      revert Hboth. clear. intros [H1 H2].
      repeat (apply elem_of_cons in H2 as [->|H2];
              [revert H1; by_decision|]).
      by apply elem_of_nil in H2.
  - rewrite Hnum by by_decision. done.
  - intros v Hv. destruct (H2 v) as (n & Hn & Hl).
    { rewrite Hc1 by done. subst c0.
      rewrite clean_text_fields_other; [done|apply nfq_level_not_text]. }
    exists n. rewrite H4o, H3o by done. split; [done|].
    by eapply clean_nfq_level_range.
  - intros v Hv. destruct (H3 v) as (n & Hn & Hl).
    { rewrite H2o, Hc1 by done. subst c0.
      rewrite clean_text_fields_other; [done|by_decision]. }
    exists n. rewrite H4o by done. split; [done|].
    by eapply clean_points_range.
  - intros v Hv. destruct (H4 v) as (n & Hn & Hl).
    { rewrite H3o, H2o, Hc1 by done. subst c0.
      rewrite clean_text_fields_other; [done|by_decision]. }
    exists n. split; [done|]. by eapply clean_college_id_Ok.
Qed.

End CleanedFields.

(** X5 on the scraped record whose level is ["12"]. *)
Lemma clean_single_course_fields_witness :
  dom (<["nfq_level"%string := VInt 8]> physics_a) = dom physics_raw
  ∧ (∀ key, key ∉ cleaned_fields →
       <["nfq_level"%string := VInt 8]> physics_a !! key = physics_raw !! key)
  ∧ (∀ key, key ∈ text_fields →
       <["nfq_level"%string := VInt 8]> physics_a !! key
       = (λ v, VStr (clean_text_field (R := ascii_runtime) v))
           <$> physics_raw !! key)
  ∧ <["nfq_level"%string := VInt 8]> physics_a !! "cao_code"%string
    = (λ v, VStr (standardize_cao_code (R := ascii_runtime) v))
        <$> physics_raw !! "cao_code"%string
  ∧ (∀ v, physics_raw !! "nfq_level"%string = Some v →
       ∃ n, <["nfq_level"%string := VInt 8]> physics_a !! "nfq_level"%string
            = Some (VInt n)
            ∧ n ∈ [5; 6; 7; 8; 9; 10]%Z)
  ∧ (∀ v, physics_raw !! "points"%string = Some v →
       ∃ n, <["nfq_level"%string := VInt 8]> physics_a !! "points"%string
            = Some (VInt n) ∧ (0 ≤ n ≤ 625)%Z)
  ∧ (∀ v, physics_raw !! "college_id"%string = Some v →
       ∃ n, <["nfq_level"%string := VInt 8]> physics_a !! "college_id"%string
            = Some (VInt n) ∧ (1 ≤ n)%Z).
Proof.
  apply (clean_single_course_fields (R := ascii_runtime) physics_raw).
  reflexivity.
Defined.

(** ** What the validator accepts *)

Section Acceptance.
Context {R : PyRuntime}.

Lemma eq_int_truthy (v : value) (z : Z) :
  z ≠ 0%Z → eq_int v z = true → truthy v = true.
Proof.
  intros Hz. destruct v as [|[]|n|[| |m e]|s]; try done.
  - unfold eq_int. intros Hn%Z.eqb_eq. lia.
  - unfold eq_int, truthy. intros Hn%Z.eqb_eq.
    apply negb_true_iff, Z.eqb_neq. lia.
  - unfold eq_int, truthy. intros H. apply negb_true_iff, Z.eqb_neq.
    intros ->. destruct (Z.leb_spec 0 e) as [|He]; apply Z.eqb_eq in H.
    + lia.
    + assert (0 < 2 ^ (- e))%Z by (apply Z.pow_pos_nonneg; lia). nia.
Qed.

Lemma in_ints_truthy (v : value) :
  in_ints v (valid_nfq_levels VALIDATION_RULES) = true → truthy v = true.
Proof.
  unfold in_ints. intros (z & Hz & Heq)%existsb_exists.
  apply (eq_int_truthy v z); [|done]. intros ->. revert Hz. simpl. lia.
Qed.

Lemma check_description_Ok (course : CourseRecord) :
  check_description course = Ok tt →
  ∀ v, course !! "description"%string = Some v → truthy v = true →
       ∃ s, v = VStr s.
Proof.
  unfold check_description, get_or.
  destruct (course !! "description"%string) as [v|]; [|done].
  intros Hlen v' [= <-] Ht. rewrite Ht in Hlen.
  destruct v; try done. eauto.
Qed.

Lemma check_description_named (course : CourseRecord) (name : str) :
  course !! "name"%string = Some (VStr name) →
  (∀ v, course !! "description"%string = Some v → truthy v = true →
        ∃ s, v = VStr s) →
  check_description course = Ok tt.
Proof.
  intros Hname Hdesc. unfold check_description, get_or. rewrite Hname.
  destruct (course !! "description"%string) as [v|]; [|done].
  destruct (truthy v) eqn:Ht; [|done].
  destruct (Hdesc v) as [s ->]; [done..|]. simpl.
  by destruct (_ <? _)%nat.
Qed.

Lemma name_too_long_nil (name : value) :
  truthy name = true →
  name_too_long name = Ok []
  ↔ ∃ s, name = VStr s
         ∧ (length s ≤ max_course_name_length VALIDATION_RULES)%nat.
Proof.
  intros Ht. unfold name_too_long. rewrite Ht.
  destruct name as [| | | |s]; try (split; [done|by intros (? & ? & _)]).
  cbn [py_len]. change (Ok ?a ≫= ?k) with (k a). cbv beta.
  destruct (Nat.ltb_spec (max_course_name_length VALIDATION_RULES) (length s)).
  - split; [done|]. intros (? & [= <-] & ?). lia.
  - split; [eauto|done].
Qed.

Lemma name_too_short_nil (name : str) :
  name_too_short (VStr name) = Ok []
  ↔ (min_course_name_length VALIDATION_RULES ≤ length name)%nat.
Proof.
  unfold name_too_short. destruct name as [|c name]; [split; [done|]|].
  { simpl. lia. }
  cbn [truthy py_len]. change (Ok ?a ≫= ?k) with (k a). cbv beta.
  destruct (Nat.ltb_spec (length (c :: name))
              (min_course_name_length VALIDATION_RULES)).
  - split; [done|lia].
  - done.
Qed.

Lemma system_page_nil (name : str) :
  system_page (VStr name) = Ok []
  ↔ existsb (λ invalid, contains invalid (lower name)) invalid_names = false.
Proof.
  unfold system_page. destruct name as [|c name]; [done|].
  cbn [truthy py_lower]. change (Ok ?a ≫= ?k) with (k a). cbv beta.
  by destruct (existsb _ _).
Qed.

Lemma missing_required_nil (course : CourseRecord) :
  missing_required course = []
  ↔ (∃ name, course !! "name"%string = Some name ∧ truthy name = true)
    ∧ (∃ level, course !! "nfq_level"%string = Some level
                ∧ truthy level = true).
Proof.
  unfold missing_required. cbn [required_fields VALIDATION_RULES].
  rewrite !bind_cons.
  change ([] ≫= _) with (@nil str). rewrite app_nil_r.
  destruct (course !! "name"%string) as [name|];
    [destruct (truthy name) eqn:Hn|];
    (destruct (course !! "nfq_level"%string) as [level|];
     [destruct (truthy level) eqn:Hl|]).
  1: by split; [eauto 6|].
  all: split; [done|]; intros [(? & ? & ?) (? & ? & ?)]; congruence.
Qed.

(** The list of errors is empty exactly on the acceptable records. *)
Lemma validation_errors_of_nil (course : CourseRecord) :
  validation_errors_of course = Ok [] ↔ acceptable course.
Proof.
  unfold validation_errors_of, acceptable. split.
  - destruct (check_description course) as [[]|] eqn:Hd; [|done].
    pose proof (check_description_Ok course Hd) as Hdesc.
    change (Ok tt ≫= ?k) with (k tt). cbv beta.
    destruct (name_too_long _) as [e2|] eqn:H2; [|done].
    change (Ok e2 ≫= ?k) with (k e2). cbv beta.
    destruct (name_too_short _) as [e3|] eqn:H3; [|done].
    change (Ok e3 ≫= ?k) with (k e3). cbv beta.
    destruct (system_page _) as [e4|] eqn:H4; [|done].
    change (Ok e4 ≫= ?k) with (k e4). cbv beta.
    destruct (invalid_nfq course) as [e5|] eqn:H5'; [|done].
    change (Ok e5 ≫= ?k) with (k e5). cbv beta.
    intros [= Happ].
    apply app_eq_nil in Happ as [H1 Happ].
    apply app_eq_nil in Happ as [-> Happ].
    apply app_eq_nil in Happ as [-> Happ].
    apply app_eq_nil in Happ as [-> ->]. rename H5' into H5.
    apply missing_required_nil in H1
      as [(name & Hname & Htn) (level & Hlevel & Htl)].
    unfold get_or in H2, H3, H4. rewrite Hname in H2, H3, H4.
    apply name_too_long_nil in H2 as (s & -> & Hlong); [|done].
    apply name_too_short_nil in H3. apply system_page_nil in H4.
    split; [by exists s|]. split; [|done].
    exists level. split; [done|]. unfold invalid_nfq, get_or in H5.
    rewrite Hlevel in H5. destruct (in_ints level _); [done|].
    by destruct (py_format level).
  - intros ((name & Hname & Hlen & Hsys) & (level & Hlevel & Hin) & Hdesc).
    rewrite (check_description_named course name Hname Hdesc).
    change (Ok tt ≫= ?k) with (k tt). cbv beta.
    assert (truthy (VStr name) = true) as Htn.
    { destruct name; [|done]. simpl in Hlen. lia. }
    rewrite (proj2 (missing_required_nil course)).
    2:{ split; [by exists (VStr name)|].
        exists level. split; [done|]. by apply in_ints_truthy. }
    unfold invalid_nfq, get_or. rewrite Hname, Hlevel, Hin.
    rewrite (proj2 (name_too_long_nil (VStr name) Htn)).
    2:{ exists name. split; [done|lia]. }
    rewrite (proj2 (name_too_short_nil name)) by lia.
    by rewrite (proj2 (system_page_nil name) Hsys).
Qed.

(** X6. [validate_course] returns [True] exactly on the records that have
    as name a text of 3 to 200 characters holding none of the boilerplate
    substrings, as level a value equal to one of 5 to 10, and as
    description a text or a falsy value; and then it leaves the statistics
    as they were. *)
Theorem validate_course_accepts (course : CourseRecord) (st : stats) :
  ((validate_course course st).1 = Ok true ↔ acceptable course)
  ∧ ((validate_course course st).1 = Ok true →
     (validate_course course st).2 = st).
Proof.
  rewrite validate_course_run. split.
  - rewrite <- validation_errors_of_nil.
    destruct (validation_errors_of course) as [[|e es]|x]; [done| |done].
    destruct (error_key course); done.
  - destruct (validation_errors_of course) as [[|e es]|x]; [done| |done].
    destruct (error_key course); done.
Qed.

End Acceptance.

(** ** The output of [remove_duplicates] *)

Section DedupOutput.
Context {R : PyRuntime}.

Lemma filter_le_1_NoDup {A B} `{EqDecision B} (f : A → B) (l : list A) :
  (∀ k, length (filter (λ c, f c = k) l) ≤ 1)%nat → NoDup (f <$> l).
Proof.
  induction l as [|c l IH]; intros Hle; [constructor|].
  rewrite fmap_cons. constructor.
  - intros (c' & Heq & Hin)%list_elem_of_fmap.
    specialize (Hle (f c)). rewrite filter_cons_True in Hle by done.
    assert (c' ∈ filter (λ x, f x = f c) l) as Hf
      by by apply list_elem_of_filter.
    destruct (filter (λ x, f x = f c) l); [by apply elem_of_nil in Hf|].
    simpl in Hle. lia.
  - apply IH. intros k. specialize (Hle k). rewrite filter_cons in Hle.
    destruct (decide (f c = k)); simpl in Hle; lia.
Qed.

(** The loop on records whose keys are not empty, differ from each other
    and were not seen: every record is kept. *)
Lemma for_each_dedup_step_distinct (courses : list CourseRecord)
    (seen : gset str) (unique : list CourseRecord) (dups : nat) :
  NoDup (dedup_key <$> courses) →
  (∀ c, c ∈ courses →
        ∃ key, dedup_key c = Ok key ∧ key ≠ [] ∧ key ∉ seen) →
  ∃ seen', for_each dedup_step (seen, unique, dups) courses
           = Ok (seen', unique ++ courses, dups).
Proof.
  revert seen unique. induction courses as [|c courses IH];
    intros seen unique Hnd Hkeys.
  { exists seen. by rewrite app_nil_r. }
  rewrite fmap_cons in Hnd. apply NoDup_cons in Hnd as [Hc Hnd].
  destruct (Hkeys c) as (key & Hkey & Hne & Hnew); [by left|].
  rewrite (for_each_cons_Ok _ _ ({[key]} ∪ seen, unique ++ [c], dups))
    by by apply dedup_step_fresh.
  destruct (IH ({[key]} ∪ seen) (unique ++ [c]) Hnd) as [seen' Heq].
  - intros c' Hc'. destruct (Hkeys c') as (k' & Hk' & Hne' & Hnew');
      [by right|].
    exists k'. split; [done|]. split; [done|].
    intros [->%elem_of_singleton|?]%elem_of_union; [|done].
    apply Hc. rewrite Hkey, <- Hk'. by apply list_elem_of_fmap_2.
  - exists seen'. by rewrite Heq, <- (assoc_L (++)).
Qed.

Lemma remove_duplicates_output_keys (courses unique : list CourseRecord)
    (st : stats) :
  (remove_duplicates courses st).1 = Ok unique →
  NoDup (dedup_key <$> unique)
  ∧ ∀ c, c ∈ unique → ∃ key, dedup_key c = Ok key ∧ key ≠ [].
Proof.
  intros Hrun. pose proof (remove_duplicates_Ok _ _ _ Hrun) as Hall.
  destruct (remove_duplicates_spec courses st Hall)
    as (unique' & Heq & Hsub & Hkeys).
  rewrite Heq in Hrun. injection Hrun as ->.
  assert (∀ c, c ∈ unique → ∃ key, dedup_key c = Ok key ∧ key ≠ [])
    as Hnonempty.
  { intros c Hin. rewrite Forall_forall in Hall.
    destruct (Hall c) as [key Hkey].
    { by eapply elem_of_submseteq; [|apply sublist_submseteq]. }
    exists key. split; [done|]. intros ->.
    assert (c ∈ filter (λ c, dedup_key c = Ok []) unique) as Hf
      by by apply list_elem_of_filter.
    rewrite Hkeys in Hf. by apply elem_of_nil in Hf. }
  split; [|done]. apply filter_le_1_NoDup. intros [key|e].
  - rewrite Hkeys. destruct (decide (key = [])); [simpl; lia|].
    rewrite length_take. lia.
  - destruct (filter _ unique) as [|c l] eqn:Hf; [simpl; lia|].
    assert (c ∈ filter (λ c, dedup_key c = Raise e) unique) as Hc
      by (rewrite Hf; by left).
    apply list_elem_of_filter in Hc as [Hc Hin].
    destruct (Hnonempty c Hin) as (key & Hkey & _). congruence.
Qed.

(** X7. When [remove_duplicates] returns, the records it returns are
    records of the input in the order of the input, their keys are not empty
    and differ from each other, every key of the input that is not empty is
    the key of a record returned, and the count it stores is the number of
    records it left out; nothing else of the statistics changes. *)
Theorem remove_duplicates_distinct_keys (courses unique : list CourseRecord)
    (st st' : stats) :
  remove_duplicates courses st = (Ok unique, st') →
  unique `sublist_of` courses
  ∧ NoDup (dedup_key <$> unique)
  ∧ (∀ c, c ∈ unique → ∃ key, dedup_key c = Ok key ∧ key ≠ [])
  ∧ (∀ c key, c ∈ courses → dedup_key c = Ok key → key ≠ [] →
       ∃ c', c' ∈ unique ∧ dedup_key c' = Ok key)
  ∧ (duplicates_removed st' + length unique = length courses)%nat
  ∧ st' = set_duplicates_removed (duplicates_removed st') st.
Proof.
  intros Hrun.
  destruct (remove_duplicates_output_keys courses unique st)
    as [Hnodup Hnonempty]; [by rewrite Hrun|].
  assert (Forall keyable courses) as Hall.
  { apply (remove_duplicates_Ok courses unique st). by rewrite Hrun. }
  destruct (remove_duplicates_spec courses st Hall)
    as (unique' & Heq & Hsub & Hkeys).
  rewrite Heq in Hrun. injection Hrun as -> <-.
  do 3 (split; [done|]). split; [|split; [|done]].
  - intros c key Hin Hkey Hne.
    assert (c ∈ filter (λ c, dedup_key c = Ok key) courses) as Hf
      by by apply list_elem_of_filter.
    specialize (Hkeys key). rewrite decide_False in Hkeys by done.
    destruct (filter (λ c, dedup_key c = Ok key) courses) as [|c' l];
      [by apply elem_of_nil in Hf|].
    assert (c' ∈ filter (λ c, dedup_key c = Ok key) unique) as Hc'
      by (rewrite Hkeys; by left).
    apply list_elem_of_filter in Hc' as [? ?]. by exists c'.
  - simpl. apply sublist_length in Hsub. lia.
Qed.

(** X8. [remove_duplicates] leaves its own output as it is: run on what
    it returned, it returns the same records and counts no duplicate. *)
Theorem remove_duplicates_idempotent (courses unique : list CourseRecord)
    (st st' st2 : stats) :
  remove_duplicates courses st = (Ok unique, st') →
  remove_duplicates unique st2 = (Ok unique, set_duplicates_removed 0 st2).
Proof.
  intros Hrun.
  destruct (remove_duplicates_output_keys courses unique st)
    as [Hnodup Hnonempty]; [by rewrite Hrun|].
  destruct (for_each_dedup_step_distinct unique ∅ [] O) as [seen' Hloop];
    [done| |].
  - intros c Hin. destruct (Hnonempty c Hin) as (key & Hkey & Hne).
    exists key. split; [done|]. split; [done|]. apply not_elem_of_empty.
  - unfold remove_duplicates, dedup_loop, mbind, M_bind, lift.
    by rewrite Hloop.
Qed.

End DedupOutput.

(** X7 on the two records named "Physics". *)
Lemma remove_duplicates_distinct_keys_witness :
  [physics_a] `sublist_of` [physics_a; physics_b]
  ∧ NoDup (dedup_key (R := ascii_runtime) <$> [physics_a])
  ∧ (∀ c, c ∈ [physics_a] →
       ∃ key, dedup_key (R := ascii_runtime) c = Ok key ∧ key ≠ [])
  ∧ (∀ c key, c ∈ [physics_a; physics_b] →
       dedup_key (R := ascii_runtime) c = Ok key → key ≠ [] →
       ∃ c', c' ∈ [physics_a] ∧ dedup_key (R := ascii_runtime) c' = Ok key)
  ∧ (duplicates_removed (set_duplicates_removed 1 init_stats)
     + length [physics_a] = length [physics_a; physics_b])%nat
  ∧ set_duplicates_removed 1 init_stats
    = set_duplicates_removed
        (duplicates_removed (set_duplicates_removed 1 init_stats)) init_stats.
Proof.
  apply (remove_duplicates_distinct_keys (R := ascii_runtime)
           [physics_a; physics_b] [physics_a] init_stats
           (set_duplicates_removed 1 init_stats)).
  reflexivity.
Defined.

(** X8 on the same two records. *)
Lemma remove_duplicates_idempotent_witness :
  remove_duplicates (R := ascii_runtime) [physics_a] init_stats
  = (Ok [physics_a], set_duplicates_removed 0 init_stats).
Proof.
  apply (remove_duplicates_idempotent (R := ascii_runtime)
           [physics_a; physics_b] [physics_a] init_stats
           (set_duplicates_removed 1 init_stats) init_stats).
  reflexivity.
Defined.

(** ** The fields of an enriched record *)

Section EnhancedFields.
Context {R : PyRuntime}.

Lemma generate_keywords_insert (course : CourseRecord) (field : string)
    (v : value) :
  field ≠ "name"%string → field ≠ "description"%string →
  field ≠ "tags"%string →
  generate_keywords (<[field := v]> course) = generate_keywords course.
Proof.
  intros H1 H2 H3. unfold generate_keywords, get_or.
  by rewrite !lookup_insert_ne.
Qed.

(** A field the enricher does not name is returned as it came. *)
Lemma enhance_course_data_other (course enhanced : CourseRecord)
    (key : string) :
  enhance_course_data course = Ok enhanced → key ∉ enhanced_fields →
  enhanced !! key = course !! key.
Proof.
  unfold enhance_course_data. intros Hrun Hkey.
  assert (key ≠ "cao_code"%string ∧ key ≠ "tags"%string
          ∧ key ≠ "duration"%string ∧ key ≠ "keywords"%string)
    as (Hk1 & Hk2 & Hk3 & Hk4).
  { repeat split; intros ->; apply Hkey; by_decision. }
  destruct (truthy (get_or course "cao_code" VNone)).
  - change (Ok course ≫= ?k) with (k course) in Hrun. cbv beta in Hrun.
    destruct (improve_tags _) as [tags|]; [|done].
    change (Ok tags ≫= ?k) with (k tags) in Hrun. cbv beta zeta in Hrun.
    destruct (standardize_duration _) as [duration|]; [|done].
    change (Ok duration ≫= ?k) with (k duration) in Hrun.
    cbv beta zeta in Hrun.
    destruct (generate_keywords _) as [keywords|]; [|done].
    injection Hrun as <-. by rewrite !lookup_insert_ne.
  - destruct (extract_cao_code_from_name _) as [code|]; [|done].
    change (Ok code ≫= ?k) with (k code) in Hrun. cbv beta in Hrun.
    change (Ok ?a ≫= ?k) with (k a) in Hrun. cbv beta in Hrun.
    destruct (improve_tags _) as [tags|]; [|done].
    change (Ok tags ≫= ?k) with (k tags) in Hrun. cbv beta zeta in Hrun.
    destruct (standardize_duration _) as [duration|]; [|done].
    change (Ok duration ≫= ?k) with (k duration) in Hrun.
    cbv beta zeta in Hrun.
    destruct (generate_keywords _) as [keywords|]; [|done].
    injection Hrun as <-. by rewrite !lookup_insert_ne.
Qed.

(** X9. [enhance_course_data] writes four fields and no other: the record
    it returns has the fields of the input and [cao_code], [tags],
    [duration] and [keywords]; every other field is as it was; a code that
    is truthy is kept, any other is replaced by what
    [extract_cao_code_from_name] reads in the name; and [tags], [duration]
    and [keywords] hold text. *)
Theorem enhance_course_data_fields (course enhanced : CourseRecord) :
  enhance_course_data course = Ok enhanced →
  dom enhanced = dom course ∪ list_to_set enhanced_fields
  ∧ (∀ key, key ∉ enhanced_fields → enhanced !! key = course !! key)
  ∧ (truthy (get_or course "cao_code" VNone) = true →
     enhanced !! "cao_code"%string = course !! "cao_code"%string)
  ∧ (truthy (get_or course "cao_code" VNone) = false →
     ∃ code, extract_cao_code_from_name (get_or course "name" (VStr []))
             = Ok code
             ∧ enhanced !! "cao_code"%string = Some (VStr code))
  ∧ (∃ tags, improve_tags course = Ok tags
             ∧ enhanced !! "tags"%string = Some (VStr tags))
  ∧ (∃ duration,
       standardize_duration (get_or course "duration" (VStr [])) = Ok duration
       ∧ enhanced !! "duration"%string = Some (VStr duration))
  ∧ (∃ keywords, enhanced !! "keywords"%string = Some (VStr keywords)).
Proof.
  intros Hrun. pose proof (enhance_course_data_tags _ _ Hrun) as Htags.
  pose proof (λ key, enhance_course_data_other _ _ key Hrun) as Hframe.
  unfold enhance_course_data in Hrun.
  set (first := if truthy (get_or course "cao_code" VNone) then Ok course
                else code ← extract_cao_code_from_name
                              (get_or course "name" (VStr []));
                     Ok (<["cao_code"%string := VStr code]> course)) in *.
  destruct first as [e1|] eqn:He1; [|done].
  change (Ok e1 ≫= ?k) with (k e1) in Hrun. cbv beta in Hrun.
  destruct (improve_tags e1) as [tags|]; [|done].
  change (Ok tags ≫= ?k) with (k tags) in Hrun. cbv beta zeta in Hrun.
  destruct (standardize_duration _) as [duration|] eqn:Hdur; [|done].
  change (Ok duration ≫= ?k) with (k duration) in Hrun. cbv beta zeta in Hrun.
  destruct (generate_keywords _) as [keywords|]; [|done].
  injection Hrun as <-.
  assert (get_or (<["tags"%string := VStr tags]> e1) "duration" (VStr [])
          = get_or e1 "duration" (VStr [])) as Hd1
    by (unfold get_or; by rewrite lookup_insert_ne).
  rewrite Hd1 in Hdur. clear Hd1.
  assert (dom e1 = {["cao_code"%string]} ∪ dom course
          ∧ (∀ key, key ≠ "cao_code"%string → e1 !! key = course !! key)
          ∧ (truthy (get_or course "cao_code" VNone) = true →
             e1 !! "cao_code"%string = course !! "cao_code"%string)
          ∧ (truthy (get_or course "cao_code" VNone) = false →
             ∃ code, extract_cao_code_from_name
                       (get_or course "name" (VStr [])) = Ok code
                     ∧ e1 !! "cao_code"%string = Some (VStr code)))
    as (Hdom & Hother & Hkept & Hnew).
  { subst first. destruct (truthy (get_or course "cao_code" VNone)) eqn:Ht.
    - injection He1 as <-. split; [|done].
      unfold get_or in Ht.
      destruct (course !! "cao_code"%string) as [v|] eqn:Hv; [|done].
      apply (elem_of_dom_2 (D := gset string)) in Hv. symmetry.
      by apply subseteq_union_1_L, singleton_subseteq_l.
    - destruct (extract_cao_code_from_name _) as [code|]; [|done].
      injection He1 as <-. split; [|split; [|split; [done|]]].
      + apply dom_insert_L.
      + intros key Hne. by rewrite lookup_insert_ne.
      + intros _. exists code. by rewrite lookup_insert_eq. }
  split; [|split; [|split; [|split; [|split; [|split]]]]].
  - rewrite !dom_insert_L, Hdom. unfold enhanced_fields.
    rewrite !list_to_set_cons, list_to_set_nil. apply set_eq. intros key.
    rewrite !elem_of_union, elem_of_empty. tauto.
  - done.
  - intros Ht. rewrite !lookup_insert_ne by done. by apply Hkept.
  - intros Ht. rewrite !lookup_insert_ne by done. by apply Hnew.
  - done.
  - exists duration. split.
    + rewrite <- Hdur. unfold get_or. by rewrite Hother.
    + rewrite lookup_insert_ne by done. apply lookup_insert_eq.
  - exists keywords. apply lookup_insert_eq.
Qed.

(** X10. What was scraped as [tags] or as [keywords] has no part in the
    result of [enhance_course_data]: both are replaced, and neither is read
    before it is. *)
Theorem enhance_course_data_ignores_tags (course : CourseRecord)
    (tags keywords : value) :
  enhance_course_data (<["tags"%string := tags]> course)
  = enhance_course_data course
  ∧ enhance_course_data (<["keywords"%string := keywords]> course)
    = enhance_course_data course.
Proof.
  split.
  - unfold enhance_course_data, get_or.
    rewrite !(lookup_insert_ne _ "tags"%string) by done.
    destruct (truthy _).
    + change (Ok ?a ≫= ?k) with (k a). cbv beta.
      rewrite improve_tags_insert by done.
      destruct (improve_tags course) as [t|]; [|done].
      change (Ok ?a ≫= ?k) with (k a). cbv beta zeta.
      by rewrite insert_insert_eq.
    + destruct (extract_cao_code_from_name _) as [code|]; [|done].
      change (Ok ?a ≫= ?k) with (k a). cbv beta.
      change (Ok ?a ≫= ?k) with (k a). cbv beta.
      rewrite (insert_insert_ne _ "cao_code"%string "tags"%string) by done.
      rewrite improve_tags_insert by done.
      destruct (improve_tags _) as [t|]; [|done].
      change (Ok ?a ≫= ?k) with (k a). cbv beta zeta.
      by rewrite insert_insert_eq.
  - unfold enhance_course_data, get_or.
    rewrite !(lookup_insert_ne _ "keywords"%string) by done.
    assert (∀ e1 : CourseRecord,
      (tags ← improve_tags (<["keywords"%string := keywords]> e1);
       let enhanced := <["tags"%string := VStr tags]>
                         (<["keywords"%string := keywords]> e1) in
       duration ← standardize_duration
                    match enhanced !! "duration"%string with
                    | Some v => v | None => VStr [] end;
       let enhanced := <["duration"%string := VStr duration]> enhanced in
       keywords ← generate_keywords enhanced;
       Ok (<["keywords"%string := VStr keywords]> enhanced))
      = (tags ← improve_tags e1;
         let enhanced := <["tags"%string := VStr tags]> e1 in
         duration ← standardize_duration
                      match enhanced !! "duration"%string with
                      | Some v => v | None => VStr [] end;
         let enhanced := <["duration"%string := VStr duration]> enhanced in
         keywords ← generate_keywords enhanced;
         Ok (<["keywords"%string := VStr keywords]> enhanced))) as Hrest.
    { intros e1. rewrite improve_tags_insert by done.
      destruct (improve_tags e1) as [t|]; [|done].
      change (Ok ?a ≫= ?k) with (k a). cbv beta zeta.
      rewrite (insert_insert_ne _ "tags"%string "keywords"%string) by done.
      rewrite (lookup_insert_ne _ "keywords"%string) by done.
      destruct (standardize_duration _) as [d|]; [|done].
      change (Ok ?a ≫= ?k) with (k a). cbv beta zeta.
      rewrite (insert_insert_ne _ "duration"%string "keywords"%string) by done.
      rewrite generate_keywords_insert by done.
      destruct (generate_keywords _) as [k|]; [|done].
      change (Ok ?a ≫= ?k) with (k a). cbv beta.
      by rewrite insert_insert_eq. }
    destruct (truthy _).
    + change (Ok ?a ≫= ?k) with (k a). cbv beta. apply Hrest.
    + destruct (extract_cao_code_from_name _) as [code|]; [|done].
      change (Ok ?a ≫= ?k) with (k a). cbv beta.
      change (Ok ?a ≫= ?k) with (k a). cbv beta.
      rewrite (insert_insert_ne _ "cao_code"%string "keywords"%string) by done.
      apply Hrest.
Qed.

End EnhancedFields.

(** X9 on the record named "Physics". *)
Lemma enhance_course_data_fields_witness :
  dom physics_enhanced = dom physics_a ∪ list_to_set enhanced_fields
  ∧ (∀ key, key ∉ enhanced_fields → physics_enhanced !! key = physics_a !! key)
  ∧ (truthy (get_or physics_a "cao_code" VNone) = true →
     physics_enhanced !! "cao_code"%string = physics_a !! "cao_code"%string)
  ∧ (truthy (get_or physics_a "cao_code" VNone) = false →
     ∃ code, extract_cao_code_from_name (R := ascii_runtime)
               (get_or physics_a "name" (VStr [])) = Ok code
             ∧ physics_enhanced !! "cao_code"%string = Some (VStr code))
  ∧ (∃ tags, improve_tags (R := ascii_runtime) physics_a = Ok tags
             ∧ physics_enhanced !! "tags"%string = Some (VStr tags))
  ∧ (∃ duration,
       standardize_duration (R := ascii_runtime)
         (get_or physics_a "duration" (VStr [])) = Ok duration
       ∧ physics_enhanced !! "duration"%string = Some (VStr duration))
  ∧ (∃ keywords, physics_enhanced !! "keywords"%string = Some (VStr keywords)).
Proof.
  apply (enhance_course_data_fields (R := ascii_runtime) physics_a).
  reflexivity.
Defined.

(** ** The code read in a name, and codes that are already canonical *)

Section CodeInName.
Context {R : PyRuntime}.

Lemma last_of_None (w : str) : last_of None w = last w.
Proof. unfold last_of. by destruct (last w). Qed.

Lemma last_of_nonempty (prev : option N) (w : str) :
  w ≠ [] → last_of prev w = last w.
Proof.
  intros Hne. unfold last_of. destruct (last w) eqn:Hl; [done|].
  by apply last_None in Hl.
Qed.

Lemma is_upper_AZ_is_word (c : N) : is_upper_AZ c = true → is_word c = true.
Proof.
  intros H. unfold is_word. rewrite H, orb_true_r.
  unfold is_upper_AZ, in_range in H. apply andb_true_iff in H as [_ H].
  apply N.leb_le in H. unfold is_ascii.
  by replace (c <? 128) with true by (symmetry; apply N.ltb_lt; lia).
Qed.

(** A match of [\b([A-Z]{2,4}\d{3,4})\b]: letters and digits with a word
    boundary on each side. *)
Lemma match_cao_word (prev : option N) (s : str) (pieces : list str) :
  match_items re_cao_word prev s = Some pieces →
  ∃ letters digits rest,
    concat pieces = letters ++ digits ∧ s = letters ++ digits ++ rest
    ∧ cao_shape letters digits
    ∧ at_boundary prev s = true
    ∧ at_boundary (last digits) rest = true.
Proof.
  unfold re_cao_word. cbn [match_items].
  destruct (at_boundary prev s) eqn:Hb1; [|done].
  destruct (first_down _ _ _) as [ps1|] eqn:H1; [|done].
  intros [= <-].
  apply first_down_Some in H1 as (k1 & Hk1 & H1).
  destruct (first_down _ _ _) as [ps2|] eqn:H2; [|done].
  injection H1 as <-.
  apply first_down_Some in H2 as (k2 & Hk2 & H2).
  destruct (at_boundary (last_of _ _) _) eqn:Hb2; [|done]. simpl in H2.
  injection H2 as <-.
  destruct (take_while_take is_upper_AZ s k1) as [Hl1 Hl2]; [lia|].
  destruct (take_while_take is_digit (drop k1 s) k2) as [Hd1 Hd2]; [lia|].
  exists (take k1 s), (take k2 (drop k1 s)), (drop k2 (drop k1 s)).
  split; [simpl; by rewrite app_nil_r|]. split; [by rewrite !take_drop|].
  split; [|split; [done|]].
  - unfold cao_shape. rewrite Hl2, Hd2. repeat split; (done || lia).
  - rewrite last_of_nonempty in Hb2; [done|].
    intros Hnil. rewrite Hnil in Hd2. simpl in Hd2. lia.
Qed.

(** X11. What [extract_cao_code_from_name] returns is empty, or it is a
    piece of the uppercased name made of 2 to 4 letters and 3 to 4 digits
    that stands as a word of its own: no word character before the letters,
    and a word boundary after the digits. *)
Theorem extract_cao_code_from_name_shape (name : value) (code : str) :
  extract_cao_code_from_name name = Ok code →
  code = []
  ∨ ∃ text pre letters digits post,
      name = VStr text
      ∧ upper text = pre ++ letters ++ digits ++ post
      ∧ code = letters ++ digits
      ∧ cao_shape letters digits
      ∧ word_opt (last pre) = false
      ∧ at_boundary (last digits) post = true.
Proof.
  unfold extract_cao_code_from_name.
  destruct (truthy name); simpl negb; cbv iota; [|intros [= <-]; by left].
  destruct name as [| | | |text]; try done. cbn [py_upper].
  change (Ok ?a ≫= ?k) with (k a). cbv beta.
  destruct (re_search re_cao_word (upper text)) as [[i pieces]|] eqn:Hs;
    [|intros [= <-]; by left].
  intros [= <-]. right.
  apply search_from_Some in Hs as (k & _ & Hk & Hm & _).
  apply match_cao_word in Hm
    as (letters & digits & rest & Hcode & Hrest & Hshape & Hb1 & Hb2).
  exists text, (take k (upper text)), letters, digits, rest.
  split; [done|]. split; [by rewrite <- Hrest, take_drop|].
  do 2 (split; [done|]). split; [|done].
  unfold prev_at in Hb1. rewrite last_of_None, Hrest in Hb1.
  unfold at_boundary in Hb1.
  destruct Hshape as ([Hlen _] & Hupper & _).
  destruct letters as [|c letters]; [simpl in Hlen; lia|].
  simpl in Hupper. apply andb_true_iff in Hupper as [Hc _].
  simpl in Hb1. rewrite (is_upper_AZ_is_word c Hc) in Hb1.
  by destruct (word_opt (last (take k (upper text)))).
Qed.

Lemma search_from_head (p : list item) (prev : option N) (s : str) (i : nat)
    (pieces : list str) :
  match_items p prev s = Some pieces →
  search_from p prev s i = Some (i, pieces).
Proof. intros H. destruct s; simpl; by rewrite H. Qed.

Lemma strip_no_space (s : str) :
  Forall (λ c, is_space c = false) s → strip s = s.
Proof.
  intros Hs. unfold strip, rstrip.
  rewrite (lstrip_fixed s) by (destruct Hs; done).
  rewrite lstrip_fixed; [apply reverse_involutive|].
  apply Forall_reverse in Hs. destruct Hs; done.
Qed.

Lemma upper_no_lower (s : str) :
  Forall (λ c, is_ascii c = true ∧ is_lower_az c = false) s → upper s = s.
Proof.
  intros Hs. unfold upper.
  assert (forallb is_ascii s = true) as ->.
  { apply forallb_forall. intros c Hc%list_elem_of_In.
    rewrite Forall_forall in Hs. by apply Hs. }
  induction Hs as [|c s [_ Hc] Hs IH]; [done|].
  rewrite fmap_cons, IH. unfold upper_char. by rewrite Hc.
Qed.

Lemma code_character (c : N) :
  is_upper_AZ c || is_digit_09 c = true →
  is_space c = false ∧ is_ascii c = true ∧ is_lower_az c = false.
Proof.
  unfold is_upper_AZ, is_digit_09, is_space, is_ascii, is_lower_az, in_range.
  intros H. apply orb_true_iff in H.
  assert (48 ≤ c ≤ 90) as Hc.
  { destruct H as [H|H]; apply andb_true_iff in H as [H1 H2];
      apply N.leb_le in H1, H2; lia. }
  clear H. split; [|split].
  - repeat (apply orb_false_iff; split);
      first [apply N.eqb_neq; lia
            |apply andb_false_iff; left; apply N.leb_gt; lia
            |apply andb_false_iff; right; apply N.leb_gt; lia].
  - apply N.ltb_lt. lia.
  - apply andb_false_iff. left. apply N.leb_gt. lia.
Qed.

Lemma canonical_code_fixed (letters digits : str) :
  cao_shape letters digits → forallb is_digit_09 digits = true →
  standardize_cao_code (VStr (letters ++ digits)) = letters ++ digits.
Proof.
  intros (Hll & Hlu & Hdl & Hdd) Hd09. unfold standardize_cao_code.
  assert (truthy (VStr (letters ++ digits)) = true) as ->.
  { destruct letters; [simpl in Hll; lia|done]. }
  simpl negb. cbv iota. change (py_str (VStr ?s)) with s.
  assert (Forall (λ c, is_upper_AZ c || is_digit_09 c = true)
            (letters ++ digits)) as Hcode.
  { apply Forall_app. split; apply Forall_forall; intros c Hc%list_elem_of_In.
    - rewrite forallb_forall in Hlu. by rewrite Hlu.
    - rewrite forallb_forall in Hd09. rewrite Hd09 by done.
      apply orb_true_r. }
  rewrite strip_no_space, upper_no_lower.
  2,3: eapply Forall_impl; [exact Hcode|]; intros c Hc;
       destruct (code_character c Hc) as (? & ? & ?); done.
  unfold re_search.
  rewrite (search_from_head _ _ _ _ [letters; digits]); [done|].
  unfold re_cao. cbn [match_items].
  assert (take_while is_upper_AZ (letters ++ digits) = letters) as ->.
  { apply take_while_all; [done|]. destruct digits as [|d digits]; [done|].
    simpl in Hd09. apply andb_true_iff in Hd09 as [Hd _].
    unfold is_digit_09, is_upper_AZ, in_range in *.
    apply andb_true_iff in Hd as [H1 H2]. apply N.leb_le in H1, H2.
    apply andb_false_iff. left. apply N.leb_gt. lia. }
  rewrite Nat.min_r by lia.
  apply first_down_top; [lia|].
  rewrite take_app_length, drop_app_length.
  assert (take_while is_digit digits = digits) as ->.
  { rewrite <- (app_nil_r digits) at 1. by apply take_while_all. }
  rewrite Nat.min_r by lia.
  rewrite (first_down_top _ _ _ [digits]); [done|lia|].
  by rewrite firstn_all.
Qed.

(** X12. A code that is already canonical, 2 to 4 letters [A-Z] followed
    by 3 to 4 digits [0-9], is returned by [standardize_cao_code] as it
    is. *)
Theorem standardize_cao_code_fixes_canonical (letters digits : str) :
  cao_shape letters digits → forallb is_digit_09 digits = true →
  standardize_cao_code (VStr (letters ++ digits)) = letters ++ digits.
Proof. apply canonical_code_fixed. Qed.

End CodeInName.

(** X11 on a name that holds a code. *)
Lemma extract_cao_code_from_name_shape_witness :
  lit "TU856" = []
  ∨ ∃ text pre letters digits post,
      VStr (lit "Computing tu856 (Dublin)") = VStr text
      ∧ upper (R := ascii_runtime) text = pre ++ letters ++ digits ++ post
      ∧ lit "TU856" = letters ++ digits
      ∧ cao_shape (R := ascii_runtime) letters digits
      ∧ word_opt (R := ascii_runtime) (last pre) = false
      ∧ at_boundary (R := ascii_runtime) (last digits) post = true.
Proof.
  apply (extract_cao_code_from_name_shape (R := ascii_runtime)
           (VStr (lit "Computing tu856 (Dublin)")) (lit "TU856")).
  reflexivity.
Defined.

(** X12 on the code "TU856". *)
Lemma standardize_cao_code_fixes_canonical_witness :
  standardize_cao_code (R := ascii_runtime) (VStr (lit "TU" ++ lit "856"))
  = lit "TU" ++ lit "856".
Proof.
  apply (standardize_cao_code_fixes_canonical (R := ascii_runtime)
           (lit "TU") (lit "856")).
  - repeat split; simpl; lia.
  - reflexivity.
Defined.

(** ** The batch as a whole *)

Section Pipeline.
Context {R : PyRuntime}.

Lemma mapM_result_Ok {A B} (f : A → result B) (l : list A) (ys : list B) :
  mapM f l = Ok ys → Forall2 (λ x y, f x = Ok y) l ys.
Proof.
  revert ys. induction l as [|x l IH]; intros ys; simpl.
  - intros [= <-]. constructor.
  - destruct (f x) as [y|] eqn:Hy; [|done].
    change (Ok y ≫= ?k) with (k y). cbv beta.
    destruct (mapM f l) as [k|]; [|done]. intros [= <-].
    constructor; [done|by apply IH].
Qed.

(** What the validation step lets through, and what it does to the
    counters. *)
Lemma filterM_validate_course_Ok (courses valid : list CourseRecord)
    (st st' : stats) :
  filterM validate_course courses st = (Ok valid, st') →
  valid `sublist_of` courses
  ∧ Forall acceptable valid
  ∧ total_records st' = total_records st
  ∧ valid_records st' = valid_records st
  ∧ duplicates_removed st' = duplicates_removed st.
Proof.
  revert valid st. induction courses as [|c courses IH]; intros valid st.
  { intros [= <- <-]. by repeat split. }
  simpl. unfold mbind at 1, M_bind at 1. rewrite validate_course_run.
  destruct (validation_errors_of c) as [[|e es]|x] eqn:He; [| |done].
  - unfold mbind, M_bind.
    destruct (filterM validate_course courses st) as [[rest|?] st1] eqn:Hf;
      [|done].
    intros [= <- <-]. destruct (IH _ _ Hf) as (Hsub & Hacc & Hst).
    split; [by apply sublist_skip|]. split; [|done].
    constructor; [|done]. by apply validation_errors_of_nil.
  - destruct (error_key c) as [key|x]; [|done]. unfold mbind, M_bind.
    destruct (filterM validate_course courses _) as [[rest|?] st1] eqn:Hf;
      [|done].
    intros [= <- <-]. destruct (IH _ _ Hf) as (Hsub & Hacc & Hst).
    split; [by apply sublist_cons|]. done.
Qed.

Lemma sublist_Forall2_l {A B} (P : A → B → Prop) (l : list A)
    (ys ys' : list B) :
  Forall2 P l ys → ys' `sublist_of` ys →
  ∃ l', l' `sublist_of` l ∧ Forall2 P l' ys'.
Proof.
  intros HP. revert ys'. induction HP as [|x y l ys Hxy HP IH]; intros ys' Hs.
  - apply sublist_nil_r in Hs as ->. exists []. by split.
  - apply sublist_cons_r in Hs as [Hs|(ys2 & -> & Hs)].
    + destruct (IH _ Hs) as (l' & Hl' & HP'). exists l'.
      split; [by apply sublist_cons|done].
    + destruct (IH _ Hs) as (l' & Hl' & HP'). exists (x :: l').
      split; [by apply sublist_skip|by constructor].
Qed.

(** The enricher keeps a record acceptable: it writes none of the fields
    the validator reads. *)
Lemma enhance_course_data_acceptable (course enhanced : CourseRecord) :
  enhance_course_data course = Ok enhanced → acceptable course →
  acceptable enhanced.
Proof.
  intros Hrun. unfold acceptable.
  rewrite !(enhance_course_data_other _ _ _ Hrun) by by_decision. done.
Qed.

(** The stages of [clean_course_data], when it returns. *)
Lemma clean_course_data_stages (courses enhanced : list CourseRecord)
    (st st' : stats) :
  clean_course_data courses st = (Ok enhanced, st') →
  ∃ cleaned valid unique st1 st2,
    mapM clean_single_course courses = Ok cleaned
    ∧ filterM validate_course cleaned (set_total_records (length courses) st)
      = (Ok valid, st1)
    ∧ remove_duplicates valid st1 = (Ok unique, st2)
    ∧ mapM enhance_course_data unique = Ok enhanced
    ∧ st' = set_valid_records (length enhanced) st2
    ∧ courses ≠ [].
Proof.
  unfold clean_course_data.
  rewrite (M_bind_Ok _ _ st (set_total_records (length courses) st) tt)
    by done.
  destruct (mapM clean_single_course courses) as [cleaned|e] eqn:Hclean.
  2:{ unfold mbind, M_bind, lift. done. }
  rewrite (M_bind_Ok _ _ _ (set_total_records (length courses) st) cleaned)
    by done.
  destruct (filterM validate_course cleaned
              (set_total_records (length courses) st))
    as [[valid|e] st1] eqn:Hvalid.
  2:{ unfold mbind, M_bind. by rewrite Hvalid. }
  rewrite (M_bind_Ok _ _ _ _ _ Hvalid).
  destruct (remove_duplicates valid st1) as [[unique|e] st2] eqn:Hdedup.
  2:{ unfold mbind, M_bind. by rewrite Hdedup. }
  rewrite (M_bind_Ok _ _ _ _ _ Hdedup).
  destruct (mapM enhance_course_data unique) as [enh|e] eqn:Henh.
  2:{ unfold mbind, M_bind, lift. done. }
  rewrite (M_bind_Ok _ _ _ st2 enh) by done.
  rewrite (M_bind_Ok _ _ _ (set_valid_records (length enh) st2) tt) by done.
  destruct (decide (total_records (set_valid_records (length enh) st2) = O))
    as [Hzero|Hpos].
  - unfold mbind, M_bind. by rewrite log_validation_stats_empty.
  - rewrite (M_bind_Ok _ _ _ (set_valid_records (length enh) st2) tt)
      by by apply log_validation_stats_nonempty.
    intros [= <- <-]. exists cleaned, valid, unique, st1, st2.
    do 5 (split; [done|]). intros ->. apply Hpos.
    injection Hclean as <-. injection Hvalid as <- <-.
    by injection Hdedup as <- <-.
Qed.

(** X13. When [clean_course_data] returns, [total_records] is the size
    of the batch and [valid_records] the size of the output; the records
    returned and the duplicates counted are together no more than the
    batch; every record returned is one the validator accepts; and the
    output is, in the order of the batch, what cleaning then enriching
    makes of some of its records. *)
Theorem clean_course_data_output (courses enhanced : list CourseRecord)
    (st st' : stats) :
  clean_course_data courses st = (Ok enhanced, st') →
  total_records st' = length courses
  ∧ valid_records st' = length enhanced
  ∧ (valid_records st' + duplicates_removed st' ≤ total_records st')%nat
  ∧ Forall acceptable enhanced
  ∧ ∃ kept, kept `sublist_of` courses
            ∧ Forall2 (λ raw e, ∃ cleaned,
                         clean_single_course raw = Ok cleaned
                         ∧ enhance_course_data cleaned = Ok e)
                kept enhanced.
Proof.
  intros Hrun.
  destruct (clean_course_data_stages _ _ _ _ Hrun)
    as (cleaned & valid & unique & st1 & st2 & Hclean & Hvalid & Hdedup
        & Henh & -> & _).
  apply mapM_result_Ok in Hclean, Henh.
  apply filterM_validate_course_Ok in Hvalid
    as (Hsub1 & Hacc & Ht1 & _ & _).
  destruct (remove_duplicates_spec valid st1) as (unique' & Heq & Hsub2 & _).
  { apply (remove_duplicates_Ok valid unique st1). by rewrite Hdedup. }
  rewrite Heq in Hdedup. injection Hdedup as -> <-.
  pose proof (Forall2_length _ _ _ Hclean) as Hlen1.
  pose proof (Forall2_length _ _ _ Henh) as Hlen2.
  pose proof (sublist_length _ _ Hsub1) as Hlen3.
  pose proof (sublist_length _ _ Hsub2) as Hlen4.
  simpl. rewrite Ht1. simpl.
  split; [done|]. split; [done|]. split; [lia|]. split.
  - assert (Forall acceptable unique) as Hacc2.
    { apply Forall_forall. intros c Hc. rewrite Forall_forall in Hacc.
      apply Hacc. by eapply elem_of_submseteq; [|apply sublist_submseteq]. }
    clear -Henh Hacc2. induction Henh as [|c e unique enhanced He Henh IH];
      [constructor|].
    apply Forall_cons in Hacc2 as [Hc Hacc2].
    constructor; [by eapply enhance_course_data_acceptable|by apply IH].
  - destruct (sublist_Forall2_l _ _ _ unique Hclean) as (kept & Hkept & Hk);
      [by etrans|].
    exists kept. split; [done|]. clear -Hk Henh. revert enhanced Henh.
    induction Hk as [|raw c kept unique Hc Hk IH]; intros enhanced Henh.
    + apply Forall2_nil_inv_l in Henh as ->. constructor.
    + apply Forall2_cons_inv_l in Henh as (e & enhanced' & He & Henh & ->).
      constructor; [by exists c|by apply IH].
Qed.

End Pipeline.

(** X13 on the batch of the two "BEng" records. *)
Lemma clean_course_data_output_witness :
  total_records beng_stats = length [beng_text; beng_numbers]
  ∧ valid_records beng_stats = length [beng_enhanced]
  ∧ (valid_records beng_stats + duplicates_removed beng_stats
     ≤ total_records beng_stats)%nat
  ∧ Forall (acceptable (R := ascii_runtime)) [beng_enhanced]
  ∧ ∃ kept, kept `sublist_of` [beng_text; beng_numbers]
            ∧ Forall2 (λ raw e, ∃ cleaned,
                         clean_single_course (R := ascii_runtime) raw
                         = Ok cleaned
                         ∧ enhance_course_data (R := ascii_runtime) cleaned
                           = Ok e)
                kept [beng_enhanced].
Proof.
  apply (clean_course_data_output (R := ascii_runtime)
           [beng_text; beng_numbers] [beng_enhanced] init_stats beng_stats).
  vm_compute. reflexivity.
Defined.

(** ** When the batch returns, and what it raises when it does not *)

Section Returns.
Context {R : PyRuntime}.

Hypothesis uni_decimal_digit :
  ∀ c d, uni_decimal c = Some d → d < 10 ∧ is_space c = false.

Lemma clean_number_at_Raise (clean : value → result Z) (field : string)
    (cleaned : CourseRecord) (e : exn) :
  clean_number_at clean field cleaned = Raise e →
  ∃ v, cleaned !! field = Some v ∧ clean v = Raise e.
Proof.
  unfold clean_number_at. destruct (cleaned !! field) as [v|]; [|done].
  destruct (clean v) as [n|e'] eqn:Hc; [done|]. intros [= <-]. eauto.
Qed.

(** Within the digit limit, the only exception of [clean_single_course]
    is the [OverflowError] of an infinite float. *)
Lemma clean_single_course_Raise (raw : CourseRecord) (e : exn) :
  within_digit_limit raw →
  clean_single_course raw = Raise e → e = OverflowError.
Proof.
  intros [Hprint _]. unfold clean_single_course.
  set (c0 := foldl clean_text_at raw text_fields) in *.
  set (c1 := match c0 !! "cao_code"%string with
             | Some v => <["cao_code"%string := VStr (standardize_cao_code v)]> c0
             | None => c0
             end) in *.
  assert (∀ key, key ∉ text_fields → key ≠ "cao_code"%string →
                 c1 !! key = raw !! key) as Hsame.
  { intros key H1 H2. subst c1. destruct (c0 !! "cao_code"%string);
      [rewrite lookup_insert_ne by done|];
      by apply clean_text_fields_other. }
  destruct (clean_number_at clean_nfq_level _ _) as [c2|e2] eqn:H2.
  2:{ intros [= <-]. apply clean_number_at_Raise in H2 as (v & Hl & Hv).
      rewrite Hsame in Hl by by_decision.
      destruct (clean_nfq_level_cases v) as [[_ ?]|(n & ? & _)];
        [apply (Hprint "nfq_level"%string); [by_decision|done]
        |congruence..]. }
  change (Ok c2 ≫= ?k) with (k c2). cbv beta.
  apply clean_number_at_Ok in H2 as [H2o _].
  destruct (clean_number_at clean_points _ _) as [c3|e3] eqn:H3.
  2:{ intros [= <-]. apply clean_number_at_Raise in H3 as (v & Hl & Hv).
      rewrite H2o, Hsame in Hl by by_decision.
      destruct (clean_points_cases v) as [[_ ?]|(n & ? & _)];
        [apply (Hprint "points"%string); [by_decision|done]
        |congruence..]. }
  change (Ok c3 ≫= ?k) with (k c3). cbv beta.
  destruct (clean_number_at clean_college_id _ _) as [c4|e4] eqn:H4; [done|].
  intros [= <-]. apply clean_number_at_Raise in H4 as (v & _ & Hv).
  destruct (clean_college_id_cases v) as [[_ ?]|(n & ?)]; congruence.
Qed.

Lemma mapM_result_Raise_inv {A B} (f : A → result B) (l : list A) (e : exn) :
  mapM f l = Raise e → ∃ x, x ∈ l ∧ f x = Raise e.
Proof.
  induction l as [|a l IH]; [done|]. simpl.
  destruct (f a) as [y|e0] eqn:Hy.
  - change (Ok y ≫= ?k) with (k y). cbv beta.
    destruct (mapM f l) as [k|e1]; [done|]. intros [= <-].
    destruct IH as (x & Hx & Hfx); [done|]. exists x. split; [by right|done].
  - intros [= <-]. exists a. split; [by left|done].
Qed.

Lemma infinite_raises (v : value) :
  is_infinite v →
  clean_nfq_level v = Raise OverflowError
  ∧ clean_points v = Raise OverflowError
  ∧ clean_college_id v = Raise OverflowError.
Proof. by intros [negative ->]. Qed.

(** A record that [clean_single_course] returns on holds no infinite
    float in a numeric field. *)
Lemma clean_single_course_finite (raw cleaned : CourseRecord) :
  clean_single_course raw = Ok cleaned → finite_numbers raw.
Proof.
  unfold clean_single_course. intros Hrun.
  set (c0 := foldl clean_text_at raw text_fields) in *.
  set (c1 := match c0 !! "cao_code"%string with
             | Some v => <["cao_code"%string := VStr (standardize_cao_code v)]> c0
             | None => c0
             end) in *.
  assert (∀ key, key ∉ text_fields → key ≠ "cao_code"%string →
                 c1 !! key = raw !! key) as Hsame.
  { intros key H1 H2. subst c1. destruct (c0 !! "cao_code"%string);
      [rewrite lookup_insert_ne by done|];
      by apply clean_text_fields_other. }
  destruct (clean_number_at clean_nfq_level "nfq_level" c1) as [c2|] eqn:H2;
    simpl in Hrun; [|done].
  destruct (clean_number_at clean_points "points" c2) as [c3|] eqn:H3;
    simpl in Hrun; [|done].
  destruct (clean_number_at clean_college_id "college_id" c3) as [c4|] eqn:H4;
    simpl in Hrun; [|done].
  apply clean_number_at_Ok in H2 as [H2o H2], H3 as [H3o H3], H4 as [H4o H4].
  repeat split; intros v Hv Hinf;
    destruct (infinite_raises v Hinf) as (Hr1 & Hr2 & Hr3).
  - destruct (H2 v) as (n & Hn & _); [|congruence].
    rewrite Hsame; [done|by_decision..].
  - destruct (H3 v) as (n & Hn & _); [|congruence].
    rewrite H2o, Hsame; [done|by_decision..].
  - destruct (H4 v) as (n & Hn & _); [|congruence].
    rewrite H3o, H2o, Hsame; [done|by_decision..].
Qed.

(** X14. On the batches within the digit limit of the interpreter, those
    whose records hold in the cleaned fields no integer of more than 4300
    digits and no float out of the range of a double, and as duration a
    text that, cleaned and lowered, has at most 4300 characters,
    [clean_course_data] returns exactly when the batch is not empty and
    holds no infinite float in [nfq_level], [points] or [college_id].  On
    the empty batch it raises [ZeroDivisionError], on a batch with such a
    float [OverflowError], and on these batches it raises nothing else.
    The decimal digits of the runtime are taken to have values below ten
    and to be no whitespace. *)
Theorem clean_course_data_returns (courses : list CourseRecord) (st : stats) :
  Forall within_digit_limit courses →
  ((∃ enhanced, (clean_course_data courses st).1 = Ok enhanced)
   ↔ courses ≠ [] ∧ Forall finite_numbers courses)
  ∧ ∀ e, (clean_course_data courses st).1 = Raise e →
         (courses = [] ∧ e = ZeroDivisionError)
         ∨ (¬ Forall finite_numbers courses ∧ e = OverflowError).
Proof.
  intros Hlimit.
  assert (∀ cleaned, mapM clean_single_course courses = Ok cleaned →
                     Forall finite_numbers courses) as Hfinite.
  { intros cleaned Hclean%mapM_result_Ok. clear -Hclean.
    induction Hclean as [|raw c courses cleaned Hc Hclean IH]; constructor;
      [by eapply clean_single_course_finite|done]. }
  split; [split|].
  - intros [enhanced Hrun].
    destruct (clean_course_data courses st) as [r st'] eqn:Heq.
    simpl in Hrun. subst r.
    destruct (clean_course_data_stages _ _ _ _ Heq)
      as (cleaned & _ & _ & _ & _ & Hclean & _ & _ & _ & _ & Hne).
    split; [done|]. by eapply Hfinite.
  - intros [Hne Hfin].
    destruct (clean_course_data_completes uni_decimal_digit courses st Hne
                Hfin Hlimit) as (enhanced & st' & -> & _).
    by exists enhanced.
  - intros e Hrun. destruct courses as [|c courses]; [left|right].
    { split; [done|]. simpl in Hrun. by injection Hrun as <-. }
    destruct (mapM clean_single_course (c :: courses)) as [cleaned|e']
      eqn:Hclean.
    + destruct (clean_course_data_completes uni_decimal_digit (c :: courses)
                  st) as (enhanced & st' & Heq & _);
        [done|by eapply Hfinite|done|]. by rewrite Heq in Hrun.
    + assert (e = e') as ->.
      { unfold clean_course_data in Hrun.
        rewrite (M_bind_Ok _ _ st
                   (set_total_records (length (c :: courses)) st) tt)
          in Hrun by done.
        unfold mbind at 1, M_bind at 1, lift in Hrun. rewrite Hclean in Hrun.
        by injection Hrun as <-. }
      apply mapM_result_Raise_inv in Hclean as (x & Hx & Hraise).
      rewrite Forall_forall in Hlimit.
      split; [|by eapply clean_single_course_Raise; [apply Hlimit|]].
      intros Hall. rewrite Forall_forall in Hall.
      destruct (clean_single_course_total x (Hall x Hx) (Hlimit x Hx))
        as (y & Hy & _).
      congruence.
Qed.

End Returns.

(** X14 on the batch of one scraped record. *)
Lemma clean_course_data_returns_witness :
  ((∃ enhanced,
      (clean_course_data (R := ascii_runtime) [physics_raw] init_stats).1
      = Ok enhanced)
   ↔ [physics_raw] ≠ [] ∧ Forall finite_numbers [physics_raw])
  ∧ ∀ e, (clean_course_data (R := ascii_runtime) [physics_raw] init_stats).1
         = Raise e →
         ([physics_raw] = [] ∧ e = ZeroDivisionError)
         ∨ (¬ Forall finite_numbers [physics_raw] ∧ e = OverflowError).
Proof.
  apply (clean_course_data_returns (R := ascii_runtime)).
  - intros c d Hd. discriminate Hd.
  - apply Forall_cons. split; [|by apply Forall_nil].
    apply physics_raw_within_digit_limit.
Defined.

(** ** The categories of the callers *)

Section Categories.
Context {R : PyRuntime}.


(** The loop appends each course to the list of its branch. *)
Lemma for_each_organize_step (courses : list CourseRecord)
    (data data' : categorized_data) :
  for_each organize_step data courses = Ok data' →
  all_courses data' = all_courses data
  ∧ stem_courses data'
    = stem_courses data ++ filter (λ c, course_category c = Ok Stem) courses
  ∧ business_courses data'
    = business_courses data
      ++ filter (λ c, course_category c = Ok Business) courses
  ∧ arts_courses data'
    = arts_courses data ++ filter (λ c, course_category c = Ok Arts) courses
  ∧ health_courses data'
    = health_courses data
      ++ filter (λ c, course_category c = Ok Health) courses
  ∧ education_courses data'
    = education_courses data
      ++ filter (λ c, course_category c = Ok Education) courses
  ∧ general_courses data'
    = general_courses data
      ++ filter (λ c, course_category c = Ok General) courses
  ∧ Forall (λ c, ∃ cat, course_category c = Ok cat) courses.
Proof.
  revert data. induction courses as [|c courses IH]; intros data.
  { intros [= <-]. rewrite !app_nil_r. by repeat split. }
  cbn [for_each].
  destruct (organize_step data c) as [data1|] eqn:Hstep; [|done].
  change (Ok data1 ≫= ?k) with (k data1). cbv beta.
  unfold organize_step in Hstep.
  destruct (course_category c) as [cat|] eqn:Hcat; [|done].
  injection Hstep as <-.
  intros Hrun. destruct (IH _ Hrun) as (H0 & H1 & H2 & H3 & H4 & H5 & H6 & H7).
  rewrite H0, H1, H2, H3, H4, H5, H6. rewrite !filter_cons, Hcat.
  split; [by destruct cat|].
  repeat split; try (constructor; [by exists cat|done]);
    destruct cat; simpl;
    repeat first [rewrite decide_True by done|rewrite decide_False by done];
    by rewrite <- ?(assoc_L (++)).
Qed.

Lemma category_lengths (courses : list CourseRecord) :
  Forall (λ c, ∃ cat, course_category c = Ok cat) courses →
  (length (filter (λ c, course_category c = Ok Stem) courses)
   + length (filter (λ c, course_category c = Ok Business) courses)
   + length (filter (λ c, course_category c = Ok Arts) courses)
   + length (filter (λ c, course_category c = Ok Health) courses)
   + length (filter (λ c, course_category c = Ok Education) courses)
   + length (filter (λ c, course_category c = Ok General) courses)
   = length courses)%nat.
Proof.
  induction 1 as [|c courses [cat Hcat] Hall IH]; [done|].
  rewrite !filter_cons, Hcat.
  destruct cat;
    repeat first [rewrite decide_True by done|rewrite decide_False by done];
    cbn [length]; lia.
Qed.

(** X16. What [clean_and_organize_data] returns: under [all_courses] the
    output of [clean_course_data], and under each of the six other keys
    the courses of that branch, in the order of the output.  Every course
    of the output is in exactly one of the six lists. *)
Theorem clean_and_organize_data_partition (raw_courses : list CourseRecord)
    (data : categorized_data) :
  clean_and_organize_data raw_courses = Ok data →
  (clean_course_data raw_courses init_stats).1 = Ok (all_courses data)
  ∧ stem_courses data
    = filter (λ c, course_category c = Ok Stem) (all_courses data)
  ∧ business_courses data
    = filter (λ c, course_category c = Ok Business) (all_courses data)
  ∧ arts_courses data
    = filter (λ c, course_category c = Ok Arts) (all_courses data)
  ∧ health_courses data
    = filter (λ c, course_category c = Ok Health) (all_courses data)
  ∧ education_courses data
    = filter (λ c, course_category c = Ok Education) (all_courses data)
  ∧ general_courses data
    = filter (λ c, course_category c = Ok General) (all_courses data)
  ∧ (length (stem_courses data) + length (business_courses data)
     + length (arts_courses data) + length (health_courses data)
     + length (education_courses data) + length (general_courses data)
     = length (all_courses data))%nat.
Proof.
  unfold clean_and_organize_data.
  destruct (clean_course_data raw_courses init_stats).1 as [cleaned|];
    [|done].
  change (Ok cleaned ≫= ?k) with (k cleaned). cbv beta zeta.
  intros Hrun. apply for_each_organize_step in Hrun
    as (H0 & H1 & H2 & H3 & H4 & H5 & H6 & H7).
  simpl in *. rewrite H0, H1, H2, H3, H4, H5, H6.
  repeat split. by apply category_lengths.
Qed.

End Categories.


(** X16 on the batch of the two "BEng" records. *)
Lemma clean_and_organize_data_partition_witness :
  (clean_course_data (R := ascii_runtime) [beng_text; beng_numbers]
     init_stats).1 = Ok (all_courses beng_organized)
  ∧ stem_courses beng_organized
    = filter (λ c, course_category (R := ascii_runtime) c = Ok Stem)
        (all_courses beng_organized)
  ∧ business_courses beng_organized
    = filter (λ c, course_category (R := ascii_runtime) c = Ok Business)
        (all_courses beng_organized)
  ∧ arts_courses beng_organized
    = filter (λ c, course_category (R := ascii_runtime) c = Ok Arts)
        (all_courses beng_organized)
  ∧ health_courses beng_organized
    = filter (λ c, course_category (R := ascii_runtime) c = Ok Health)
        (all_courses beng_organized)
  ∧ education_courses beng_organized
    = filter (λ c, course_category (R := ascii_runtime) c = Ok Education)
        (all_courses beng_organized)
  ∧ general_courses beng_organized
    = filter (λ c, course_category (R := ascii_runtime) c = Ok General)
        (all_courses beng_organized)
  ∧ (length (stem_courses beng_organized)
     + length (business_courses beng_organized)
     + length (arts_courses beng_organized)
     + length (health_courses beng_organized)
     + length (education_courses beng_organized)
     + length (general_courses beng_organized)
     = length (all_courses beng_organized))%nat.
Proof.
  apply (clean_and_organize_data_partition (R := ascii_runtime)
           [beng_text; beng_numbers]).
  vm_compute. reflexivity.
Defined.

Section OrganizeReturns.
Context {R : PyRuntime}.

Lemma organize_step_total (course : CourseRecord) (data : categorized_data) :
  is_text (course !! "tags"%string) →
  ∃ data', organize_step data course = Ok data'.
Proof.
  intros Hc. unfold organize_step, course_category.
  destruct (get_or_text course "tags" [] Hc) as [tags ->]. cbn [py_lower].
  change (Ok (lower tags) ≫= ?k) with (k (lower tags)). cbv beta.
  destruct (contains (lit "stem") _); [by eexists|].
  destruct (contains (lit "business") _); [by eexists|].
  destruct (contains (lit "arts") _); [by eexists|].
  destruct (contains (lit "health") _); [by eexists|].
  destruct (contains (lit "education") _); by eexists.
Qed.

Lemma for_each_organize_step_total (courses : list CourseRecord)
    (data : categorized_data) :
  Forall (λ c, is_text (c !! "tags"%string)) courses →
  ∃ data', for_each organize_step data courses = Ok data'.
Proof.
  intros Hall. revert data.
  induction Hall as [|c courses Hc Hall IH]; intros data; [by eexists|].
  destruct (organize_step_total c data Hc) as [data1 Hstep].
  rewrite (for_each_cons_Ok _ _ _ _ _ Hstep). apply IH.
Qed.

(** X17. The loop of the callers raises on nothing [clean_course_data]
    returns: whenever the cleaner returns, [clean_and_organize_data]
    does. *)
Theorem clean_and_organize_data_returns (raw_courses : list CourseRecord)
    (cleaned : list CourseRecord) :
  (clean_course_data raw_courses init_stats).1 = Ok cleaned →
  ∃ data, clean_and_organize_data raw_courses = Ok data.
Proof.
  intros Hrun. unfold clean_and_organize_data. rewrite Hrun.
  change (Ok cleaned ≫= ?k) with (k cleaned). cbv beta zeta.
  apply for_each_organize_step_total.
  destruct (clean_course_data raw_courses init_stats) as [r st'] eqn:Heq.
  simpl in Hrun. subst r.
  destruct (clean_course_data_stages _ _ _ _ Heq)
    as (_ & _ & unique & _ & _ & _ & _ & _ & Henh & _).
  apply mapM_result_Ok in Henh. clear -Henh.
  induction Henh as [|c e unique enhanced He Henh IH]; constructor; [|done].
  destruct (enhance_course_data_tags _ _ He) as (tags & _ & ->). done.
Qed.

End OrganizeReturns.

(** X17 on the batch of the two "BEng" records. *)
Lemma clean_and_organize_data_returns_witness :
  ∃ data,
    clean_and_organize_data (R := ascii_runtime) [beng_text; beng_numbers]
    = Ok data.
Proof.
  apply (clean_and_organize_data_returns (R := ascii_runtime)
           [beng_text; beng_numbers] [beng_enhanced]).
  vm_compute. reflexivity.
Defined.

(** ** [helpers.clean_text] *)

Section HelperCleanText.

Lemma split_ws_space (c : N) (s : str) :
  is_space c = true → split_ws (c :: s) = split_ws s.
Proof. intros Hc. simpl. by rewrite Hc. Qed.

Lemma split_ws_cons (c d : N) (s : str) :
  is_space c = false → is_space d = false →
  split_ws (c :: d :: s)
  = match split_ws (d :: s) with
    | w :: ws => (c :: w) :: ws
    | [] => [[c]]
    end.
Proof. intros Hc Hd. simpl. by rewrite Hc, Hd. Qed.

Lemma split_ws_cons_space (c d : N) (s : str) :
  is_space c = false → is_space d = true →
  split_ws (c :: d :: s) = [c] :: split_ws s.
Proof. intros Hc Hd. simpl. by rewrite Hc, Hd. Qed.

(** A word followed by whitespace is the first word of the split. *)
Lemma split_ws_word (w : str) (d : N) (rest : str) :
  is_clean_word [] w → is_space d = true →
  split_ws (w ++ d :: rest) = w :: split_ws rest.
Proof.
  intros [Hne Hw] Hd. induction w as [|c w IH]; [done|]. clear Hne.
  apply Forall_cons in Hw as [[Hc _] Hw].
  destruct w as [|c2 w].
  - by apply split_ws_cons_space.
  - pose proof Hw as Hw'. apply Forall_cons in Hw' as [[Hc2 _] _].
    specialize (IH ltac:(done) Hw).
    change ((c :: c2 :: w) ++ d :: rest) with (c :: c2 :: w ++ d :: rest).
    rewrite split_ws_cons by done.
    change (c2 :: w ++ d :: rest) with ((c2 :: w) ++ d :: rest).
    by rewrite IH.
Qed.

Lemma split_ws_one (w : str) : is_clean_word [] w → split_ws w = [w].
Proof.
  intros [Hne Hw]. induction w as [|c w IH]; [done|]. clear Hne.
  apply Forall_cons in Hw as [[Hc _] Hw].
  destruct w as [|c2 w].
  - simpl. by rewrite Hc.
  - pose proof Hw as Hw'. apply Forall_cons in Hw' as [[Hc2 _] _].
    specialize (IH ltac:(done) Hw).
    rewrite split_ws_cons by done. by rewrite IH.
Qed.

Lemma split_ws_join (ws : list str) :
  Forall (is_clean_word []) ws → split_ws (join (lit " ") ws) = ws.
Proof.
  induction 1 as [|w ws Hw Hws IH]; [done|].
  destruct ws as [|w2 ws]; [by apply split_ws_one|].
  change (join (lit " ") (w :: w2 :: ws))
    with (w ++ 32 :: join (lit " ") (w2 :: ws)).
  rewrite split_ws_word by done. by rewrite IH.
Qed.

Lemma split_ws_words (s : str) : Forall (is_clean_word []) (split_ws s).
Proof.
  induction s as [|c s IH]; [constructor|].
  destruct (is_space c) eqn:Hc; [by rewrite split_ws_space|].
  assert (is_clean_word [] [c]) as Hone.
  { split; [done|]. repeat constructor; [done|apply not_elem_of_nil]. }
  destruct s as [|d s]; [simpl; rewrite Hc; by constructor|].
  destruct (is_space d) eqn:Hd.
  { rewrite split_ws_cons_space by done. constructor; [done|].
    by rewrite split_ws_space in IH. }
  rewrite split_ws_cons by done.
  destruct (split_ws (d :: s)) as [|w ws]; [by constructor|].
  apply Forall_cons in IH as [[Hne Hw] Hws]. constructor; [|done].
  split; [done|]. constructor; [|done]. split; [done|apply not_elem_of_nil].
Qed.

Lemma replace_absent (old : N) (new s : str) :
  Forall (λ c, c ≠ old) s → replace old new s = s.
Proof.
  induction 1 as [|c s Hc Hs IH]; [done|].
  unfold replace in *. rewrite bind_cons, IH.
  by destruct (N.eqb_spec c old).
Qed.

Lemma replace_app (old : N) (new s t : str) :
  replace old new (s ++ t) = replace old new s ++ replace old new t.
Proof. unfold replace. apply bind_app. Qed.

Lemma replace_join (old : N) (new : str) (ws : list str) :
  old ≠ 32 →
  replace old new (join (lit " ") ws)
  = join (lit " ") (replace old new <$> ws).
Proof.
  intros Hold. induction ws as [|w ws IH]; [done|].
  destruct ws as [|w2 ws]; [done|].
  change (join (lit " ") (w :: w2 :: ws))
    with (w ++ [32] ++ join (lit " ") (w2 :: ws)).
  rewrite !replace_app, IH.
  assert (replace old new [32] = [32]) as ->; [|done].
  apply replace_absent. repeat constructor. by intros <-.
Qed.

(** Replacing one character by another keeps a word a word. *)
Lemma replace_clean_word (avoid : list N) (old new : N) (w : str) :
  is_space new = false → new ∉ avoid →
  is_clean_word avoid w → is_clean_word avoid (replace old [new] w).
Proof.
  intros Hnew Havoid [Hne Hw]. split.
  - destruct w as [|c w]; [done|]. unfold replace. rewrite bind_cons.
    by destruct (c =? old).
  - apply replace_Forall; [by repeat constructor|done].
Qed.

Lemma join_Forall (P : N → Prop) (ws : list str) :
  P 32 → Forall (Forall P) ws → Forall P (join (lit " ") ws).
Proof.
  intros Hsp. induction 1 as [|w ws Hw Hws IH]; [constructor|].
  destruct ws as [|w2 ws]; [done|].
  change (join (lit " ") (w :: w2 :: ws))
    with (w ++ 32 :: join (lit " ") (w2 :: ws)).
  apply Forall_app. split; [done|]. by constructor.
Qed.

Lemma join_head (avoid : list N) (ws : list str) :
  Forall (is_clean_word avoid) ws →
  match join (lit " ") ws with c :: _ => is_space c = false | [] => True end.
Proof.
  destruct 1 as [|w rest [Hne Hw] Hws]; [done|].
  destruct w as [|c w]; [done|]. apply Forall_cons in Hw as [[Hc _] _].
  by destruct rest.
Qed.

Lemma join_last (avoid : list N) (ws : list str) :
  Forall (is_clean_word avoid) ws →
  match last (join (lit " ") ws) with
  | Some c => is_space c = false
  | None => True
  end.
Proof.
  induction 1 as [|w ws [Hne Hw] Hws IH]; [done|].
  destruct ws as [|w2 ws].
  - cbn [join]. destruct (last w) as [c|] eqn:Hl; [|done].
    apply last_Some in Hl as [w' ->]. rewrite Forall_app in Hw.
    destruct Hw as [_ Hc]. by apply Forall_cons in Hc as [[? _] _].
  - change (join (lit " ") (w :: w2 :: ws))
      with (w ++ 32 :: join (lit " ") (w2 :: ws)).
    rewrite last_app. rewrite last_cons.
    destruct (last (join (lit " ") (w2 :: ws))) as [c|] eqn:Hl; [done|].
    apply last_None in Hl. apply Forall_cons in Hws as [[Hne2 _] _].
    destruct w2; [done|]. by destruct ws.
Qed.

Lemma strip_fixed (s : str) :
  match s with c :: _ => is_space c = false | [] => True end →
  match last s with Some c => is_space c = false | None => True end →
  strip s = s.
Proof.
  intros Hhead Hlast. unfold strip, rstrip. rewrite (lstrip_fixed s) by done.
  rewrite lstrip_fixed; [apply reverse_involutive|].
  destruct (reverse s) as [|c r] eqn:Hr; [done|].
  rewrite <- (reverse_involutive s), Hr, reverse_cons, last_snoc in Hlast.
  done.
Qed.

(** The four replacements on words joined by spaces: the words, quotes
    replaced, joined by spaces. *)
Lemma clean_words_join (s : str) :
  ∃ words,
    replace 0x201D [34]
      (replace 0x201C [34]
         (replace 0x2019 (lit "'")
            (replace 0x00A0 (lit " ") (join (lit " ") (split_ws s)))))
    = join (lit " ") words
    ∧ Forall (is_clean_word replaced_by_clean_text) words.
Proof.
  pose proof (split_ws_words s) as Hwords.
  set (ws := split_ws s) in *.
  assert (Forall (λ w, Forall (λ c, c ≠ 0xA0) w) ws) as HA0.
  { eapply Forall_impl; [exact Hwords|]. intros w [_ Hw].
    eapply Forall_impl; [exact Hw|]. intros c [Hc _] ->. done. }
  rewrite (replace_absent 0xA0).
  2:{ apply join_Forall; [done|exact HA0]. }
  rewrite !replace_join by done.
  set (r2 := replace 0x2019 (lit "'")). set (r3 := replace 0x201C [34]).
  set (r4 := replace 0x201D [34]).
  exists (r4 <$> (r3 <$> (r2 <$> ws))). split; [done|].
  rewrite <- !list_fmap_compose. apply Forall_fmap.
  apply Forall_forall. intros w Hin. rewrite Forall_forall in Hwords, HA0.
  destruct (Hwords w Hin) as [Hne Hw]. specialize (HA0 w Hin).
  assert (is_clean_word [] ((r4 ∘ r3 ∘ r2) w)) as [Hne' Hw'].
  { do 3 (apply replace_clean_word;
            [done|apply not_elem_of_nil|]). done. }
  split; [done|]. apply Forall_forall. intros c Hc. split.
  { rewrite Forall_forall in Hw'. by apply Hw'. }
  unfold replaced_by_clean_text.
  intros [->|[->|[->|[->|[]%elem_of_nil]%elem_of_cons]%elem_of_cons]
            %elem_of_cons]%elem_of_cons; revert Hc; simpl.
  - assert (Forall (λ c, c ≠ 0xA0) (r4 (r3 (r2 w)))) as H;
      [|rewrite Forall_forall in H; intros Hc; by apply (H _ Hc)].
    do 3 (apply replace_Forall; [by repeat constructor|]). done.
  - assert (Forall (λ c, c ≠ 0x2019) (r4 (r3 (r2 w)))) as H;
      [|rewrite Forall_forall in H; intros Hc; by apply (H _ Hc)].
    do 2 (apply replace_Forall; [by repeat constructor|]).
    apply Forall_forall. intros c Hc ->. revert Hc.
    apply replace_removes. by_decision.
  - assert (Forall (λ c, c ≠ 0x201C) (r4 (r3 (r2 w)))) as H;
      [|rewrite Forall_forall in H; intros Hc; by apply (H _ Hc)].
    do 1 (apply replace_Forall; [by repeat constructor|]).
    apply Forall_forall. intros c Hc ->. revert Hc.
    apply replace_removes. by_decision.
  - apply replace_removes. by_decision.
Qed.

Lemma join_words_strip (avoid : list N) (words : list str) :
  Forall (is_clean_word avoid) words →
  strip (join (lit " ") words) = join (lit " ") words.
Proof.
  intros Hwords. apply strip_fixed; [by eapply join_head|by eapply join_last].
Qed.

(** What [clean_text] makes of a text: the words of the text, quotes
    replaced, joined by single spaces. *)
Lemma clean_text_words (s : str) :
  ∃ words, clean_text (VStr s) = Ok (join (lit " ") words)
           ∧ Forall (is_clean_word replaced_by_clean_text) words.
Proof.
  unfold clean_text. destruct s as [|c0 s0]; [by exists []|].
  cbn [truthy negb py_strip]. set (s := c0 :: s0).
  change (Ok (strip s) ≫= ?k) with (k (strip s)). cbv beta zeta.
  destruct (clean_words_join (strip s)) as (words & -> & Hwords).
  exists words. split; [|done]. f_equal. by eapply join_words_strip.
Qed.

(** A text in that form is returned as it is. *)
Lemma clean_text_fixed (words : list str) :
  Forall (is_clean_word replaced_by_clean_text) words →
  clean_text (VStr (join (lit " ") words)) = Ok (join (lit " ") words).
Proof.
  intros Hwords. unfold clean_text.
  destruct (join (lit " ") words) as [|c0 t0] eqn:Ht; [done|].
  cbn [truthy negb py_strip]. rewrite <- Ht. clear c0 t0 Ht.
  change (Ok ?a ≫= ?k) with (k a). cbv beta zeta.
  pose proof (join_words_strip _ _ Hwords) as Hstrip.
  rewrite Hstrip, split_ws_join.
  2:{ eapply Forall_impl; [exact Hwords|]. intros w [Hne Hw]. split; [done|].
      eapply Forall_impl; [exact Hw|]. intros c [Hc _].
      split; [done|apply not_elem_of_nil]. }
  assert (∀ old, old ∈ replaced_by_clean_text →
                 Forall (λ c, c ≠ old) (join (lit " ") words)) as Habsent.
  { intros old Hold. apply join_Forall.
    - intros <-. revert Hold. by_decision.
    - eapply Forall_impl; [exact Hwords|]. intros w [_ Hw].
      eapply Forall_impl; [exact Hw|]. intros c [_ Hc] ->. done. }
  rewrite (replace_absent 0xA0) by (apply Habsent; by_decision).
  rewrite (replace_absent 0x2019) by (apply Habsent; by_decision).
  rewrite (replace_absent 0x201C) by (apply Habsent; by_decision).
  rewrite (replace_absent 0x201D) by (apply Habsent; by_decision).
  by rewrite Hstrip.
Qed.

Lemma clean_text_normal (text : value) (cleaned : str) :
  clean_text text = Ok cleaned →
  ∃ words, cleaned = join (lit " ") words
           ∧ Forall (is_clean_word replaced_by_clean_text) words.
Proof.
  intros Hrun. destruct (truthy text) eqn:Ht.
  - destruct text as [| | | |s];
      try (unfold clean_text in Hrun; rewrite Ht in Hrun; done).
    destruct (clean_text_words s) as (words & Heq & Hwords).
    rewrite Heq in Hrun. injection Hrun as <-. by exists words.
  - unfold clean_text in Hrun. rewrite Ht in Hrun. injection Hrun as <-.
    by exists [].
Qed.

(** X18. What [clean_text] returns is a sequence of words joined by
    single spaces, a word being a run of characters that are neither
    whitespace nor one of the four characters the function replaces; and
    [clean_text] returns such a text as it is, so cleaning twice is cleaning
    once. *)
Theorem clean_text_idempotent (text : value) (cleaned : str) :
  clean_text text = Ok cleaned →
  (∃ words, cleaned = join (lit " ") words
            ∧ Forall (is_clean_word replaced_by_clean_text) words)
  ∧ clean_text (VStr cleaned) = Ok cleaned.
Proof.
  intros (words & -> & Hwords)%clean_text_normal.
  split; [by exists words|by apply clean_text_fixed].
Qed.

End HelperCleanText.

(** X18 on a text with a run of spaces and an apostrophe. *)
Lemma clean_text_idempotent_witness :
  (∃ words, lit "Master's degree" = join (lit " ") words
            ∧ Forall (is_clean_word replaced_by_clean_text) words)
  ∧ clean_text (VStr (lit "Master's degree")) = Ok (lit "Master's degree").
Proof.
  apply (clean_text_idempotent (VStr (lit " Master's  degree "))).
  reflexivity.
Defined.

(** ** [helpers.normalize_course_code] before the cleaner *)

Section NormalizeCode.
Context {R : PyRuntime}.

Lemma upper_char_facts (c : N) :
  is_ascii c = true →
  is_ascii (upper_char c) = true
  ∧ is_lower_az (upper_char c) = false
  ∧ is_space (upper_char c) = is_space c.
Proof.
  unfold upper_char, is_ascii. intros Hc%N.ltb_lt.
  destruct (is_lower_az c) eqn:Hl.
  - unfold is_lower_az, in_range in *. apply andb_true_iff in Hl as [H1 H2].
    apply N.leb_le in H1, H2. split; [apply N.ltb_lt; lia|]. split.
    + apply andb_false_iff. left. apply N.leb_gt. lia.
    + unfold is_space, in_range.
      assert (∀ a b x, (x < a ∨ b < x) → (a <=? x) && (x <=? b) = false)
        as Hout.
      { intros a b x [?|?]; apply andb_false_iff;
          [left|right]; apply N.leb_gt; lia. }
      rewrite !Hout by lia.
      by repeat (rewrite (proj2 (N.eqb_neq _ _)) by lia).
  - split; [by apply N.ltb_lt|done].
Qed.

Lemma upper_ascii (s : str) :
  forallb is_ascii s = true → upper s = upper_char <$> s.
Proof. intros Hs. unfold upper. by rewrite Hs. Qed.

(** On ASCII text, stripping then uppercasing a second time changes
    nothing. *)
Lemma upper_strip_fixed (s : str) :
  forallb is_ascii s = true →
  upper (strip (upper (strip s))) = upper (strip s).
Proof.
  intros Hs.
  assert (Forall (λ c, is_ascii c = true) (strip s)) as Hstrip.
  { apply strip_Forall, Forall_forall. intros c Hc%list_elem_of_In.
    rewrite forallb_forall in Hs. by apply Hs. }
  rewrite (upper_ascii (strip s)).
  2:{ apply forallb_forall. intros c Hc%list_elem_of_In.
      rewrite Forall_forall in Hstrip. by apply Hstrip. }
  destruct (strip_ends s) as [Hhead Hlast].
  rewrite strip_fixed.
  - apply upper_no_lower, Forall_fmap.
    eapply Forall_impl; [exact Hstrip|]. intros c Hc. simpl.
    by destruct (upper_char_facts c Hc) as (? & ? & _).
  - destruct (strip s) as [|c t]; [done|]. simpl.
    apply Forall_cons in Hstrip as [Hc _].
    destruct (upper_char_facts c Hc) as (_ & _ & ->). done.
  - rewrite fmap_last. destruct (last (strip s)) as [c|] eqn:Hl; [|done].
    simpl. assert (is_ascii c = true) as Hc.
    { rewrite Forall_forall in Hstrip. apply Hstrip.
      apply last_Some in Hl as [t ->]. apply elem_of_app. right. by left. }
    destruct (upper_char_facts c Hc) as (_ & _ & ->). done.
Qed.

Lemma standardize_after_normalize (code normalized : str) :
  forallb is_ascii code = true →
  normalize_course_code (VStr code) = Ok normalized →
  standardize_cao_code (VStr normalized) = standardize_cao_code (VStr code).
Proof.
  intros Hascii. unfold normalize_course_code.
  destruct code as [|c0 code0]; [by intros [= <-]|].
  cbn [truthy negb py_strip]. set (code := c0 :: code0) in *.
  change (Ok (strip code) ≫= ?k) with (k (strip code)). cbv beta zeta.
  pose proof (upper_strip_fixed code Hascii) as Hfixed.
  set (u := upper (strip code)) in *.
  assert (standardize_cao_code (VStr code)
          = match re_search re_cao u with
            | Some (_, [g1; g2]) => g1 ++ g2
            | _ => match u with [] => [] | _ => re_sub re_not_AZ09 [] u end
            end) as ->.
  { done. }
  assert (standardize_cao_code (VStr u)
          = match re_search re_cao u with
            | Some (_, [g1; g2]) => g1 ++ g2
            | _ => match u with [] => [] | _ => re_sub re_not_AZ09 [] u end
            end) as Hu.
  { unfold standardize_cao_code. destruct u as [|c1 u1] eqn:Heq; [done|].
    cbn [truthy negb py_str]. by rewrite Hfixed. }
  destruct (re_search re_cao u) as [[i pieces]|] eqn:Hsearch.
  2:{ by intros [= <-]. }
  destruct pieces as [|g1 [|g2 [|g3 pieces]]]; try by intros [= <-].
  intros [= <-].
  apply search_from_Some in Hsearch as (k & _ & Hk & Hm & _).
  apply match_items_sound in Hm as [Hfit [rest Hrest]].
  apply cao_shape_pieces in Hfit.
  apply canonical_code_fixed; [done|].
  assert (Forall (λ c, is_ascii c = true) u) as Hu_ascii.
  { subst u. rewrite upper_ascii.
    - apply Forall_fmap, strip_Forall, Forall_forall.
      intros c Hc%list_elem_of_In. rewrite forallb_forall in Hascii.
      simpl. by destruct (upper_char_facts c (Hascii c Hc)) as (? & _).
    - apply forallb_forall. intros c Hc%list_elem_of_In.
      assert (Forall (λ c, is_ascii c = true) (strip code)) as Hs.
      { apply strip_Forall, Forall_forall. intros d Hd%list_elem_of_In.
        rewrite forallb_forall in Hascii. by apply Hascii. }
      rewrite Forall_forall in Hs. by apply Hs. }
  destruct Hfit as (_ & _ & _ & Hdigits).
  apply forallb_forall. intros c Hc. rewrite forallb_forall in Hdigits.
  specialize (Hdigits c Hc). unfold is_digit in Hdigits.
  assert (is_ascii c = true) as Hca; [|by rewrite Hca in Hdigits].
  rewrite Forall_forall in Hu_ascii. apply Hu_ascii.
  rewrite <- (take_drop k u), Hrest. simpl. rewrite app_nil_r.
  apply list_elem_of_In in Hc. rewrite !elem_of_app. auto.
Qed.

(** X19. On ASCII text, what [normalize_course_code] makes of a code is
    standardized by the cleaner to the same code as the text itself: the
    scrapers' normalization changes nothing of what [standardize_cao_code]
    returns. *)
Theorem normalize_then_standardize (code normalized : str) :
  forallb is_ascii code = true →
  normalize_course_code (VStr code) = Ok normalized →
  standardize_cao_code (VStr normalized) = standardize_cao_code (VStr code).
Proof. apply standardize_after_normalize. Qed.

End NormalizeCode.

(** X19 on a code written with a space and in lower case. *)
Lemma normalize_then_standardize_witness :
  standardize_cao_code (R := ascii_runtime) (VStr (lit "TU 856"))
  = standardize_cao_code (R := ascii_runtime) (VStr (lit " tu 856 ")).
Proof.
  apply (normalize_then_standardize (R := ascii_runtime)
           (lit " tu 856 ") (lit "TU 856")); reflexivity.
Defined.

(** ** [fix_questions.py]: the paper of a question *)

Section Papers.
Context {R : PyRuntime}.

Lemma get_year_from_content_eq (content : str) :
  get_year_from_content content = first_year_in years_sought content 2024.
Proof. reflexivity. Qed.

Lemma first_year_in_cases (years : list Z) (content : str) (default : Z) :
  (∃ before after,
     years = before ++ first_year_in years content default :: after
     ∧ contains (str_of_Z (first_year_in years content default)) content = true
     ∧ Forall (λ y, contains (str_of_Z y) content = false) before)
  ∨ (first_year_in years content default = default
     ∧ Forall (λ y, contains (str_of_Z y) content = false) years).
Proof.
  induction years as [|y years IH]; [by right|]. simpl.
  destruct (contains (str_of_Z y) content) eqn:Hy.
  - left. by exists [], years.
  - destruct IH as [(before & after & Heq & Hc & Hb)|[Heq Hall]].
    + left. exists (y :: before), after. rewrite Heq at 1.
      repeat split; [done|by constructor].
    + right. split; [done|by constructor].
Qed.

Lemma years_sought_range (year : Z) :
  year ∈ years_sought ↔ (2005 ≤ year ≤ 2025)%Z.
Proof.
  unfold years_sought. rewrite elem_of_reverse, elem_of_seqZ. lia.
Qed.

Lemma years_sought_descending (before after : list Z) (year y : Z) :
  years_sought = before ++ year :: after → y ∈ after → (y < year)%Z.
Proof.
  unfold years_sought. intros Heq Hy.
  apply (f_equal reverse) in Heq.
  rewrite reverse_involutive, reverse_app, reverse_cons in Heq.
  rewrite <- (assoc_L (++)) in Heq. simpl in Heq.
  apply elem_of_reverse in Hy.
  apply list_elem_of_lookup in Hy as [i Hi].
  assert (seqZ 2005 21 !! i = Some y) as H1.
  { rewrite Heq. by apply lookup_app_l_Some. }
  assert (seqZ 2005 21 !! (length (reverse after) + 0)%nat = Some year) as H2.
  { rewrite Heq. by rewrite lookup_app_r, Nat.add_0_r, Nat.sub_diag by lia. }
  apply lookup_lt_Some in Hi as Hlt.
  apply lookup_seqZ in H1 as [-> _], H2 as [-> _]. lia.
Qed.

(** X20. The year [get_year_from_content] gives a question is between
    2005 and 2025.  When the content holds the digits of a year of that
    range, it is the latest such year; when it holds none, it is 2024. *)
Theorem get_year_from_content_latest (content : str) :
  (2005 ≤ get_year_from_content content ≤ 2025)%Z
  ∧ (∀ year, (2005 ≤ year ≤ 2025)%Z →
       contains (str_of_Z year) content = true →
       (year ≤ get_year_from_content content)%Z
       ∧ contains (str_of_Z (get_year_from_content content)) content = true)
  ∧ ((∀ year, (2005 ≤ year ≤ 2025)%Z →
        contains (str_of_Z year) content = false) →
     get_year_from_content content = 2024%Z).
Proof.
  rewrite get_year_from_content_eq.
  destruct (first_year_in_cases years_sought content 2024)
    as [(before & after & Hyears & Hc & Hb)|[-> Hnone]].
  - set (found := first_year_in years_sought content 2024) in *.
    assert (found ∈ years_sought) as Hin.
    { rewrite Hyears. apply elem_of_app. right. by left. }
    apply years_sought_range in Hin. split; [done|]. split.
    + intros year Hyear Hyc. split; [|done].
      apply years_sought_range in Hyear. rewrite Hyears in Hyear.
      apply elem_of_app in Hyear as [Hy|[->|Hy]%elem_of_cons].
      * rewrite Forall_forall in Hb. rewrite (Hb year Hy) in Hyc. done.
      * lia.
      * pose proof (years_sought_descending _ _ _ _ Hyears Hy). lia.
    + intros Hnone. rewrite Hnone in Hc by done. done.
  - split; [lia|]. split; [|done].
    intros year Hyear%years_sought_range Hyc.
    rewrite Forall_forall in Hnone. rewrite (Hnone year Hyear) in Hyc. done.
Qed.

Lemma get_year_from_content_sought (content : str) :
  get_year_from_content content ∈ years_sought.
Proof.
  rewrite get_year_from_content_eq.
  destruct (first_year_in_cases years_sought content 2024)
    as [(before & after & Hyears & _)|[-> _]].
  - rewrite Hyears at 2. apply elem_of_app. right. by left.
  - by_decision.
Qed.

Lemma source_type_cases (content source : str) :
  (if contains (lit "Deferred") content then lit "deferred"
   else get_source_type source) ∈ paper_types.
Proof.
  unfold get_source_type. destruct (contains _ content); [by_decision|].
  destruct (bool_decide _); [by_decision|].
  destruct (bool_decide _); by_decision.
Qed.

(** The table, entry by entry and year by year. *)
Lemma find_paper_table :
  Forall (λ p, find_paper p.1.1 p.1.2 = p.2) PAPERS
  ∧ Forall (λ year,
       Forall (λ kind, (year, find_paper year kind) ∈ papers_by_year)
         paper_types) years_sought.
Proof. split; by_decision. Qed.

(** X21. The paper [get_correct_paper_id] gives a question is a paper of
    [PAPERS] of the year [get_year_from_content] finds in its content: the
    last fallback, paper 2 whatever the year, is never reached.  When
    [PAPERS] has a paper of that year and of the kind of the question,
    deferred when the content says so, else mock or state by the source, it
    is that paper. *)
Theorem get_correct_paper_id_of_year (content source : str) :
  (get_year_from_content content, get_correct_paper_id content source)
    ∈ papers_by_year
  ∧ ∀ kind paper_id,
      kind = (if contains (lit "Deferred") content then lit "deferred"
              else get_source_type source) →
      ((get_year_from_content content, kind), paper_id) ∈ PAPERS →
      get_correct_paper_id content source = paper_id.
Proof.
  destruct find_paper_table as [Hentries Hyears].
  unfold get_correct_paper_id. cbv zeta. split.
  - rewrite Forall_forall in Hyears.
    specialize (Hyears _ (get_year_from_content_sought content)).
    rewrite Forall_forall in Hyears.
    apply Hyears, source_type_cases.
  - intros kind paper_id -> Hin. rewrite Forall_forall in Hentries.
    apply (Hentries _ Hin).
Qed.

End Papers.

(** ** [helpers.extract_year_from_text] *)

Section Years.
Context {R : PyRuntime}.

Hypothesis uni_decimal_digit :
  ∀ c d, uni_decimal c = Some d → d < 10 ∧ is_space c = false.

(** Every string [re.findall] returns is a match of the pattern. *)
Lemma findall_from_elem (p : list item) (skip : nat) (prev : option N)
    (s y : str) :
  y ∈ findall_from p skip prev s →
  ∃ prev' s' pieces, match_items p prev' s' = Some pieces ∧ y = concat pieces.
Proof.
  revert skip prev. induction s as [|c s IH]; intros skip prev;
    [by intros ?%elem_of_nil|].
  simpl. destruct skip as [|k]; [|apply IH].
  destruct (match_items p prev (c :: s)) as [pieces|] eqn:Hm; [|apply IH].
  intros [->|Hy]%elem_of_cons; [by exists prev, (c :: s), pieces|].
  by eapply IH.
Qed.

Lemma piece_one (cls : N → bool) (w : str) :
  piece_ok (Rep cls 1 (Some 1%nat)) w → ∃ c, w = [c] ∧ cls c = true.
Proof.
  intros (Hall & Hlo & Hhi). destruct w as [|c [|c2 w]]; simpl in *; try lia.
  exists c. split; [done|]. by apply andb_true_iff in Hall as [? _].
Qed.

(** A match of [\b(20[2-3]\d)\b] is "20", then 2 or 3, then a digit. *)
Lemma match_year (prev : option N) (s : str) (pieces : list str) :
  match_items re_year prev s = Some pieces →
  ∃ c d, concat pieces = [50; 48; c; d] ∧ in_range 50 51 c = true
         ∧ is_digit d = true.
Proof.
  intros [Hfit _]%match_items_sound. unfold re_year in Hfit.
  apply Forall2_cons_inv_l in Hfit as (w0 & ps & -> & Hfit & ->).
  apply Forall2_cons_inv_l in Hfit as (w1 & ps1 & H1 & Hfit & ->).
  apply Forall2_cons_inv_l in Hfit as (w2 & ps2 & H2 & Hfit & ->).
  apply Forall2_cons_inv_l in Hfit as (w3 & ps3 & H3 & Hfit & ->).
  apply Forall2_cons_inv_l in Hfit as (w4 & ps4 & H4 & Hfit & ->).
  apply Forall2_cons_inv_l in Hfit as (w5 & ps5 & -> & Hfit & ->).
  apply Forall2_nil_inv_l in Hfit as ->.
  apply piece_one in H1 as (c1 & -> & <-%N.eqb_eq).
  apply piece_one in H2 as (c2 & -> & <-%N.eqb_eq).
  apply piece_one in H3 as (c & -> & Hc).
  apply piece_one in H4 as (d & -> & Hd).
  by exists c, d.
Qed.

(** [int] of such a match. *)
Lemma parse_int_year (c d : N) :
  in_range 50 51 c = true → is_digit d = true →
  ∃ year, parse_int [50; 48; c; d] = Some year ∧ (2020 ≤ year ≤ 2039)%Z.
Proof.
  intros Hc Hd. unfold parse_int.
  destruct (to_ascii_digit uni_decimal_digit d Hd) as (a & Ha & Ha09).
  assert (c = 50 ∨ c = 51) as Hc'.
  { unfold in_range in Hc. apply andb_true_iff in Hc as [H1 H2].
    apply N.leb_le in H1, H2. lia. }
  assert (mapM to_ascii [50; 48; c; d] = Some [50; 48; c; a]) as ->.
  { destruct Hc' as [-> | ->]; simpl; by rewrite Ha. }
  unfold is_digit_09, in_range in Ha09. apply andb_true_iff in Ha09 as [H1 H2].
  apply N.leb_le in H1, H2.
  assert (a = 48 ∨ a = 49 ∨ a = 50 ∨ a = 51 ∨ a = 52 ∨ a = 53 ∨ a = 54
          ∨ a = 55 ∨ a = 56 ∨ a = 57) as Hcases by lia.
  clear Ha H1 H2.
  destruct Hc' as [-> | ->];
    repeat (destruct Hcases as [->|Hcases];
            [eexists; split; [reflexivity|lia]|]);
    subst a; eexists; (split; [reflexivity|lia]).
Qed.

(** X22. On a text [extract_year_from_text] returns, and what it returns
    is no year or a year between 2020 and 2039.  The decimal digits of the
    runtime are taken to have values below ten and to be no whitespace. *)
Theorem extract_year_from_text_range (text : value) :
  (∀ s, text = VStr s → ∃ found, extract_year_from_text text = Ok found)
  ∧ ∀ year, extract_year_from_text text = Ok (Some year) →
            (2020 ≤ year ≤ 2039)%Z.
Proof.
  assert (∀ s, ∃ found,
            extract_year_from_text (VStr s) = Ok found
            ∧ ∀ year, found = Some year → (2020 ≤ year ≤ 2039)%Z) as Htext.
  { intros s. unfold extract_year_from_text.
    destruct (truthy (VStr s)); [|by exists None].
    simpl negb. cbv iota.
    destruct (re_findall re_year s) as [|y ys] eqn:Hfind; [by exists None|].
    assert (y ∈ re_findall re_year s) as Hy by (rewrite Hfind; by left).
    apply findall_from_elem in Hy as (prev & s' & pieces & Hm & ->).
    apply match_year in Hm as (c & d & -> & Hc & Hd).
    destruct (parse_int_year c d Hc Hd) as (year & Hyear & Hrange).
    exists (Some year). unfold py_int. rewrite Hyear. split; [done|].
    by intros ? [= <-]. }
  split.
  - intros s ->. destruct (Htext s) as (found & Hfound & _). by exists found.
  - intros year Hrun. destruct text as [| | | |s];
      try (unfold extract_year_from_text in Hrun; simpl in Hrun;
           repeat case_match; done).
    destruct (Htext s) as (found & Hfound & Hrange).
    rewrite Hfound in Hrun. injection Hrun as ->. by apply Hrange.
Qed.

End Years.

(** X22 on a text that names two years. *)
Lemma extract_year_from_text_range_witness :
  (∀ s, VStr (lit "Entry 2025, was 2023") = VStr s →
        ∃ found,
          extract_year_from_text (R := ascii_runtime)
            (VStr (lit "Entry 2025, was 2023")) = Ok found)
  ∧ ∀ year,
      extract_year_from_text (R := ascii_runtime)
        (VStr (lit "Entry 2025, was 2023")) = Ok (Some year) →
      (2020 ≤ year ≤ 2039)%Z.
Proof.
  apply (extract_year_from_text_range (R := ascii_runtime)).
  intros c d Hd. discriminate Hd.
Defined.

(** ** [helpers.clean_text] before the cleaner *)

Section CleanTextTwice.
Context {R : PyRuntime}.

Lemma take_take_while (cls : N → bool) (s : str) :
  take (length (take_while cls s)) s = take_while cls s.
Proof.
  induction s as [|c s IH]; [done|]. simpl.
  destruct (cls c); [|done]. simpl. by rewrite IH.
Qed.

Lemma drop_take_while_space (s : str) :
  drop (length (take_while is_space s)) s = lstrip s.
Proof.
  induction s as [|c s IH]; [done|]. simpl.
  destruct (is_space c); [|done]. simpl. by rewrite IH.
Qed.

(** [\s+] at a character: no match on a character that is no whitespace,
    else the whole run. *)
Lemma match_spaces (prev : option N) (c : N) (s : str) :
  match_items re_spaces prev (c :: s)
  = if is_space c then Some [take_while is_space (c :: s)] else None.
Proof.
  unfold re_spaces. cbn [match_items].
  destruct (is_space c) eqn:Hc.
  - apply first_down_top.
    + simpl. rewrite Hc. simpl. lia.
    + by rewrite take_take_while.
  - simpl. by rewrite Hc.
Qed.

(** Passing over the rest of a match. *)
Lemma sub_from_skip (p : list item) (repl : str) (k : nat) (prev : option N)
    (s : str) :
  (k ≤ length s)%nat →
  ∃ prev', sub_from p repl k prev s = sub_from p repl 0 prev' (drop k s).
Proof.
  revert k prev. induction s as [|c s IH]; intros k prev Hk.
  - exists prev. by destruct k.
  - destruct k as [|k]; [by exists prev|]. simpl in Hk.
    destruct (IH k (Some c)) as [prev' Heq]; [lia|].
    exists prev'. exact Heq.
Qed.

Lemma split_ws_lstrip (s : str) : split_ws (lstrip s) = split_ws s.
Proof.
  induction s as [|c s IH]; [done|]. simpl lstrip.
  destruct (is_space c) eqn:Hc; [|done]. by rewrite split_ws_space.
Qed.

Lemma split_ws_nonempty (c : N) (s : str) :
  is_space c = false → split_ws (c :: s) ≠ [].
Proof.
  intros Hc. destruct s as [|d s]; [simpl; by rewrite Hc|].
  destruct (is_space d) eqn:Hd.
  - by rewrite split_ws_cons_space.
  - rewrite split_ws_cons by done. by destruct (split_ws (d :: s)).
Qed.

Lemma last_lstrip (s : str) (c : N) :
  last s = Some c → is_space c = false → last (lstrip s) = Some c.
Proof.
  intros Hlast Hc. destruct (lstrip_app s) as (spaces & Heq & Hsp).
  destruct (lstrip s) as [|d t] eqn:Hl.
  - rewrite app_nil_r in Heq. subst spaces.
    apply last_Some in Hlast as [t ->]. rewrite forallb_app in Hsp.
    apply andb_true_iff in Hsp as [_ Hsp]. simpl in Hsp.
    rewrite Hc in Hsp. done.
  - rewrite Heq, last_app in Hlast.
    destruct (last (d :: t)) eqn:Hdt; [done|]. by apply last_None in Hdt.
Qed.

(** On a text with no whitespace at its ends, [re.sub(r'\s+', ' ', text)]
    is [' '.join(text.split())]. *)
Lemma sub_spaces_join (n : nat) (s : str) (prev : option N) :
  (length s ≤ n)%nat →
  match s with c :: _ => is_space c = false | [] => True end →
  match last s with Some c => is_space c = false | None => True end →
  sub_from re_spaces (lit " ") 0 prev s = join (lit " ") (split_ws s).
Proof.
  revert s prev. induction n as [|n IH]; intros s prev Hn Hhead Hlast.
  { destruct s; [done|simpl in Hn; lia]. }
  destruct s as [|c s]; [done|]. simpl in Hn.
  cbn [sub_from]. rewrite match_spaces, Hhead.
  destruct s as [|d s]; [simpl; by rewrite Hhead|].
  rewrite last_cons_cons in Hlast.
  destruct (is_space d) eqn:Hd.
  - rewrite split_ws_cons_space by done.
    cbn [sub_from]. rewrite match_spaces, Hd.
    set (run := take_while is_space (d :: s)).
    destruct (sub_from_skip re_spaces (lit " ")
                (pred (length (concat [run]))) (Some d) s) as [prev' ->].
    { subst run. simpl. rewrite Hd, app_nil_r. simpl.
      rewrite <- (take_take_while is_space s), length_take. lia. }
    assert (drop (pred (length (concat [run]))) s = lstrip s) as ->.
    { subst run. simpl. rewrite Hd, app_nil_r. simpl.
      apply drop_take_while_space. }
    destruct (last (d :: s)) as [e|] eqn:Hl;
      [|by apply last_None in Hl].
    assert (last s = Some e) as Hls.
    { destruct s as [|d2 s]; [|by rewrite last_cons_cons in Hl].
      simpl in Hl. injection Hl as <-. by rewrite Hd in Hlast. }
    pose proof (last_lstrip s e Hls Hlast) as Hll.
    rewrite <- (split_ws_lstrip s).
    rewrite (IH (lstrip s) prev').
    + destruct (lstrip s) as [|c2 t] eqn:Ht; [done|].
      pose proof (lstrip_head _ _ _ Ht) as Hc2.
      pose proof (split_ws_nonempty c2 t Hc2) as Hne.
      by destruct (split_ws (c2 :: t)).
    + destruct (lstrip_app s) as (spaces & Heq & _).
      apply (f_equal length) in Heq. rewrite length_app in Heq.
      simpl in Hn. lia.
    + destruct (lstrip s) eqn:Ht; [done|]. by eapply lstrip_head.
    + by rewrite Hll.
  - rewrite split_ws_cons by done.
    rewrite (IH (d :: s) (Some c)) by (simpl in *; (lia || done)).
    pose proof (split_ws_nonempty d s Hd) as Hne.
    destruct (split_ws (d :: s)) as [|w ws]; [done|]. by destruct ws.
Qed.

End CleanTextTwice.

Section CleanTextTwiceField.
Context {R : PyRuntime}.

Lemma clean_words_absent (words : list str) (old : N) :
  Forall (is_clean_word replaced_by_clean_text) words →
  old ∈ replaced_by_clean_text →
  Forall (λ c, c ≠ old) (join (lit " ") words).
Proof.
  intros Hwords Hold. apply join_Forall.
  - intros <-. revert Hold. by_decision.
  - eapply Forall_impl; [exact Hwords|]. intros w [_ Hw].
    eapply Forall_impl; [exact Hw|]. intros c [_ Hc] ->. done.
Qed.

Lemma clean_text_field_after_clean_text (text : value) (cleaned : str) :
  clean_text text = Ok cleaned →
  clean_text_field (VStr cleaned) = clean_text_field text.
Proof.
  intros Hrun. unfold clean_text in Hrun.
  destruct (truthy text) eqn:Ht; simpl negb in Hrun; cbv iota in Hrun.
  2:{ injection Hrun as <-. unfold clean_text_field. by rewrite Ht. }
  destruct text as [| | | |s]; try done. cbn [py_strip] in Hrun.
  change (Ok (strip s) ≫= ?k) with (k (strip s)) in Hrun.
  cbv beta zeta in Hrun.
  destruct (clean_words_join (strip s)) as (words & Heq & Hwords).
  rewrite Heq, (join_words_strip _ _ Hwords) in Hrun. injection Hrun as <-.
  destruct (strip_ends s) as [Hhead Hlast].
  unfold clean_text_field at 2. rewrite Ht. simpl negb. cbv iota.
  change (py_str (VStr s)) with s. unfold re_sub at 2.
  rewrite (sub_spaces_join (length (strip s))) by done.
  rewrite Heq.
  assert (join (lit " ") words = []
          ∨ truthy (VStr (join (lit " ") words)) = true) as [Hnil|Htrue].
  { destruct (join (lit " ") words); [by left|by right]. }
  { by rewrite Hnil. }
  unfold clean_text_field. rewrite Htrue. simpl negb. cbv iota.
  change (py_str (VStr ?t)) with t.
  rewrite (join_words_strip _ _ Hwords). unfold re_sub at 2.
  rewrite (sub_spaces_join (length (join (lit " ") words)));
    [|done|by eapply join_head|by eapply join_last].
  rewrite split_ws_join.
  2:{ eapply Forall_impl; [exact Hwords|]. intros w [Hne Hw]. split; [done|].
      eapply Forall_impl; [exact Hw|]. intros c [Hc _].
      split; [done|apply not_elem_of_nil]. }
  rewrite (replace_absent 0xA0)
    by (apply clean_words_absent; [done|by_decision]).
  rewrite (replace_absent 0x2019)
    by (apply clean_words_absent; [done|by_decision]).
  rewrite (replace_absent 0x201C)
    by (apply clean_words_absent; [done|by_decision]).
  rewrite (replace_absent 0x201D)
    by (apply clean_words_absent; [done|by_decision]).
  done.
Qed.

(** X23. The scrapers clean a text with [clean_text] before the cleaner
    cleans it with [clean_text_field]: the result is what [clean_text_field]
    makes of the text itself. *)
Theorem clean_text_then_clean_text_field (text : value) (cleaned : str) :
  clean_text text = Ok cleaned →
  clean_text_field (VStr cleaned) = clean_text_field text.
Proof. apply clean_text_field_after_clean_text. Qed.

End CleanTextTwiceField.

(** X23 on a text with a run of spaces and a question mark. *)
Lemma clean_text_then_clean_text_field_witness :
  clean_text_field (R := ascii_runtime) (VStr (lit "Why study (here)?"))
  = clean_text_field (R := ascii_runtime)
      (VStr (lit " Why   study (here)? ")).
Proof.
  apply (clean_text_then_clean_text_field (R := ascii_runtime)
           (VStr (lit " Why   study (here)? ")) (lit "Why study (here)?")).
  reflexivity.
Defined.

(** ** [helpers.create_course_record] before the cleaner *)

Section CreateThenClean.
Context {R : PyRuntime}.

(** The record after the text fields and the code were cleaned, field by
    field. *)
Lemma cleaned_text_and_code_lookup (course : CourseRecord) (key : string) :
  match foldl clean_text_at course text_fields !! "cao_code"%string with
  | Some v =>
      <["cao_code"%string := VStr (standardize_cao_code v)]>
        (foldl clean_text_at course text_fields)
  | None => foldl clean_text_at course text_fields
  end !! key
  = if decide (key = "cao_code"%string)
    then (λ v, VStr (standardize_cao_code v)) <$> course !! key
    else if decide (key ∈ text_fields)
         then (λ v, VStr (clean_text_field v)) <$> course !! key
         else course !! key.
Proof.
  assert (foldl clean_text_at course text_fields !! "cao_code"%string
          = course !! "cao_code"%string) as Hcao.
  { apply clean_text_fields_other. by_decision. }
  rewrite Hcao. destruct (decide (key = "cao_code"%string)) as [->|Hne].
  - destruct (course !! "cao_code"%string) as [v|] eqn:Hv.
    + by rewrite lookup_insert_eq.
    + by rewrite Hcao.
  - assert (foldl clean_text_at course text_fields !! key
            = if decide (key ∈ text_fields)
              then (λ v, VStr (clean_text_field v)) <$> course !! key
              else course !! key) as Hkey.
    { destruct (decide (key ∈ text_fields)).
      - by apply clean_text_fields_same; [apply text_fields_NoDup|].
      - by apply clean_text_fields_other. }
    destruct (course !! "cao_code"%string);
      [by rewrite lookup_insert_ne|done].
Qed.

(** Two records that differ only in text the cleaner cleans to the same are
    cleaned to the same record. *)
Lemma clean_single_course_ext (course1 course2 : CourseRecord) :
  (∀ key, key ∉ text_fields → key ≠ "cao_code"%string →
          course1 !! key = course2 !! key) →
  (∀ key, key ∈ text_fields →
          clean_text_field <$> course1 !! key
          = clean_text_field <$> course2 !! key) →
  standardize_cao_code <$> course1 !! "cao_code"%string
  = standardize_cao_code <$> course2 !! "cao_code"%string →
  clean_single_course course1 = clean_single_course course2.
Proof.
  intros Hother Htext Hcode. unfold clean_single_course.
  cbv zeta.
  match goal with
  | |- clean_number_at _ _ ?m1 ≫= _ = clean_number_at _ _ ?m2 ≫= _ =>
      assert (m1 = m2) as ->; [|done]
  end.
  apply map_eq. intros key. rewrite !cleaned_text_and_code_lookup.
  destruct (decide (key = "cao_code"%string)) as [->|Hne].
  - destruct (course1 !! "cao_code"%string), (course2 !! "cao_code"%string);
      simpl in *; congruence.
  - destruct (decide (key ∈ text_fields)) as [Hin|Hnin]; [|by apply Hother].
    specialize (Htext key Hin).
    destruct (course1 !! key), (course2 !! key); simpl in *; congruence.
Qed.

Lemma list_to_map_agree (keys : list string) (l1 l2 : list (string * value))
    (key : string) :
  Forall2 (λ p q, p.1 = q.1 ∧ (p.1 ∉ keys → p.2 = q.2)) l1 l2 →
  key ∉ keys →
  (list_to_map l1 : CourseRecord) !! key
  = (list_to_map l2 : CourseRecord) !! key.
Proof.
  intros Hall Hkey.
  induction Hall as [|[k1 v1] [k2 v2] l1 l2 [Hk Hv] Hall IH]; [done|].
  simpl in Hk, Hv. subst k2. rewrite !list_to_map_cons.
  destruct (decide (k1 = key)) as [->|Hne].
  - rewrite !lookup_insert_eq. f_equal. by apply Hv.
  - by rewrite !lookup_insert_ne.
Qed.

Lemma normalize_course_code_cases (code : value) (normalized : str) :
  normalize_course_code code = Ok normalized →
  (∃ text, code = VStr text) ∨ (truthy code = false ∧ normalized = []).
Proof.
  unfold normalize_course_code. destruct (truthy code) eqn:Ht.
  - destruct code; try done. eauto.
  - intros [= <-]. by right.
Qed.

(** X24. A scraper builds its record with [create_course_record], which
    cleans the text arguments with [clean_text] and the code with
    [normalize_course_code]; the cleaner then cleans the record with
    [clean_single_course].  The result is what [clean_single_course] makes
    of the arguments as they were given: the first cleaning changes nothing
    of the second.  The code is to be ASCII when it is text. *)
Theorem create_then_clean (a : course_arguments) (record : CourseRecord) :
  create_course_record a = Ok record →
  (∀ code, arg_cao_code a = VStr code → forallb is_ascii code = true) →
  clean_single_course record = clean_single_course (raw_record a).
Proof.
  unfold create_course_record. intros Hrun Hascii.
  destruct (normalize_course_code (arg_cao_code a)) as [code|] eqn:Hcode;
    [|done].
  change (Ok code ≫= ?k) with (k code) in Hrun. cbv beta in Hrun.
  destruct (clean_text (arg_name a)) as [name|] eqn:Hname; [|done].
  change (Ok name ≫= ?k) with (k name) in Hrun. cbv beta in Hrun.
  destruct (clean_text (arg_description a)) as [description|] eqn:Hdesc;
    [|done].
  change (Ok description ≫= ?k) with (k description) in Hrun.
  cbv beta in Hrun.
  destruct (clean_text (arg_duration a)) as [duration|] eqn:Hdur; [|done].
  change (Ok duration ≫= ?k) with (k duration) in Hrun. cbv beta in Hrun.
  destruct (clean_text (arg_tags a)) as [tags|] eqn:Htags; [|done].
  change (Ok tags ≫= ?k) with (k tags) in Hrun. cbv beta in Hrun.
  destruct (clean_text (arg_entry_requirements a)) as [entry|] eqn:Hentry;
    [|done].
  change (Ok entry ≫= ?k) with (k entry) in Hrun. cbv beta in Hrun.
  destruct (clean_text (arg_career_info a)) as [career|] eqn:Hcareer;
    [|done].
  change (Ok career ≫= ?k) with (k career) in Hrun. cbv beta in Hrun.
  injection Hrun as <-.
  apply clean_text_field_after_clean_text in Hname, Hdesc, Hdur, Htags,
    Hentry, Hcareer.
  apply clean_single_course_ext.
  - intros key Htext Hcao. unfold raw_record.
    apply (list_to_map_agree ("cao_code"%string :: text_fields)
             [("cao_code"%string, VStr code);
              ("name"%string, VStr name);
              ("description"%string, VStr description);
              ("nfq_level"%string, arg_nfq_level a);
              ("duration"%string, VStr duration);
              ("tags"%string, VStr tags);
              ("course_url"%string, arg_course_url a);
              ("college_id"%string, arg_college_id a);
              ("points"%string, arg_points a);
              ("entry_requirements"%string, VStr entry);
              ("career_info"%string, VStr career);
              ("created_at"%string, VStr (lit "2025-01-25T15:00:00"))]).
    + repeat (apply Forall2_cons; split; [split; [done|]|]);
        try apply Forall2_nil; try done; simpl; intros Hk; exfalso;
        apply Hk; by_decision.
    + apply not_elem_of_cons. by split.
  - intros key Hkey. unfold text_fields in Hkey.
    apply elem_of_cons in Hkey as [->|Hkey].
    { change (Some (clean_text_field (VStr name))
              = Some (clean_text_field (arg_name a))). by f_equal. }
    apply elem_of_cons in Hkey as [->|Hkey].
    { change (Some (clean_text_field (VStr description))
              = Some (clean_text_field (arg_description a))). by f_equal. }
    apply elem_of_cons in Hkey as [->|Hkey].
    { change (Some (clean_text_field (VStr duration))
              = Some (clean_text_field (arg_duration a))). by f_equal. }
    apply elem_of_cons in Hkey as [->|Hkey].
    { change (Some (clean_text_field (VStr tags))
              = Some (clean_text_field (arg_tags a))). by f_equal. }
    apply elem_of_cons in Hkey as [->|Hkey].
    { change (Some (clean_text_field (VStr entry))
              = Some (clean_text_field (arg_entry_requirements a))).
      by f_equal. }
    apply elem_of_cons in Hkey as [->|Hkey].
    { change (Some (clean_text_field (VStr career))
              = Some (clean_text_field (arg_career_info a))). by f_equal. }
    by apply elem_of_nil in Hkey.
  - change (Some (standardize_cao_code (VStr code))
            = Some (standardize_cao_code (arg_cao_code a))). f_equal.
    destruct (normalize_course_code_cases _ _ Hcode)
      as [[text Htext]|[Hfalsy ->]].
    + rewrite Htext in *. apply standardize_after_normalize; [|done].
      by apply Hascii.
    + unfold standardize_cao_code. by rewrite Hfalsy.
Qed.

End CreateThenClean.

(** X24 on what a scraper passes for a course. *)
Lemma create_then_clean_witness :
  clean_single_course (R := ascii_runtime) physics_created
  = clean_single_course (R := ascii_runtime) (raw_record physics_arguments).
Proof.
  apply (create_then_clean (R := ascii_runtime) physics_arguments).
  - reflexivity.
  - intros code [= <-]. reflexivity.
Defined.

(** ** Keys of cleaned records *)

Section KeysOfCleaned.
Context {R : PyRuntime}.

(** Two texts cut at the first [x] are equal part by part. *)
Lemma app_cut_at (x : N) (n1 n2 s1 s2 : str) :
  x ∉ n1 → x ∉ n2 →
  match s1 with c :: _ => c = x | [] => True end →
  match s2 with c :: _ => c = x | [] => True end →
  n1 ++ s1 = n2 ++ s2 → n1 = n2 ∧ s1 = s2.
Proof.
  revert n2. induction n1 as [|a n1 IH]; intros n2 H1 H2 Hs1 Hs2 Heq.
  - destruct n2 as [|b n2]; [done|]. simpl in Heq.
    destruct s1 as [|c s1]; [done|]. injection Heq as -> _.
    subst b. exfalso. apply H2. by left.
  - destruct n2 as [|b n2].
    + simpl in Heq. destruct s2 as [|c s2]; [done|]. injection Heq as <- _.
      subst a. exfalso. apply H1. by left.
    + injection Heq as -> Heq.
      apply not_elem_of_cons in H1 as [_ H1], H2 as [_ H2].
      destruct (IH n2 H1 H2 Hs1 Hs2 Heq) as [-> ->]. done.
Qed.

Lemma lower_char_facts (c : N) :
  (lower_char c = 124 → c = 124)
  ∧ (is_space c = false → is_space (lower_char c) = false).
Proof.
  unfold lower_char. destruct (is_upper_AZ c) eqn:Hu; [|done].
  unfold is_upper_AZ, in_range in Hu. apply andb_true_iff in Hu as [H1 H2].
  apply N.leb_le in H1, H2. split; [lia|]. intros _.
  unfold is_space, in_range.
  assert (∀ a b x, (x < a ∨ b < x) → (a <=? x) && (x <=? b) = false) as Hout.
  { intros a b x [?|?]; apply andb_false_iff;
      [left|right]; apply N.leb_gt; lia. }
  rewrite !Hout by lia.
  by repeat (rewrite (proj2 (N.eqb_neq _ _)) by lia).
Qed.

(** The name of a cleaned record: no ["|"], no whitespace at the ends. *)
Lemma cleaned_name (raw cleaned : CourseRecord) (name : str) :
  clean_single_course raw = Ok cleaned →
  get_or cleaned "name" (VStr []) = VStr name →
  (124 ∉ name) ∧ strip name = name.
Proof.
  intros Hrun Hname.
  assert (cleaned !! "name"%string
          = (λ v, VStr (clean_text_field v)) <$> raw !! "name"%string)
    as Hlookup.
  { unfold clean_single_course in Hrun.
    destruct (clean_number_at clean_nfq_level _ _) as [c2|] eqn:H2;
      simpl in Hrun; [|done].
    destruct (clean_number_at clean_points _ _) as [c3|] eqn:H3;
      simpl in Hrun; [|done].
    destruct (clean_number_at clean_college_id _ _) as [c4|] eqn:H4;
      simpl in Hrun; [|done].
    injection Hrun as <-.
    apply clean_number_at_Ok in H2 as [H2 _], H3 as [H3 _], H4 as [H4 _].
    rewrite H4, H3, H2 by done. rewrite cleaned_text_and_code_lookup.
    rewrite decide_False by done. rewrite decide_True by by_decision. done. }
  unfold get_or in Hname. rewrite Hlookup in Hname.
  destruct (raw !! "name"%string) as [v|]; simpl in Hname;
    [|injection Hname as <-; split; [apply not_elem_of_nil|done]].
  injection Hname as <-. split.
  - intros Hin. pose proof (clean_text_field_allowlist v) as Hallow.
    rewrite Forall_forall in Hallow. by specialize (Hallow _ Hin).
  - unfold clean_text_field. destruct (truthy v); [|done]. apply strip_idemp.
Qed.

(** The code of a cleaned record: letters and digits. *)
Lemma cleaned_code (raw cleaned : CourseRecord) (code : str) :
  clean_single_course raw = Ok cleaned →
  get_or cleaned "cao_code" (VStr []) = VStr code →
  Forall (λ c, is_upper_AZ c || is_digit c = true) code.
Proof.
  intros Hrun Hcode.
  assert (cleaned !! "cao_code"%string
          = (λ v, VStr (standardize_cao_code v)) <$> raw !! "cao_code"%string)
    as Hlookup.
  { unfold clean_single_course in Hrun.
    destruct (clean_number_at clean_nfq_level _ _) as [c2|] eqn:H2;
      simpl in Hrun; [|done].
    destruct (clean_number_at clean_points _ _) as [c3|] eqn:H3;
      simpl in Hrun; [|done].
    destruct (clean_number_at clean_college_id _ _) as [c4|] eqn:H4;
      simpl in Hrun; [|done].
    injection Hrun as <-.
    apply clean_number_at_Ok in H2 as [H2 _], H3 as [H3 _], H4 as [H4 _].
    rewrite H4, H3, H2 by done. rewrite cleaned_text_and_code_lookup.
    by rewrite decide_True. }
  unfold get_or in Hcode. rewrite Hlookup in Hcode.
  destruct (raw !! "cao_code"%string) as [v|]; simpl in Hcode;
    [|by injection Hcode as <-].
  injection Hcode as <-. apply standardize_cao_code_chars.
Qed.

(** The key of a cleaned record with an ASCII name and code. *)
Lemma cleaned_key (raw cleaned : CourseRecord) (name code : str) :
  clean_single_course raw = Ok cleaned →
  get_or cleaned "name" (VStr []) = VStr name →
  get_or cleaned "cao_code" (VStr []) = VStr code →
  forallb is_ascii name = true → forallb is_ascii code = true →
  dedup_key cleaned
  = Ok (lower name ++ match code with [] => [] | _ => 124 :: code end)
  ∧ (124 ∉ lower name) ∧ (124 ∉ code).
Proof.
  intros Hrun Hname Hcode Hn Hc.
  destruct (cleaned_name _ _ _ Hrun Hname) as [Hbar Hstrip].
  pose proof (cleaned_code _ _ _ Hrun Hcode) as Hchars.
  assert (Forall (λ c, is_upper_AZ c || is_digit_09 c = true) code) as H09.
  { apply Forall_forall. intros c Hin. rewrite Forall_forall in Hchars.
    specialize (Hchars c Hin). rewrite forallb_forall in Hc.
    unfold is_digit in Hchars.
    by rewrite (Hc c (proj1 (list_elem_of_In _ _) Hin)) in Hchars. }
  assert (strip code = code) as Hcs.
  { apply strip_no_space. eapply Forall_impl; [exact H09|]. intros c Hx.
    by destruct (code_character c Hx). }
  assert (lower name = lower_char <$> name) as Hlow.
  { unfold lower. by rewrite Hn. }
  assert (strip (lower name) = lower name) as Hls.
  { rewrite Hlow. rewrite <- Hstrip at 1 2.
    destruct (strip_ends name) as [Hhead Hlast]. rewrite Hstrip in *.
    apply strip_fixed.
    - destruct name as [|c t]; [done|]. simpl.
      by apply (lower_char_facts c).
    - rewrite fmap_last. destruct (last name) as [c|]; [|done]. simpl.
      by apply (lower_char_facts c). }
  split; [|split].
  - unfold dedup_key. rewrite Hname, Hcode. cbn [py_lower py_strip].
    change (Ok ?a ≫= ?k) with (k a). cbv beta zeta.
    change (Ok ?a ≫= ?k) with (k a). cbv beta.
    rewrite Hls, Hcs. destruct code; [by rewrite app_nil_r|done].
  - rewrite Hlow. intros (c & Hc124 & Hin)%list_elem_of_fmap.
    symmetry in Hc124. apply (lower_char_facts c) in Hc124. by subst c.
  - intros Hin. rewrite Forall_forall in H09. specialize (H09 _ Hin). done.
Qed.

(** X25. Among cleaned records with ASCII names and codes, the key of
    [remove_duplicates] tells records apart: two of them have the same key
    only when their names are equal up to the case of the letters and their
    codes are equal.  Records that differ in more than that are never taken
    for duplicates of each other. *)
Theorem dedup_key_of_cleaned_injective
    (raw1 raw2 cleaned1 cleaned2 : CourseRecord)
    (name1 name2 code1 code2 : str) :
  clean_single_course raw1 = Ok cleaned1 →
  clean_single_course raw2 = Ok cleaned2 →
  get_or cleaned1 "name" (VStr []) = VStr name1 →
  get_or cleaned2 "name" (VStr []) = VStr name2 →
  get_or cleaned1 "cao_code" (VStr []) = VStr code1 →
  get_or cleaned2 "cao_code" (VStr []) = VStr code2 →
  forallb is_ascii (name1 ++ name2 ++ code1 ++ code2) = true →
  dedup_key cleaned1 = dedup_key cleaned2 →
  lower name1 = lower name2 ∧ code1 = code2.
Proof.
  intros Hrun1 Hrun2 Hn1 Hn2 Hc1 Hc2 Hascii Hkeys.
  rewrite !forallb_app in Hascii.
  apply andb_true_iff in Hascii as [Ha1 Hascii].
  apply andb_true_iff in Hascii as [Ha2 Hascii].
  apply andb_true_iff in Hascii as [Ha3 Ha4].
  destruct (cleaned_key _ _ _ _ Hrun1 Hn1 Hc1 Ha1 Ha3) as (Hk1 & Hb1 & Hd1).
  destruct (cleaned_key _ _ _ _ Hrun2 Hn2 Hc2 Ha2 Ha4) as (Hk2 & Hb2 & Hd2).
  rewrite Hk1, Hk2 in Hkeys. injection Hkeys as Hkeys.
  apply (app_cut_at 124) in Hkeys as [Hnames Hcodes]; [|done|done|..].
  - split; [done|]. destruct code1, code2; try done.
    by injection Hcodes as -> ->.
  - by destruct code1.
  - by destruct code2.
Qed.

End KeysOfCleaned.

(** X25 on two scraped records that differ in the case of the name. *)
Lemma dedup_key_of_cleaned_injective_witness :
  lower (R := ascii_runtime) (lit "Physics")
  = lower (R := ascii_runtime) (lit "PHYSICS")
  ∧ (lit "TU856" : str) = lit "TU856".
Proof.
  apply (dedup_key_of_cleaned_injective (R := ascii_runtime)
           (list_to_map [("name"%string, VStr (lit " Physics "));
                         ("cao_code"%string, VStr (lit "tu 856"))])
           (list_to_map [("name"%string, VStr (lit "PHYSICS"));
                         ("cao_code"%string, VStr (lit "TU856"))])
           (list_to_map [("name"%string, VStr (lit "Physics"));
                         ("cao_code"%string, VStr (lit "TU856"))])
           (list_to_map [("name"%string, VStr (lit "PHYSICS"));
                         ("cao_code"%string, VStr (lit "TU856"))]));
    reflexivity.
Defined.

(** ** Keywords *)

Section Keywords.
Context {R : PyRuntime}.

(** X26. [generate_keywords] takes the words of the name that are longer
    than 2, the words of the description that are longer than 3 and the
    tags, and returns, joined by [", "], the one list that holds exactly
    those of them that are no stop word, in the order of [sorted] and
    without a repeat. *)
Theorem generate_keywords_sorted (course : CourseRecord)
    (from_name from_description from_tags : gset str) :
  long_words 2 (get_or course "name" (VStr [])) = Ok from_name →
  long_words 3 (get_or course "description" (VStr [])) = Ok from_description →
  tag_words (get_or course "tags" (VStr [])) = Ok from_tags →
  ∃ words,
    generate_keywords course = Ok (join (lit ", ") words)
    ∧ Sorted str_le words ∧ NoDup words
    ∧ (∀ w, w ∈ words
            ↔ (w ∈ from_name ∨ w ∈ from_description ∨ w ∈ from_tags)
              ∧ w ∉ stop_words)
    ∧ ∀ others,
        Sorted str_le others → NoDup others →
        (∀ w, w ∈ others
              ↔ (w ∈ from_name ∨ w ∈ from_description ∨ w ∈ from_tags)
                ∧ w ∉ stop_words) →
        others = words.
Proof.
  intros Hname Hdescription Htags. unfold generate_keywords.
  rewrite Hname, Hdescription, Htags.
  change (Ok ?a ≫= ?k) with (k a). cbv beta zeta.
  set (kept := (from_name ∪ from_description ∪ from_tags) ∖ stop_words).
  destruct (sorted_spec (elements kept)) as [Hsorted Hperm].
  assert (NoDup (sorted (elements kept))) as Hnodup.
  { rewrite Hperm. apply NoDup_elements. }
  assert (∀ w, w ∈ sorted (elements kept)
               ↔ (w ∈ from_name ∨ w ∈ from_description ∨ w ∈ from_tags)
                 ∧ w ∉ stop_words) as Hwords.
  { intros w. rewrite Hperm, elem_of_elements. unfold kept.
    rewrite elem_of_difference, !elem_of_union. tauto. }
  exists (sorted (elements kept)).
  split; [done|]. split; [done|]. split; [done|]. split; [done|].
  intros others Hsorted' Hnodup' Hothers.
  apply (Sorted_unique str_le); [done..|].
  apply NoDup_Permutation; [done..|].
  intros w. by rewrite Hothers, Hwords.
Qed.

End Keywords.

(** X26 on the record named "Physics", once it has its tags. *)
Lemma generate_keywords_sorted_witness :
  ∃ words,
    generate_keywords (R := ascii_runtime)
      (<["tags"%string := VStr (lit "STEM")]> physics_a)
    = Ok (join (lit ", ") words)
    ∧ Sorted str_le words ∧ NoDup words
    ∧ (∀ w, w ∈ words
            ↔ (w ∈ ({[lit "physics"]} : gset str) ∨ w ∈ (∅ : gset str)
               ∨ w ∈ ({[lit "stem"]} : gset str))
              ∧ w ∉ stop_words)
    ∧ ∀ others,
        Sorted str_le others → NoDup others →
        (∀ w, w ∈ others
              ↔ (w ∈ ({[lit "physics"]} : gset str) ∨ w ∈ (∅ : gset str)
                 ∨ w ∈ ({[lit "stem"]} : gset str))
                ∧ w ∉ stop_words) →
        others = words.
Proof.
  apply (generate_keywords_sorted (R := ascii_runtime)
           (<["tags"%string := VStr (lit "STEM")]> physics_a)).
  - by vm_compute.
  - by vm_compute.
  - by vm_compute.
Defined.
